(** * foolrenderer teaser video: the two frame drivers and the pipeline they drive

    The repository holds two frame drivers, [anim_violin.c] and the eagle
    driver.  Both load a model, set up a framebuffer and a 1x1 default shadow
    map, and render 135 frames through the foolrenderer pipeline
    (graphics/, math/, shaders/, utilities/), saving one image per frame.

    The drivers are embedded as they are written: a state and error monad
    over the file-scope statics and the state of the graphics library, with
    every library call logged in a trace.  C [float] arithmetic is kept
    behind the class [Scalar], with two instances: [binary32] (IEEE 754
    single precision, round to nearest even, through the Standard Library's
    [SpecFloat]) is what the C code computes; [exact] (rationals) is the
    arithmetic in which the specification states the shading and
    rasterisation formulas. *)

From Stdlib Require Import ZArith QArith Qminmax Qround Lia Lqa Ascii String.
From Stdlib Require Import Floats.SpecFloat.
From stdpp Require Import gmap strings list.

Local Open Scope Z_scope.

(** ** C [float]: IEEE 754 binary32 *)

Module F32.
Definition prec : Z := 24.
Definition emax : Z := 128.
Definition t : Type := spec_float.

Definition add : t -> t -> t := SFadd prec emax.
Definition sub : t -> t -> t := SFsub prec emax.
Definition mul : t -> t -> t := SFmul prec emax.
Definition div : t -> t -> t := SFdiv prec emax.
Definition opp : t -> t := SFopp.
Definition leb : t -> t -> bool := SFleb.
Definition ltb : t -> t -> bool := SFltb.
Definition eqb : t -> t -> bool := SFeqb.

(** [(float)z] for an [int] z. *)
Definition of_Z (z : Z) : t := binary_normalize prec emax z 0 false.

(** A decimal literal such as [0.94f], written n/d with n and d below
    2^24: the correctly rounded quotient of two exactly represented
    integers is the binary32 number nearest to the literal. *)
Definition lit (n : Z) (d : positive) : t := div (of_Z n) (of_Z (Zpos d)).

(** The magnitude of a finite number as an integer, rounded toward 0. *)
Definition magnitude (m : positive) (e : Z) : Z :=
  match e with
  | Z0 => Zpos m
  | Zpos _ => Z.shiftl (Zpos m) e
  | Zneg p => Z.shiftr (Zpos m) (Zpos p)
  end.

(** [(int)x]: truncation toward zero.  The cast of a NaN or an infinity is
    undefined in C; the model returns 0 there. *)
Definition to_int (x : t) : Z :=
  match x with
  | S754_finite s m e => if s then - magnitude m e else magnitude m e
  | _ => 0
  end.

(** The rational a finite number stands for (0 for NaN and infinities). *)
Definition to_Q (x : t) : Q :=
  match x with
  | S754_finite s m e =>
      let a := match e with
               | Z0 => inject_Z (Zpos m)
               | Zpos _ => inject_Z (Z.shiftl (Zpos m) e)
               | Zneg p => Qmake (Zpos m) (Pos.shiftl 1 (Npos p))
               end in
      if s then Qopp a else a
  | _ => 0%Q
  end.

End F32.

(** ** The arithmetic the code is written over *)

Class Scalar (A : Type) : Type := {
  of_Z : Z -> A;
  lit : Z -> positive -> A;
  fadd : A -> A -> A;
  fsub : A -> A -> A;
  fmul : A -> A -> A;
  fdiv : A -> A -> A;
  fopp : A -> A;
  fleb : A -> A -> bool;
  fltb : A -> A -> bool;
  feqb : A -> A -> bool;
  to_int : A -> Z
}.

Declare Scope float_scope.
Delimit Scope float_scope with F.
Infix "+" := fadd : float_scope.
Infix "-" := fsub : float_scope.
Infix "*" := fmul : float_scope.
Infix "/" := fdiv : float_scope.
Notation "- a" := (fopp a) : float_scope.
Infix "<=?" := fleb : float_scope.
Infix "<?" := fltb : float_scope.
Infix "=?" := feqb : float_scope.

#[export] Instance binary32 : Scalar F32.t := {
  of_Z := F32.of_Z;
  lit := F32.lit;
  fadd := F32.add;
  fsub := F32.sub;
  fmul := F32.mul;
  fdiv := F32.div;
  fopp := F32.opp;
  fleb := F32.leb;
  fltb := F32.ltb;
  feqb := F32.eqb;
  to_int := F32.to_int
}.

(** [(int)q] on a rational: truncation toward zero, as the C cast. *)
Definition Qtruncate (q : Q) : Z := Z.quot (Qnum q) (Zpos (Qden q)).

#[export] Instance exact : Scalar Q := {
  of_Z := inject_Z;
  lit := Qmake;
  fadd := Qplus;
  fsub := Qminus;
  fmul := Qmult;
  fdiv := Qdiv;
  fopp := Qopp;
  fleb := Qle_bool;
  fltb := fun a b => negb (Qle_bool b a);
  feqb := Qeq_bool;
  to_int := Qtruncate
}.

(** ** math/vector.h and math/matrix.h

    The headers are not part of the sources.  The types are the records the
    drivers build with compound literals; a [matrix4x4] is row-major, the
    rows being the inner braces of the literal in [render_model]. *)

Record vector2 (A : Type) : Type := Vector2 { x2 : A; y2 : A }.
Record vector3 (A : Type) : Type := Vector3 { x3 : A; y3 : A; z3 : A }.
Record vector4 (A : Type) : Type := Vector4 { x4 : A; y4 : A; z4 : A; w4 : A }.
Record matrix3x3 (A : Type) : Type :=
  Matrix3x3 { r0 : vector3 A; r1 : vector3 A; r2 : vector3 A }.
Record matrix4x4 (A : Type) : Type :=
  Matrix4x4 { row0 : vector4 A; row1 : vector4 A; row2 : vector4 A; row3 : vector4 A }.

Arguments Vector2 {A} _ _.
Arguments x2 {A} _.
Arguments y2 {A} _.
Arguments Vector3 {A} _ _ _.
Arguments x3 {A} _.
Arguments y3 {A} _.
Arguments z3 {A} _.
Arguments Vector4 {A} _ _ _ _.
Arguments x4 {A} _.
Arguments y4 {A} _.
Arguments z4 {A} _.
Arguments w4 {A} _.
Arguments Matrix3x3 {A} _ _ _.
Arguments r0 {A} _.
Arguments r1 {A} _.
Arguments r2 {A} _.
Arguments Matrix4x4 {A} _ _ _ _.
Arguments row0 {A} _.
Arguments row1 {A} _.
Arguments row2 {A} _.
Arguments row3 {A} _.

Section LinearAlgebra.
Context {A : Type} `{Scalar A}.
Local Open Scope float_scope.

Definition VECTOR3_ONE : vector3 A := Vector3 (of_Z 1) (of_Z 1) (of_Z 1).

(** Modelled from the spec: math/vector.h is missing; the componentwise sum
    the violin driver uses to offset the light direction. *)
Definition vector3_add (a b : vector3 A) : vector3 A :=
  Vector3 (x3 a + x3 b) (y3 a + y3 b) (z3 a + z3 b).

(** Modelled from the spec: math/vector.h is missing; the scaling of a
    vector the violin driver uses to place the camera at a distance. *)
Definition vector3_multiply_scalar (a : vector3 A) (k : A) : vector3 A :=
  Vector3 (x3 a * k) (y3 a * k) (z3 a * k).

(** Modelled from the spec: math/math_utility.h is missing; "linearly
    interpolating" from [a] to [b] by the interpolant [t]. *)
Definition float_lerp (a b t : A) : A := a + t * (b - a).

Definition dot4 (a b : vector4 A) : A :=
  x4 a * x4 b + y4 a * y4 b + z4 a * z4 b + w4 a * w4 b.

Definition column0 (m : matrix4x4 A) : vector4 A :=
  Vector4 (x4 (row0 m)) (x4 (row1 m)) (x4 (row2 m)) (x4 (row3 m)).
Definition column1 (m : matrix4x4 A) : vector4 A :=
  Vector4 (y4 (row0 m)) (y4 (row1 m)) (y4 (row2 m)) (y4 (row3 m)).
Definition column2 (m : matrix4x4 A) : vector4 A :=
  Vector4 (z4 (row0 m)) (z4 (row1 m)) (z4 (row2 m)) (z4 (row3 m)).
Definition column3 (m : matrix4x4 A) : vector4 A :=
  Vector4 (w4 (row0 m)) (w4 (row1 m)) (w4 (row2 m)) (w4 (row3 m)).

(** Modelled from the spec: math/matrix.h is missing; the product of a
    matrix and a column vector, "applied as a homogeneous transform". *)
Definition matrix4x4_multiply_vector4 (m : matrix4x4 A) (v : vector4 A) : vector4 A :=
  Vector4 (dot4 (row0 m) v) (dot4 (row1 m) v) (dot4 (row2 m) v) (dot4 (row3 m) v).

Definition row_times (r : vector4 A) (m : matrix4x4 A) : vector4 A :=
  Vector4 (dot4 r (column0 m)) (dot4 r (column1 m))
          (dot4 r (column2 m)) (dot4 r (column3 m)).

(** Modelled from the spec: math/matrix.h is missing; the row-by-column
    product, [matrix4x4_multiply a b] transforming by [b] first. *)
Definition matrix4x4_multiply (a b : matrix4x4 A) : matrix4x4 A :=
  Matrix4x4 (row_times (row0 a) b) (row_times (row1 a) b)
            (row_times (row2 a) b) (row_times (row3 a) b).

(** Modelled from the spec: math/matrix.h is missing; "the upper 3x3 of
    local->world". *)
Definition matrix4x4_to_3x3 (m : matrix4x4 A) : matrix3x3 A :=
  Matrix3x3 (Vector3 (x4 (row0 m)) (y4 (row0 m)) (z4 (row0 m)))
            (Vector3 (x4 (row1 m)) (y4 (row1 m)) (z4 (row1 m)))
            (Vector3 (x4 (row2 m)) (y4 (row2 m)) (z4 (row2 m))).

Definition vector3_to_4 (v : vector3 A) (w : A) : vector4 A :=
  Vector4 (x3 v) (y3 v) (z3 v) w.

(** A static [matrix4x4] without initializer: every element is +0.0. *)
Definition matrix4x4_zero : matrix4x4 A :=
  let o := of_Z 0 in
  Matrix4x4 (Vector4 o o o o) (Vector4 o o o o) (Vector4 o o o o) (Vector4 o o o o).

Definition matrix4x4_identity : matrix4x4 A :=
  let o := of_Z 0 in
  let i := of_Z 1 in
  Matrix4x4 (Vector4 i o o o) (Vector4 o i o o) (Vector4 o o i o) (Vector4 o o o i).

(** [scale_bias] of [render_model], the same literal in both drivers:
    "Remap each component of position from [-1, 1] to [0, 1]." *)
Definition scale_bias : matrix4x4 A :=
  Matrix4x4 (Vector4 (lit 5 10) (lit 0 10) (lit 0 10) (lit 5 10))
            (Vector4 (lit 0 10) (lit 5 10) (lit 0 10) (lit 5 10))
            (Vector4 (lit 0 10) (lit 0 10) (lit 5 10) (lit 5 10))
            (Vector4 (lit 0 10) (lit 0 10) (lit 0 10) (lit 10 10)).

End LinearAlgebra.

(** ** graphics/, shaders/ and utilities/: the data of the library

    A pointer is [None] for NULL and [Some h] for the object allocated under
    the handle [h]. *)

Definition handle : Type := nat.
Definition ptr : Type := option handle.

Inductive texture_format : Type :=
| TEXTURE_FORMAT_R8
| TEXTURE_FORMAT_RGBA8
| TEXTURE_FORMAT_SRGB8_A8
| TEXTURE_FORMAT_DEPTH_FLOAT.

Inductive attachment_type : Type :=
| COLOR_ATTACHMENT
| DEPTH_ATTACHMENT.

Inductive vertex_shader : Type :=
| standard_vertex_shader
| shadow_casting_vertex_shader.

Inductive fragment_shader : Type :=
| standard_fragment_shader
| shadow_casting_fragment_shader.

(** What one pixel of a texture holds: nothing yet, a depth, a colour
    written by the pipeline, or the bytes a driver or a loader copied in. *)
Inductive texel (A : Type) : Type :=
| Uninit
| Depth (d : A)
| Color (c : vector4 A)
| Bytes (bs : list Z).

Arguments Uninit {A}.
Arguments Depth {A} d.
Arguments Color {A} c.
Arguments Bytes {A} bs.

Record texture (A : Type) : Type := Texture {
  format : texture_format;
  width : nat;
  height : nat;
  pixels : list (texel A)
}.

Arguments Texture {A} _ _ _ _.
Arguments format {A} _.
Arguments width {A} _.
Arguments height {A} _.
Arguments pixels {A} _.

Record framebuffer : Type := Framebuffer {
  color_attachment : ptr;
  depth_attachment : ptr
}.

Record standard_vertex_attribute (A : Type) : Type := StandardVertexAttribute {
  position : vector3 A;
  normal : vector3 A;
  tangent : vector4 A;
  texcoord : vector2 A
}.

Arguments StandardVertexAttribute {A} _ _ _ _.
Arguments position {A} _.
Arguments normal {A} _.
Arguments tangent {A} _.
Arguments texcoord {A} _.

Definition triangle (A : Type) : Type :=
  (standard_vertex_attribute A * standard_vertex_attribute A
   * standard_vertex_attribute A)%type.

(** A loaded mesh: [triangle_count] is the length of [triangles], and
    [get_mesh_position] and its siblings read the attributes of corner [v]
    of triangle [t]. *)
Record mesh (A : Type) : Type := Mesh { triangles : list (triangle A) }.

Arguments Mesh {A} _.
Arguments triangles {A} _.

Record standard_uniform (A : Type) : Type := StandardUniform {
  local2world : matrix4x4 A;
  world2clip : matrix4x4 A;
  local2world_direction : matrix3x3 A;
  local2world_normal : matrix3x3 A;
  u_camera_position : vector3 A;
  u_light_direction : vector3 A;
  illuminance : vector3 A;
  world2light : matrix4x4 A;
  u_shadow_map : ptr;
  ambient_luminance : vector3 A;
  normal_map : ptr;
  base_color : vector3 A;
  base_color_map : ptr;
  metallic : A;
  metallic_map : ptr;
  roughness : A;
  roughness_map : ptr;
  reflectance : A
}.

Arguments StandardUniform {A} _ _ _ _ _ _ _ _ _ _ _ _ _ _ _ _ _ _.
Arguments local2world {A} _.
Arguments world2clip {A} _.
Arguments local2world_direction {A} _.
Arguments local2world_normal {A} _.
Arguments u_camera_position {A} _.
Arguments u_light_direction {A} _.
Arguments illuminance {A} _.
Arguments world2light {A} _.
Arguments u_shadow_map {A} _.
Arguments ambient_luminance {A} _.
Arguments normal_map {A} _.
Arguments base_color {A} _.
Arguments base_color_map {A} _.
Arguments metallic {A} _.
Arguments metallic_map {A} _.
Arguments roughness {A} _.
Arguments roughness_map {A} _.
Arguments reflectance {A} _.

(** Every call into the library, in the order of the calls. *)
Inductive event (A : Type) : Type :=
| EvLoadMesh (path : string) (result : ptr)
| EvLoadImage (path : string) (is_color_data : bool) (result : ptr)
| EvCreateFramebuffer (result : ptr)
| EvCreateTexture (f : texture_format) (w h : nat) (result : ptr)
| EvSetTexturePixels (t : ptr) (data : list (texel A))
| EvAttach (fb : ptr) (slot : attachment_type) (t : ptr)
| EvDestroyTexture (t : ptr)
| EvDestroyFramebuffer (fb : ptr)
| EvDestroyMesh (m : ptr)
| EvSetViewport (left bottom w h : Z)
| EvSetVertexShader (s : vertex_shader)
| EvSetFragmentShader (s : fragment_shader)
| EvSetClearColor (c : vector4 A)
| EvClearFramebuffer (fb : ptr)
| EvDrawTriangle (fb : ptr) (u : standard_uniform A) (t : triangle A)
| EvPrintf (s : string)
| EvSaveImage (t : ptr) (name : string) (is_color_data : bool) (image : texture A).

Arguments EvLoadMesh {A} _ _.
Arguments EvLoadImage {A} _ _ _.
Arguments EvCreateFramebuffer {A} _.
Arguments EvCreateTexture {A} _ _ _ _.
Arguments EvSetTexturePixels {A} _ _.
Arguments EvAttach {A} _ _ _.
Arguments EvDestroyTexture {A} _.
Arguments EvDestroyFramebuffer {A} _.
Arguments EvDestroyMesh {A} _.
Arguments EvSetViewport {A} _ _ _ _.
Arguments EvSetVertexShader {A} _.
Arguments EvSetFragmentShader {A} _.
Arguments EvSetClearColor {A} _.
Arguments EvClearFramebuffer {A} _.
Arguments EvDrawTriangle {A} _ _ _.
Arguments EvPrintf {A} _.
Arguments EvSaveImage {A} _ _ _ _.

(** The state of the library: the live objects, the allocation counter,
    the rasterizer's settings and the calls made so far (latest first). *)
Record world (A : Type) : Type := World {
  textures : gmap handle (texture A);
  framebuffers : gmap handle framebuffer;
  meshes : gmap handle (mesh A);
  next : handle;
  viewport : Z * Z * Z * Z;
  current_vertex_shader : option vertex_shader;
  current_fragment_shader : option fragment_shader;
  clear_color : vector4 A;
  trace : list (event A)
}.

Arguments World {A} _ _ _ _ _ _ _ _ _.
Arguments textures {A} _.
Arguments framebuffers {A} _.
Arguments meshes {A} _.
Arguments next {A} _.
Arguments viewport {A} _.
Arguments current_vertex_shader {A} _.
Arguments current_fragment_shader {A} _.
Arguments clear_color {A} _.
Arguments trace {A} _.

(** The file-scope statics of a driver; both drivers declare the same. *)
Record statics (A : Type) : Type := Statics {
  light_direction : vector3 A;
  camera_position : vector3 A;
  camera_target : vector3 A;
  rotation_y : A;
  fov : A;
  shadow_framebuffer : ptr;
  shadow_map : ptr;
  framebuffer_ : ptr;
  color_buffer : ptr;
  depth_buffer : ptr;
  light_world2clip : matrix4x4 A
}.

Arguments Statics {A} _ _ _ _ _ _ _ _ _ _ _.
Arguments light_direction {A} _.
Arguments camera_position {A} _.
Arguments camera_target {A} _.
Arguments rotation_y {A} _.
Arguments fov {A} _.
Arguments shadow_framebuffer {A} _.
Arguments shadow_map {A} _.
Arguments framebuffer_ {A} _.
Arguments color_buffer {A} _.
Arguments depth_buffer {A} _.
Arguments light_world2clip {A} _.

Record state (A : Type) : Type := State { globals : statics A; lib : world A }.

Arguments State {A} _ _.
Arguments globals {A} _.
Arguments lib {A} _.

(** What the run depends on from outside: the files, and which allocations
    (numbered by the allocation counter) succeed. *)
Record environment (A : Type) : Type := Environment {
  mesh_files : string -> option (mesh A);
  image_files : string -> bool -> option (texture A);
  alloc_ok : nat -> bool
}.

Arguments Environment {A} _ _ _.
Arguments mesh_files {A} _ _.
Arguments image_files {A} _ _ _.
Arguments alloc_ok {A} _ _.

(** What [draw_triangle] does to the attachments of its framebuffer is the
    rasterizer's business: a function of the rasterizer settings, the live
    textures (which the fragment stage samples), the two attachments, the
    uniform block and the triangle. *)
Definition rasterizer (A : Type) : Type :=
  Z * Z * Z * Z -> option vertex_shader -> option fragment_shader ->
  gmap handle (texture A) -> option (texture A) -> option (texture A) ->
  standard_uniform A -> triangle A -> option (texture A) * option (texture A).

(** ** The driver monad: state, with [None] for a run that dereferences a
    null or dangling pointer (undefined behaviour in C) *)

Definition M (A X : Type) : Type := state A -> option (X * state A).

Definition ret {A X : Type} (x : X) : M A X := fun s => Some (x, s).

Definition bind {A X Y : Type} (m : M A X) (k : X -> M A Y) : M A Y :=
  fun s => match m s with
           | Some (x, s') => k x s'
           | None => None
           end.

Declare Scope driver_scope.
Delimit Scope driver_scope with driver.
Notation "x ← y ; z" := (bind y (fun x => z))
  (at level 20, y at level 100, z at level 200, only parsing) : driver_scope.
Notation "y ;; z" := (bind y (fun _ => z))
  (at level 100, z at level 200, only parsing, right associativity) : driver_scope.

(** [for (int i = 0; i < n; i++) body(i)] *)
Fixpoint for_loop {A : Type} (n : nat) (body : Z -> M A unit) : M A unit :=
  match n with
  | O => ret tt
  | S k => bind (for_loop k body) (fun _ => body (Z.of_nat k))
  end.

(** [for (size_t t = 0; t < count; t++) body(element t)] over the
    elements of a list, in order. *)
Fixpoint for_each {A X : Type} (l : list X) (body : X -> M A unit) : M A unit :=
  match l with
  | [] => ret tt
  | x :: l' => bind (body x) (fun _ => for_each l' body)
  end.

Section Library.
Context {A : Type} `{Scalar A}.
Variable env : environment A.
Variable rasterize : rasterizer A.
Local Open Scope driver_scope.

Definition log (e : event A) (w : world A) : world A :=
  World (textures w) (framebuffers w) (meshes w) (next w) (viewport w)
        (current_vertex_shader w) (current_fragment_shader w) (clear_color w)
        (e :: trace w).

Definition with_textures (m : gmap handle (texture A)) (w : world A) : world A :=
  World m (framebuffers w) (meshes w) (next w) (viewport w)
        (current_vertex_shader w) (current_fragment_shader w) (clear_color w)
        (trace w).

Definition with_framebuffers (m : gmap handle framebuffer) (w : world A) : world A :=
  World (textures w) m (meshes w) (next w) (viewport w)
        (current_vertex_shader w) (current_fragment_shader w) (clear_color w)
        (trace w).

Definition with_meshes (m : gmap handle (mesh A)) (w : world A) : world A :=
  World (textures w) (framebuffers w) m (next w) (viewport w)
        (current_vertex_shader w) (current_fragment_shader w) (clear_color w)
        (trace w).

Definition bump (w : world A) : world A :=
  World (textures w) (framebuffers w) (meshes w) (S (next w)) (viewport w)
        (current_vertex_shader w) (current_fragment_shader w) (clear_color w)
        (trace w).

(** A library call: a step of the library state that may crash. *)
Definition call {X : Type} (f : world A -> option (X * world A)) : M A X :=
  fun s => match f (lib s) with
           | Some (x, w) => Some (x, State (globals s) w)
           | None => None
           end.

Definition read {X : Type} (f : statics A -> X) : M A X :=
  fun s => Some (f (globals s), s).

Definition write (f : statics A -> statics A) : M A unit :=
  fun s => Some (tt, State (f (globals s)) (lib s)).

(** *** graphics/framebuffer.h and graphics/texture.h *)

(** Modelled from the spec: create(...) -> handle or failure if allocation
    fails.  A new framebuffer has no attachment. *)
Definition create_framebuffer : M A ptr :=
  call (fun w =>
    let h := next w in
    if alloc_ok env h
    then Some (Some h, log (EvCreateFramebuffer (Some h))
                 (bump (with_framebuffers (<[h := Framebuffer None None]> (framebuffers w)) w)))
    else Some (None, log (EvCreateFramebuffer None) (bump w))).

(** Modelled from the spec: create(format, width, height) -> handle or
    failure if allocation fails; the buffer has width x height pixels. *)
Definition create_texture (f : texture_format) (w h : nat) : M A ptr :=
  call (fun wd =>
    let p := next wd in
    if alloc_ok env p
    then Some (Some p, log (EvCreateTexture f w h (Some p))
                 (bump (with_textures
                          (<[p := Texture f w h (replicate (w * h) Uninit)]> (textures wd)) wd)))
    else Some (None, log (EvCreateTexture f w h None) (bump wd))).

(** Modelled from the spec: bytes-per-pixel(format), of the invariant
    "buffer size = width x height x bytes-per-pixel(format)". *)
Definition bytes_per_pixel (f : texture_format) : nat :=
  match f with
  | TEXTURE_FORMAT_R8 => 1
  | TEXTURE_FORMAT_RGBA8 => 4
  | TEXTURE_FORMAT_SRGB8_A8 => 4
  | TEXTURE_FORMAT_DEPTH_FLOAT => 4
  end.

(** Whether the part of a raw buffer that is copied into one pixel matches
    the format: one [float] for a depth texture, [bytes_per_pixel] bytes
    for the others. *)
Definition texel_fits (f : texture_format) (t : texel A) : bool :=
  match f, t with
  | TEXTURE_FORMAT_DEPTH_FLOAT, Depth _ => true
  | TEXTURE_FORMAT_DEPTH_FLOAT, _ => false
  | _, Bytes bs => Nat.eqb (length bs) (bytes_per_pixel f)
  | _, _ => false
  end.

(** Modelled from the spec: "set_pixels(raw buffer) -- caller guarantees
    buffer matches texture size/format, no bounds checking contract beyond
    that".  The raw buffer is given pixel by pixel; a buffer that does not
    hold width x height pixels of [bytes_per_pixel] bytes each is outside
    the contract, and the call is undefined. *)
Definition set_texture_pixels (t : ptr) (data : list (texel A)) : M A unit :=
  call (fun wd =>
    match t with
    | Some p =>
        match textures wd !! p with
        | Some tx =>
            if Nat.eqb (length data) (width tx * height tx)
               && forallb (texel_fits (format tx)) data
            then Some (tt, log (EvSetTexturePixels t data)
                         (with_textures
                            (<[p := Texture (format tx) (width tx) (height tx) data]>
                               (textures wd)) wd))
            else None
        | None => None
        end
    | None => None
    end).

(** Modelled from the spec: attach(framebuffer, slot, texture) replaces the
    prior attachment at that slot, no ownership transfer. *)
Definition attach_texture_to_framebuffer (fb : ptr) (slot : attachment_type) (t : ptr)
  : M A unit :=
  call (fun w =>
    match fb with
    | Some h =>
        match framebuffers w !! h with
        | Some f =>
            let f' := match slot with
                      | COLOR_ATTACHMENT => Framebuffer t (depth_attachment f)
                      | DEPTH_ATTACHMENT => Framebuffer (color_attachment f) t
                      end in
            Some (tt, log (EvAttach fb slot t)
                    (with_framebuffers (<[h := f']> (framebuffers w)) w))
        | None => None
        end
    | None => None
    end).

(** Modelled from the spec: destroy(texture) frees the backing storage.
    Both drivers pass pointers that may be NULL on their failure path, so
    NULL is accepted and ignored, as by free(); a pointer to an object
    already destroyed is undefined. *)
Definition destroy_texture (t : ptr) : M A unit :=
  call (fun w =>
    match t with
    | None => Some (tt, log (EvDestroyTexture t) w)
    | Some p =>
        match textures w !! p with
        | Some _ => Some (tt, log (EvDestroyTexture t)
                            (with_textures (delete p (textures w)) w))
        | None => None
        end
    end).

Definition destroy_framebuffer (fb : ptr) : M A unit :=
  call (fun w =>
    match fb with
    | None => Some (tt, log (EvDestroyFramebuffer fb) w)
    | Some h =>
        match framebuffers w !! h with
        | Some _ => Some (tt, log (EvDestroyFramebuffer fb)
                            (with_framebuffers (delete h (framebuffers w)) w))
        | None => None
        end
    end).

(** The depth the library clears a depth attachment to: the farthest one. *)
Definition CLEAR_DEPTH : A := of_Z 1.

Definition cleared (v : texel A) (t : texture A) : texture A :=
  Texture (format t) (width t) (height t) (replicate (width t * height t) v).

(** The textures after clearing the attachment [a]: nothing for an empty
    slot, a crash for a slot holding a destroyed texture. *)
Definition clear_attachment (a : ptr) (v : texel A) (m : gmap handle (texture A))
  : option (gmap handle (texture A)) :=
  match a with
  | None => Some m
  | Some p =>
      match m !! p with
      | Some t => Some (<[p := cleared v t]> m)
      | None => None
      end
  end.

(** Modelled from the spec: clear writes the clear value to every pixel of
    each attached texture; the colour is the one of [set_clear_color]. *)
Definition clear_framebuffer (fb : ptr) : M A unit :=
  call (fun w =>
    match fb with
    | Some h =>
        match framebuffers w !! h with
        | Some f =>
            match clear_attachment (color_attachment f) (Color (clear_color w)) (textures w) with
            | Some m1 =>
                match clear_attachment (depth_attachment f) (Depth CLEAR_DEPTH) m1 with
                | Some m2 => Some (tt, log (EvClearFramebuffer fb) (with_textures m2 w))
                | None => None
                end
            | None => None
            end
        | None => None
        end
    | None => None
    end).

(** Modelled from the spec: raw pixel read; [None] outside the texture. *)
Definition texture_pixel (t : texture A) (x y : nat) : option (texel A) :=
  if (x <? width t)%nat && (y <? height t)%nat
  then pixels t !! (y * width t + x)%nat
  else None.

(** *** graphics/rasterizer.h *)

Definition set_viewport (left bottom w h : Z) : M A unit :=
  call (fun wd =>
    Some (tt, log (EvSetViewport left bottom w h)
            (World (textures wd) (framebuffers wd) (meshes wd) (next wd)
                   (left, bottom, w, h)
                   (current_vertex_shader wd) (current_fragment_shader wd)
                   (clear_color wd) (trace wd)))).

Definition set_vertex_shader (s : vertex_shader) : M A unit :=
  call (fun wd =>
    Some (tt, log (EvSetVertexShader s)
            (World (textures wd) (framebuffers wd) (meshes wd) (next wd)
                   (viewport wd) (Some s) (current_fragment_shader wd)
                   (clear_color wd) (trace wd)))).

Definition set_fragment_shader (s : fragment_shader) : M A unit :=
  call (fun wd =>
    Some (tt, log (EvSetFragmentShader s)
            (World (textures wd) (framebuffers wd) (meshes wd) (next wd)
                   (viewport wd) (current_vertex_shader wd) (Some s)
                   (clear_color wd) (trace wd)))).

Definition set_clear_color (r g b a : A) : M A unit :=
  call (fun wd =>
    Some (tt, log (EvSetClearColor (Vector4 r g b a))
            (World (textures wd) (framebuffers wd) (meshes wd) (next wd)
                   (viewport wd) (current_vertex_shader wd)
                   (current_fragment_shader wd) (Vector4 r g b a) (trace wd)))).

(** The texture behind an attachment slot: [Some None] for an empty slot,
    [None] for a slot holding a destroyed texture. *)
Definition attached (a : ptr) (m : gmap handle (texture A))
  : option (option (texture A)) :=
  match a with
  | None => Some None
  | Some p => match m !! p with
              | Some t => Some (Some t)
              | None => None
              end
  end.

Definition store_attachment (a : ptr) (t : option (texture A))
    (m : gmap handle (texture A)) : gmap handle (texture A) :=
  match a, t with
  | Some p, Some t' => <[p := t']> m
  | _, _ => m
  end.

(** Modelled from the spec: draw_triangle(framebuffer, uniform_block,
    vertex_attribute[3]) mutates the attachments of the bound framebuffer
    in place, and nothing else. *)
Definition draw_triangle (fb : ptr) (u : standard_uniform A) (t : triangle A) : M A unit :=
  call (fun w =>
    match fb with
    | Some h =>
        match framebuffers w !! h with
        | Some f =>
            match attached (color_attachment f) (textures w),
                  attached (depth_attachment f) (textures w) with
            | Some c, Some d =>
                let '(c', d') :=
                  rasterize (viewport w) (current_vertex_shader w)
                            (current_fragment_shader w) (textures w) c d u t in
                Some (tt, log (EvDrawTriangle fb u t)
                        (with_textures
                           (store_attachment (depth_attachment f) d'
                              (store_attachment (color_attachment f) c' (textures w)))
                           w))
            | _, _ => None
            end
        | None => None
        end
    | None => None
    end).

(** *** utilities/mesh.h and utilities/image.h, stdio.h *)

(** Modelled from the spec: given a file path, returns a Mesh handle or a
    failure sentinel. *)
Definition load_mesh (path : string) : M A ptr :=
  call (fun w =>
    match mesh_files env path with
    | Some m =>
        let h := next w in
        Some (Some h, log (EvLoadMesh path (Some h))
                (bump (with_meshes (<[h := m]> (meshes w)) w)))
    | None => Some (None, log (EvLoadMesh path None) w)
    end).

(** Modelled from the spec: load(path, is_color_data) -> Texture or
    failure. *)
Definition load_image (path : string) (is_color_data : bool) : M A ptr :=
  call (fun w =>
    match image_files env path is_color_data with
    | Some t =>
        let h := next w in
        Some (Some h, log (EvLoadImage path is_color_data (Some h))
                (bump (with_textures (<[h := t]> (textures w)) w)))
    | None => Some (None, log (EvLoadImage path is_color_data None) w)
    end).

Definition destroy_mesh (m : ptr) : M A unit :=
  call (fun w =>
    match m with
    | None => Some (tt, log (EvDestroyMesh m) w)
    | Some h =>
        match meshes w !! h with
        | Some _ => Some (tt, log (EvDestroyMesh m) (with_meshes (delete h (meshes w)) w))
        | None => None
        end
    end).

(** Modelled from the spec: save(Texture, path, is_color_data); the call
    is logged with the pixels it is given.  Its result is ignored by both
    drivers. *)
Definition save_image (t : ptr) (name : string) (is_color_data : bool) : M A unit :=
  call (fun w =>
    match t with
    | Some p =>
        match textures w !! p with
        | Some tx => Some (tt, log (EvSaveImage t name is_color_data tx) w)
        | None => None
        end
    | None => None
    end).

Definition printf (s : string) : M A unit :=
  call (fun w => Some (tt, log (EvPrintf s) w)).

(** [mesh->triangle_count] and the accessors: dereferences [mesh]. *)
Definition mesh_triangles (m : ptr) : M A (list (triangle A)) :=
  call (fun w =>
    match m with
    | Some h => match meshes w !! h with
                | Some ms => Some (triangles ms, w)
                | None => None
                end
    | None => None
    end).

End Library.

(** ** stdio.h: [sprintf] with the conversion [%.3d] *)

Definition digit (n : nat) : ascii := ascii_of_nat (48 + n mod 10).

(** The decimal digits of [n], most significant first; [fuel] bounds the
    number of digits. *)
Fixpoint digits (fuel n : nat) (acc : string) : string :=
  match fuel with
  | O => acc
  | S fuel' =>
      let acc' := String (digit n) acc in
      if (n / 10 =? 0)%nat then acc' else digits fuel' (n / 10) acc'
  end.

Fixpoint zeros (n : nat) : string :=
  match n with
  | O => EmptyString
  | S k => String "0"%char (zeros k)
  end.

(** [%.Nd]: at least [precision] digits, padded with zeros on the left; a
    minus sign first for a negative argument. *)
Definition format_d (precision : nat) (i : Z) : string :=
  let ds := digits 20 (Z.abs_nat i) EmptyString in
  let padded := (zeros (precision - String.length ds) ++ ds)%string in
  if i <? 0 then String "-"%char padded else padded.

Definition newline : string := String (ascii_of_nat 10) EmptyString.

(** ** The drivers *)

Record model : Type := Model {
  model_mesh : ptr;
  model_base_color_map : ptr;
  model_normal_map : ptr;
  model_metallic_map : ptr;
  model_roughness_map : ptr
}.

Definition FPS : Z := 30.

Section Statics.
Context {A : Type}.

Definition set_light_direction (v : vector3 A) (g : statics A) : statics A :=
  Statics v (camera_position g) (camera_target g) (rotation_y g) (fov g)
          (shadow_framebuffer g) (shadow_map g) (framebuffer_ g) (color_buffer g)
          (depth_buffer g) (light_world2clip g).

Definition set_camera_position (v : vector3 A) (g : statics A) : statics A :=
  Statics (light_direction g) v (camera_target g) (rotation_y g) (fov g)
          (shadow_framebuffer g) (shadow_map g) (framebuffer_ g) (color_buffer g)
          (depth_buffer g) (light_world2clip g).

Definition set_rotation_y (v : A) (g : statics A) : statics A :=
  Statics (light_direction g) (camera_position g) (camera_target g) v (fov g)
          (shadow_framebuffer g) (shadow_map g) (framebuffer_ g) (color_buffer g)
          (depth_buffer g) (light_world2clip g).

Definition set_shadow_framebuffer (v : ptr) (g : statics A) : statics A :=
  Statics (light_direction g) (camera_position g) (camera_target g) (rotation_y g)
          (fov g) v (shadow_map g) (framebuffer_ g) (color_buffer g)
          (depth_buffer g) (light_world2clip g).

Definition set_shadow_map (v : ptr) (g : statics A) : statics A :=
  Statics (light_direction g) (camera_position g) (camera_target g) (rotation_y g)
          (fov g) (shadow_framebuffer g) v (framebuffer_ g) (color_buffer g)
          (depth_buffer g) (light_world2clip g).

Definition set_framebuffer (v : ptr) (g : statics A) : statics A :=
  Statics (light_direction g) (camera_position g) (camera_target g) (rotation_y g)
          (fov g) (shadow_framebuffer g) (shadow_map g) v (color_buffer g)
          (depth_buffer g) (light_world2clip g).

Definition set_color_buffer (v : ptr) (g : statics A) : statics A :=
  Statics (light_direction g) (camera_position g) (camera_target g) (rotation_y g)
          (fov g) (shadow_framebuffer g) (shadow_map g) (framebuffer_ g) v
          (depth_buffer g) (light_world2clip g).

Definition set_depth_buffer (v : ptr) (g : statics A) : statics A :=
  Statics (light_direction g) (camera_position g) (camera_target g) (rotation_y g)
          (fov g) (shadow_framebuffer g) (shadow_map g) (framebuffer_ g)
          (color_buffer g) v (light_world2clip g).

End Statics.

(** The library state a process starts with: nothing allocated, nothing
    called. *)
Definition initial_world {A : Type} `{Scalar A} : world A :=
  World ∅ ∅ ∅ O (0, 0, 0, 0) None None
        (Vector4 (of_Z 0) (of_Z 0) (of_Z 0) (of_Z 0)) [].

(** [initialize_rendering], [end_rendering] and [render_model] are the same
    text in both drivers up to the constants [IMAGE_WIDTH], [IMAGE_HEIGHT],
    the illuminance, the ambient luminance and the metallic factor, which
    are the parameters of this section.  The functions of math/ that need a
    square root or a trigonometric function, and the constant [PI], are
    parameters as well. *)
Section Driver.
Context {A : Type} `{Scalar A}.
Variable env : environment A.
Variable rasterize : rasterizer A.
Variable PI : A.
Variable vector3_normalize : vector3 A -> vector3 A.
Variable matrix4x4_rotate_y : A -> matrix4x4 A.
Variable matrix4x4_look_at : vector3 A -> vector3 A -> vector3 A -> matrix4x4 A.
Variable matrix4x4_perspective : A -> A -> A -> A -> matrix4x4 A.
Variable IMAGE_WIDTH IMAGE_HEIGHT : nat.
Variable the_illuminance : vector3 A.
Variable the_ambient_luminance : vector3 A.
Variable the_metallic : A.
Local Open Scope driver_scope.

Definition initialize_rendering : M A unit :=
  sfb ← create_framebuffer env;
  write (set_shadow_framebuffer sfb);;
  sm ← create_texture env TEXTURE_FORMAT_DEPTH_FLOAT 1 1;
  write (set_shadow_map sm);;
  let shadow_value : A := lit 10 10 in
  set_texture_pixels sm [Depth shadow_value];;
  attach_texture_to_framebuffer sfb DEPTH_ATTACHMENT sm;;
  fb ← create_framebuffer env;
  write (set_framebuffer fb);;
  cb ← create_texture env TEXTURE_FORMAT_SRGB8_A8 IMAGE_WIDTH IMAGE_HEIGHT;
  write (set_color_buffer cb);;
  db ← create_texture env TEXTURE_FORMAT_DEPTH_FLOAT IMAGE_WIDTH IMAGE_HEIGHT;
  write (set_depth_buffer db);;
  attach_texture_to_framebuffer fb COLOR_ATTACHMENT cb;;
  attach_texture_to_framebuffer fb DEPTH_ATTACHMENT db.

Definition end_rendering : M A unit :=
  sm ← read shadow_map;
  destroy_texture sm;;
  cb ← read color_buffer;
  destroy_texture cb;;
  db ← read depth_buffer;
  destroy_texture db;;
  sfb ← read shadow_framebuffer;
  destroy_framebuffer sfb;;
  fb ← read framebuffer_;
  destroy_framebuffer fb.

(** The uniform block [render_model] fills in, from the statics and the
    model. *)
Definition make_uniform (g : statics A) (m : model) : standard_uniform A :=
  let l2w := matrix4x4_rotate_y (rotation_y g) in
  let world2view :=
    matrix4x4_look_at (camera_position g) (camera_target g)
                      (Vector3 (lit 0 10) (lit 10 10) (lit 0 10)) in
  let view2clip :=
    matrix4x4_perspective (fov g)
      (fdiv (of_Z (Z.of_nat IMAGE_WIDTH)) (of_Z (Z.of_nat IMAGE_HEIGHT)))
      (lit 1 10) (lit 50 10) in
  let l2w_direction := matrix4x4_to_3x3 l2w in
  StandardUniform
    l2w
    (matrix4x4_multiply view2clip world2view)
    l2w_direction
    l2w_direction
    (camera_position g)
    (vector3_normalize (light_direction g))
    the_illuminance
    (matrix4x4_multiply scale_bias (light_world2clip g))
    (shadow_map g)
    the_ambient_luminance
    (model_normal_map m)
    VECTOR3_ONE
    (model_base_color_map m)
    the_metallic
    (model_metallic_map m)
    (lit 10 10)
    (model_roughness_map m)
    (lit 5 10).

Definition render_model (m : model) : M A unit :=
  set_viewport 0 0 (Z.of_nat IMAGE_WIDTH) (Z.of_nat IMAGE_HEIGHT);;
  set_vertex_shader standard_vertex_shader;;
  set_fragment_shader standard_fragment_shader;;
  set_clear_color (lit 0 10) (lit 0 10) (lit 0 10) (lit 0 10);;
  fb ← read framebuffer_;
  clear_framebuffer fb;;
  g ← read id;
  let uniform := make_uniform g m in
  ts ← mesh_triangles (model_mesh m);
  for_each ts (fun t => draw_triangle rasterize fb uniform t).

(** The tail of both [main]s after the loop. *)
Definition release_model (m : model) : M A unit :=
  destroy_mesh (model_mesh m);;
  destroy_texture (model_base_color_map m);;
  destroy_texture (model_normal_map m);;
  destroy_texture (model_metallic_map m);;
  destroy_texture (model_roughness_map m).

Definition is_null (p : ptr) : bool :=
  match p with
  | None => true
  | Some _ => false
  end.

End Driver.

(** [ANIMATION_TIME] and the number of frames, the same in both drivers:
    [int frame_count = (int)(ANIMATION_TIME * FPS)]. *)
Definition ANIMATION_TIME {A : Type} `{Scalar A} : A := lit 45 10.

Definition frame_count {A : Type} `{Scalar A} : Z :=
  to_int (fmul ANIMATION_TIME (of_Z FPS)).

(** [float t = (float)i / frame_count] *)
Definition frame_time {A : Type} `{Scalar A} (i : Z) : A :=
  fdiv (of_Z i) (of_Z frame_count).

(** *** anim_violin.c *)

Module Violin.
Section Violin.
Context {A : Type} `{Scalar A}.
Variable env : environment A.
Variable rasterize : rasterizer A.
Variable PI : A.
Variable vector3_normalize : vector3 A -> vector3 A.
Variable matrix4x4_rotate_y : A -> matrix4x4 A.
Variable matrix4x4_look_at : vector3 A -> vector3 A -> vector3 A -> matrix4x4 A.
Variable matrix4x4_perspective : A -> A -> A -> A -> matrix4x4 A.
Local Open Scope driver_scope.

Definition IMAGE_WIDTH : nat := 1536.
Definition IMAGE_HEIGHT : nat := 1024.

Definition initial_statics : statics A :=
  Statics (Vector3 (lit 0 10) (lit 24 100) (fopp (lit 326 1000)))
          (Vector3 (lit 0 10) (lit 24 100) (lit 326 1000))
          (Vector3 (lit 0 10) (lit 0 10) (lit 0 10))
          (lit 796 1000)
          (fdiv PI (lit 32 10))
          None None None None None
          matrix4x4_zero.

Definition initialize_rendering : M A unit :=
  initialize_rendering env IMAGE_WIDTH IMAGE_HEIGHT.

Definition render_model : model -> M A unit :=
  render_model rasterize vector3_normalize matrix4x4_rotate_y matrix4x4_look_at
               matrix4x4_perspective IMAGE_WIDTH IMAGE_HEIGHT
               (Vector3 (lit 10 10) (lit 10 10) (lit 10 10))
               (Vector3 (lit 20 10) (lit 12 10) (lit 9 10))
               (lit 10 10).

Definition model_path : string := "assets/violin/violin.obj".
Definition base_color_map_path : string := "assets/violin/base_color.tga".
Definition normal_map_path : string := "assets/violin/normal.tga".
Definition metallic_map_path : string := "assets/violin/metallic.tga".
Definition roughness_map_path : string := "assets/violin/roughness.tga".

(** [sprintf(image_name, "violin/v-%.3d.tga", i)] *)
Definition image_name (i : Z) : string :=
  ("violin/v-" ++ format_d 3 i ++ ".tga")%string.

(** Lines 137 to 156 of [main]: the loaded model, or [None] when the
    failure path was taken (and [main] returns 0). *)
Definition load : M A (option model) :=
  mesh ← load_mesh env model_path;
  if is_null mesh then
    printf ("Cannot load .obj file." ++ newline)%string;;
    ret None
  else
    base_color_map ← load_image env base_color_map_path true;
    normal_map ← load_image env normal_map_path false;
    metallic_map ← load_image env metallic_map_path false;
    roughness_map ← load_image env roughness_map_path false;
    if is_null base_color_map || is_null normal_map
       || is_null metallic_map || is_null roughness_map then
      printf ("Cannot load texture files." ++ newline)%string;;
      destroy_mesh mesh;;
      destroy_texture base_color_map;;
      destroy_texture normal_map;;
      destroy_texture metallic_map;;
      destroy_texture roughness_map;;
      ret None
    else
      ret (Some (Model mesh base_color_map normal_map metallic_map roughness_map)).

(** The body of the loop of [main], lines 167 to 182. *)
Definition frame (m : model) (light_direction_std camera_position_std : vector3 A)
    (i : Z) : M A unit :=
  let light_direction_delta_x_start : A := lit 2 10 in
  let light_direction_delta_x_end : A := fopp (lit 2 10) in
  let camera_distance_start : A := lit 4 10 in
  let camera_distance_end : A := lit 3 10 in
  let t : A := frame_time i in
  let camera_distance := float_lerp camera_distance_start camera_distance_end t in
  write (set_camera_position
           (vector3_multiply_scalar camera_position_std camera_distance));;
  let light_direction_delta_x :=
    float_lerp light_direction_delta_x_start light_direction_delta_x_end t in
  write (set_light_direction
           (vector3_add light_direction_std
                        (Vector3 light_direction_delta_x (lit 0 10) (lit 0 10))));;
  render_model m;;
  cb ← read color_buffer;
  save_image cb (image_name i) true.

(** Lines 158 to 183 of [main], with the first [n] iterations of the loop;
    [main] runs it with [n = frame_count]. *)
Definition animate (m : model) (n : nat) : M A unit :=
  initialize_rendering;;
  light_direction_std ← read light_direction;
  cp ← read camera_position;
  let camera_position_std := vector3_normalize cp in
  for_loop n (frame m light_direction_std camera_position_std).

Definition main : M A Z :=
  r ← load;
  match r with
  | None => ret 0
  | Some m =>
      animate m (Z.to_nat frame_count);;
      end_rendering;;
      release_model m;;
      ret 0
  end.

(** The process: [main] on the statics as initialized and a library that
    has not been called yet. *)
Definition run : option (Z * state A) := main (State initial_statics initial_world).

End Violin.
End Violin.

(** *** The eagle driver *)

Module Eagle.
Section Eagle.
Context {A : Type} `{Scalar A}.
Variable env : environment A.
Variable rasterize : rasterizer A.
Variable PI : A.
Variable vector3_normalize : vector3 A -> vector3 A.
Variable matrix4x4_rotate_y : A -> matrix4x4 A.
Variable matrix4x4_look_at : vector3 A -> vector3 A -> vector3 A -> matrix4x4 A.
Variable matrix4x4_perspective : A -> A -> A -> A -> matrix4x4 A.
Local Open Scope driver_scope.

Definition IMAGE_WIDTH : nat := 1024.
Definition IMAGE_HEIGHT : nat := 1024.

Definition initial_statics : statics A :=
  Statics (Vector3 (lit 10 10) (lit 10 10) (lit 10 10))
          (Vector3 (lit 0 10) (lit 6 10) (lit 22 10))
          (Vector3 (fopp (lit 6 100)) (lit 48 100) (lit 0 10))
          (fopp (lit 9 10))
          (fdiv PI (lit 50 10))
          None None None None None
          matrix4x4_zero.

Definition initialize_rendering : M A unit :=
  initialize_rendering env IMAGE_WIDTH IMAGE_HEIGHT.

Definition render_model : model -> M A unit :=
  render_model rasterize vector3_normalize matrix4x4_rotate_y matrix4x4_look_at
               matrix4x4_perspective IMAGE_WIDTH IMAGE_HEIGHT
               (Vector3 (lit 0 10) (lit 0 10) (lit 0 10))
               (Vector3 (lit 98 100) (lit 98 100) (lit 98 100))
               (lit 0 10).

Definition model_path : string := "assets/eagle/eagle.obj".
Definition base_color_map_path : string := "assets/eagle/base_color.tga".

(** [sprintf(image_name, "eagle/e-%.3d.tga", i)] *)
Definition image_name (i : Z) : string :=
  ("eagle/e-" ++ format_d 3 i ++ ".tga")%string.

Definition rotation_y_start : A := lit 0 10.
Definition rotation_y_end : A := fopp (lit 94 100).

(** [rotation_y = float_lerp(rotation_y_start, rotation_y_end, t)] at
    frame [i]. *)
Definition frame_rotation (i : Z) : A :=
  float_lerp rotation_y_start rotation_y_end (frame_time i).

(** Lines 134 to 161 of [main]: the model with its default maps, or [None]
    when the failure path was taken (and [main] returns 0).
    [uint8_t normal_data[3]] is the buffer given for the normal map, a 1x1
    texture of the format RGBA8. *)
Definition load : M A (option model) :=
  mesh ← load_mesh env model_path;
  if is_null mesh then
    printf ("Cannot load .obj file." ++ newline)%string;;
    ret None
  else
    base_color_map ← load_image env base_color_map_path true;
    normal_map ← create_texture env TEXTURE_FORMAT_RGBA8 1 1;
    metallic_map ← create_texture env TEXTURE_FORMAT_R8 1 1;
    roughness_map ← create_texture env TEXTURE_FORMAT_R8 1 1;
    if is_null base_color_map || is_null normal_map
       || is_null metallic_map || is_null roughness_map then
      printf ("Cannot load texture files." ++ newline)%string;;
      destroy_mesh mesh;;
      destroy_texture base_color_map;;
      destroy_texture normal_map;;
      destroy_texture metallic_map;;
      destroy_texture roughness_map;;
      ret None
    else
      let normal_data : list Z := [128; 128; 255] in
      set_texture_pixels normal_map [Bytes normal_data];;
      let white : Z := 255 in
      set_texture_pixels metallic_map [Bytes [white]];;
      set_texture_pixels roughness_map [Bytes [white]];;
      ret (Some (Model mesh base_color_map normal_map metallic_map roughness_map)).

(** The body of the loop of [main], lines 170 to 178. *)
Definition frame (m : model) (i : Z) : M A unit :=
  let camera_pos_start : vector3 A := Vector3 (lit 0 10) (lit 0 10) (lit 20 10) in
  let camera_pos_end : vector3 A := Vector3 (lit 0 10) (lit 6 10) (lit 22 10) in
  let t : A := frame_time i in
  write (set_rotation_y (frame_rotation i));;
  write (set_camera_position
           (Vector3 (lit 0 10)
                    (float_lerp (y3 camera_pos_start) (y3 camera_pos_end) t)
                    (float_lerp (z3 camera_pos_start) (z3 camera_pos_end) t)));;
  render_model m;;
  cb ← read color_buffer;
  save_image cb (image_name i) true.

(** Lines 163 to 179 of [main], with the first [n] iterations of the loop;
    [main] runs it with [n = frame_count]. *)
Definition animate (m : model) (n : nat) : M A unit :=
  initialize_rendering;;
  for_loop n (frame m).

(** Lines 163 to 188 of [main]: what [main] does with the loaded model. *)
Definition after_load (m : model) : M A Z :=
  animate m (Z.to_nat frame_count);;
  end_rendering;;
  release_model m;;
  ret 0.

Definition main : M A Z :=
  r ← load;
  match r with
  | None => ret 0
  | Some m => after_load m
  end.

Definition run : option (Z * state A) := main (State initial_statics initial_world).

End Eagle.
End Eagle.

(** ** shaders/standard.h: the shadow factor of the fragment stage

    The shader sources are not part of the repository's sources; this is
    section 4.4 of the specification. *)

Section Shadow.
Context {A : Type} `{Scalar A}.
Local Open Scope float_scope.







(** The default shadow map of [initialize_rendering]: 1x1, depth format,
    its pixel set to [shadow_value = 1.0f]. *)
Definition default_shadow_map : texture A :=
  Texture TEXTURE_FORMAT_DEPTH_FLOAT 1 1 [Depth (lit 10 10)].

End Shadow.

(** ** graphics/rasterizer.h: [draw_triangle]

    The rasterizer's source is not part of the repository's sources; this
    is the algorithm of section 4.2 of the specification, in the exact
    arithmetic it is stated in.  A division is checked: [None] is a
    division by zero. *)

Module Rasterizer.
Local Open Scope Q_scope.

Definition checked_div (a b : Q) : option Q :=
  if Qeq_bool b 0 then None else Some (a / b).

(** A vertex after the vertex stage: clip-space position and varyings. *)
Record shaded_vertex : Type := ShadedVertex {
  clip_position : vector4 Q;
  varyings : list Q
}.

(** A vertex on the screen: pixel coordinates, depth, and clip-space w. *)
Record screen_vertex : Type := ScreenVertex {
  sx : Q;
  sy : Q;
  sz : Q;
  sw : Q
}.

(** Modelled from the spec: step 2, "perspective-divide each clip position
    to obtain normalized device coordinates, then map to viewport pixel
    coordinates". *)
Definition project (vp : Z * Z * Z * Z) (c : vector4 Q) : option screen_vertex :=
  let '(vx, vy, vw, vh) := vp in
  match checked_div (x4 c) (w4 c), checked_div (y4 c) (w4 c), checked_div (z4 c) (w4 c) with
  | Some nx, Some ny, Some nz =>
      Some (ScreenVertex (inject_Z vx + (nx + 1) / 2 * inject_Z vw)
                         (inject_Z vy + (ny + 1) / 2 * inject_Z vh)
                         nz (w4 c))
  | _, _, _ => None
  end.

(** The edge function: twice the signed area of the triangle a, b, p. *)
Definition edge (ax ay bx by_ px py : Q) : Q :=
  (bx - ax) * (py - ay) - (by_ - ay) * (px - ax).

Definition signed_area (v0 v1 v2 : screen_vertex) : Q :=
  edge (sx v0) (sy v0) (sx v1) (sy v1) (sx v2) (sy v2).

Definition Qfloor_Z (q : Q) : Z := Z.div (Qnum q) (Zpos (Qden q)).

Definition Qmin3 (a b c : Q) : Q := Qmin a (Qmin b c).
Definition Qmax3 (a b c : Q) : Q := Qmax a (Qmax b c).

(** Modelled from the spec: step 3, the bounding box of the projected
    triangle, clipped to the viewport and to the framebuffer: the pixel
    columns (or rows) from [lo] on, [count] of them. *)
Definition clip_range (a b c : Q) (origin extent size : Z) : Z * nat :=
  let lo := Z.max (Z.max 0 origin) (Qfloor_Z (Qmin3 a b c)) in
  let hi := Z.min (Z.min size (origin + extent)) (Qfloor_Z (Qmax3 a b c) + 1) in
  (lo, Z.to_nat (hi - lo)).

Definition pixels_of_box (x0 : Z) (nx : nat) (y0 : Z) (ny : nat) : list (Z * Z) :=
  flat_map (fun j => map (fun i => (x0 + Z.of_nat i, y0 + Z.of_nat j)%Z) (seq 0 nx))
           (seq 0 ny).

(** Modelled from the spec: step 5, "barycentric weights divided by each
    vertex's clip-space w, renormalized to sum to 1". *)
Definition perspective_correct_weights (b : Q * Q * Q) (w : Q * Q * Q)
  : option (Q * Q * Q) :=
  let '(b0, b1, b2) := b in
  let '(w0, w1, w2) := w in
  match checked_div b0 w0, checked_div b1 w1, checked_div b2 w2 with
  | Some c0, Some c1, Some c2 =>
      let s := c0 + c1 + c2 in
      match checked_div c0 s, checked_div c1 s, checked_div c2 s with
      | Some k0, Some k1, Some k2 => Some (k0, k1, k2)
      | _, _, _ => None
      end
  | _, _, _ => None
  end.

(** "This weight set linearly blends all Varying Set fields." *)
Fixpoint interpolate (k : Q * Q * Q) (v0 v1 v2 : list Q) : list Q :=
  match v0, v1, v2 with
  | a :: v0', b :: v1', c :: v2' =>
      let '(k0, k1, k2) := k in
      (k0 * a + k1 * b + k2 * c) :: interpolate k v0' v1' v2'
  | _, _, _ => []
  end.

(** A covered pixel: its coordinates, its depth and its varyings. *)
Record fragment : Type := Fragment {
  frag_x : Z;
  frag_y : Z;
  frag_depth : Q;
  frag_varyings : list Q
}.

(** The fill rule: the edge from a to b, taken in the direction that has
    the inside of the triangle on its positive side ([inv_area] carries
    the winding), is owned by the triangle when it goes up, or is
    horizontal and goes right.  Of the two triangles that share an edge
    exactly one owns it, since they walk it in opposite directions. *)
Definition owns_edge (ax ay bx by_ inv_area : Q) : bool :=
  let dx := (bx - ax) * inv_area in
  let dy := (by_ - ay) * inv_area in
  negb (Qle_bool dy 0) || (Qeq_bool dy 0 && negb (Qle_bool dx 0)).

(** A barycentric weight [b] of a pixel centre, for the edge opposite to
    its vertex: inside when positive; on the edge the fill rule decides. *)
Definition inside_edge (b : Q) (owned : bool) : bool :=
  negb (Qle_bool b 0) || (Qeq_bool b 0 && owned).

(** Modelled from the spec: step 4, "for every pixel center ... compute
    its barycentric coordinates relative to the three projected vertices
    using the standard edge-function formulation": the weight of a vertex
    is the edge function of the opposite edge over the area. *)
Definition barycentric (v0 v1 v2 : screen_vertex) (inv_area : Q) (p : Z * Z)
  : Q * Q * Q :=
  let px := inject_Z (fst p) + (1 # 2) in
  let py := inject_Z (snd p) + (1 # 2) in
  (edge (sx v1) (sy v1) (sx v2) (sy v2) px py * inv_area,
   edge (sx v2) (sy v2) (sx v0) (sy v0) px py * inv_area,
   edge (sx v0) (sy v0) (sx v1) (sy v1) px py * inv_area).

(** Modelled from the spec: step 4, "a pixel is covered iff all three
    barycentric weights are non-negative (one consistent fill-rule
    tie-break along shared edges is required ...)": a pixel centre on an
    edge is covered only when the triangle owns that edge.  [Some None] is
    a pixel that is not covered. *)
Definition shade_pixel (v0 v1 v2 : screen_vertex) (a0 a1 a2 : list Q) (inv_area : Q)
    (p : Z * Z) : option (option fragment) :=
  let '(b0, b1, b2) := barycentric v0 v1 v2 inv_area p in
  if inside_edge b0 (owns_edge (sx v1) (sy v1) (sx v2) (sy v2) inv_area)
     && inside_edge b1 (owns_edge (sx v2) (sy v2) (sx v0) (sy v0) inv_area)
     && inside_edge b2 (owns_edge (sx v0) (sy v0) (sx v1) (sy v1) inv_area) then
    match perspective_correct_weights (b0, b1, b2) (sw v0, sw v1, sw v2) with
    | Some k =>
        Some (Some (Fragment (fst p) (snd p)
                             (b0 * sz v0 + b1 * sz v1 + b2 * sz v2)
                             (interpolate k a0 a1 a2)))
    | None => None
    end
  else Some None.

Fixpoint shade_pixels (v0 v1 v2 : screen_vertex) (a0 a1 a2 : list Q) (inv_area : Q)
    (ps : list (Z * Z)) : option (list fragment) :=
  match ps with
  | [] => Some []
  | p :: ps' =>
      match shade_pixel v0 v1 v2 a0 a1 a2 inv_area p,
            shade_pixels v0 v1 v2 a0 a1 a2 inv_area ps' with
      | Some (Some f), Some fs => Some (f :: fs)
      | Some None, Some fs => Some fs
      | _, _ => None
      end
  end.

(** Modelled from the spec: steps 2 to 5 of [draw_triangle], the covered
    pixels of a triangle in a framebuffer of [fw] x [fh] pixels.  A
    triangle of zero area is left before the reciprocal of the determinant
    is taken: "guard the edge-function determinant". *)
Definition covered_fragments (vp : Z * Z * Z * Z) (fw fh : nat)
    (t0 t1 t2 : shaded_vertex) : option (list fragment) :=
  match project vp (clip_position t0), project vp (clip_position t1),
        project vp (clip_position t2) with
  | Some v0, Some v1, Some v2 =>
      let area := signed_area v0 v1 v2 in
      if Qeq_bool area 0 then Some []
      else
        match checked_div 1 area with
        | Some inv_area =>
            let '(vx, vy, vw, vh) := vp in
            let '(x0, nx) := clip_range (sx v0) (sx v1) (sx v2) vx vw (Z.of_nat fw) in
            let '(y0, ny) := clip_range (sy v0) (sy v1) (sy v2) vy vh (Z.of_nat fh) in
            shade_pixels v0 v1 v2 (varyings t0) (varyings t1) (varyings t2) inv_area
                         (pixels_of_box x0 nx y0 ny)
        | None => None
        end
  | _, _, _ => None
  end.

(** The barycentric weights of the pixel centre of a fragment of the
    triangle v0, v1, v2. *)
Definition fragment_weights (v0 v1 v2 : screen_vertex) (f : fragment) : Q * Q * Q :=
  barycentric v0 v1 v2 (1 / signed_area v0 v1 v2) (frag_x f, frag_y f).

(** The weights are those of corner 0, 1 or 2: (1,0,0), (0,1,0) or
    (0,0,1). *)
Definition corner_weights_of (i : nat) (b : Q * Q * Q) : Prop :=
  let '(b0, b1, b2) := b in
  match i with
  | O => b0 == 1 /\ b1 == 0 /\ b2 == 0
  | S O => b0 == 0 /\ b1 == 1 /\ b2 == 0
  | _ => b0 == 0 /\ b1 == 0 /\ b2 == 1
  end.

(** The centre of the pixel [p] is the projected vertex [v]. *)
Definition centred_at (p : Z * Z) (v : screen_vertex) : Prop :=
  inject_Z (fst p) + (1 # 2) == sx v /\ inject_Z (snd p) + (1 # 2) == sy v.

(** The pixel [p] is inside the viewport and the framebuffer. *)
Definition in_target (vp : Z * Z * Z * Z) (fw fh : nat) (p : Z * Z) : Prop :=
  let '(vx, vy, vw, vh) := vp in
  (Z.max 0 vx <= fst p < Z.min (Z.of_nat fw) (vx + vw)
   /\ Z.max 0 vy <= snd p < Z.min (Z.of_nat fh) (vy + vh))%Z.

Section Stages.
Variable vertex_stage : standard_uniform Q -> standard_vertex_attribute Q -> shaded_vertex.
Variable fragment_stage : standard_uniform Q -> list Q -> vector4 Q.

(** Modelled from the spec: steps 6 and 7, the depth test ("kept only if
    its depth is closer than the stored value", "on pass, write the new
    depth") and the write of the fragment stage's colour, "replacing (not
    blending) the previous value". *)
Definition write_fragment (u : standard_uniform Q) (fb : texture Q * texture Q)
    (f : fragment) : texture Q * texture Q :=
  let '(color, depth) := fb in
  let i := Z.to_nat (frag_y f * Z.of_nat (width depth) + frag_x f)%Z in
  match pixels depth !! i with
  | Some (Depth d) =>
      if negb (Qle_bool d (frag_depth f)) then
        (Texture (format color) (width color) (height color)
                 (<[i := Color (fragment_stage u (frag_varyings f))]> (pixels color)),
         Texture (format depth) (width depth) (height depth)
                 (<[i := Depth (frag_depth f)]> (pixels depth)))
      else fb
  | _ => fb
  end.

(** Modelled from the spec: [draw_triangle(framebuffer, uniform_block,
    vertex_attribute[3])] on a framebuffer with both attachments; the
    result, and the number of pixels the triangle covers. *)
Definition draw_triangle (vp : Z * Z * Z * Z) (fb : texture Q * texture Q)
    (u : standard_uniform Q) (t : triangle Q)
  : option (texture Q * texture Q * nat) :=
  let '(a0, a1, a2) := t in
  match covered_fragments vp (width (fst fb)) (height (fst fb))
          (vertex_stage u a0) (vertex_stage u a1) (vertex_stage u a2) with
  | Some fs => Some (fold_left (write_fragment u) fs fb, length fs)
  | None => None
  end.

End Stages.
End Rasterizer.

(** ** Observations on the trace of library calls *)

Section Observations.
Context {A : Type}.

(** The names of the images saved, in the order of the calls to
    [save_image] (the trace holds the latest call first). *)
Fixpoint saved_names (tr : list (event A)) : list string :=
  match tr with
  | [] => []
  | EvSaveImage _ name _ _ :: tr' => saved_names tr' ++ [name]
  | _ :: tr' => saved_names tr'
  end.

Definition ptr_eqb (p q : ptr) : bool :=
  match p, q with
  | None, None => true
  | Some a, Some b => Nat.eqb a b
  | _, _ => false
  end.

(** A call that belongs to a depth-only shadow pass: a clear of or a draw
    into the shadow framebuffer, or the selection of a shadow-casting
    stage. *)
Definition shadow_pass_event (sfb : ptr) (e : event A) : bool :=
  match e with
  | EvDrawTriangle fb _ _ => ptr_eqb fb sfb
  | EvClearFramebuffer fb => ptr_eqb fb sfb
  | EvSetVertexShader shadow_casting_vertex_shader => true
  | EvSetFragmentShader shadow_casting_fragment_shader => true
  | _ => false
  end.

(** A call that renders or saves a frame: what [render_model] and
    [save_image] do. *)
Definition frame_event (e : event A) : bool :=
  match e with
  | EvSetViewport _ _ _ _ | EvSetVertexShader _ | EvSetFragmentShader _
  | EvSetClearColor _ | EvClearFramebuffer _ | EvDrawTriangle _ _ _
  | EvSaveImage _ _ _ _ => true
  | _ => false
  end.

Definition is_printf (e : event A) : bool :=
  match e with
  | EvPrintf _ => true
  | _ => false
  end.

(** A load or an allocation that returned NULL. *)
Definition returned_null (e : event A) : bool :=
  match e with
  | EvLoadMesh _ None | EvLoadImage _ _ None | EvCreateTexture _ _ _ None
  | EvCreateFramebuffer None => true
  | _ => false
  end.

(** The uniform blocks the triangles were drawn with. *)
Fixpoint drawn_uniforms (tr : list (event A)) : list (standard_uniform A) :=
  match tr with
  | [] => []
  | EvDrawTriangle _ u _ :: tr' => u :: drawn_uniforms tr'
  | _ :: tr' => drawn_uniforms tr'
  end.

(** The calls of one [render_model], latest first. *)
Definition render_events (fb : ptr) (w h : Z) (clear : vector4 A)
    (u : standard_uniform A) (ts : list (triangle A)) : list (event A) :=
  rev (map (EvDrawTriangle fb u) ts)
  ++ [EvClearFramebuffer fb; EvSetClearColor clear;
      EvSetFragmentShader standard_fragment_shader;
      EvSetVertexShader standard_vertex_shader;
      EvSetViewport 0 0 w h].

(** The calls of one [initialize_rendering] on images of [w] x [h] pixels,
    latest first, when the first handle it is given is [n]. *)
Definition init_events (w h : nat) (v : A) (n : handle) : list (event A) :=
  [EvAttach (Some (S (S n))) DEPTH_ATTACHMENT (Some (S (S (S (S n)))));
   EvAttach (Some (S (S n))) COLOR_ATTACHMENT (Some (S (S (S n))));
   EvCreateTexture TEXTURE_FORMAT_DEPTH_FLOAT w h (Some (S (S (S (S n)))));
   EvCreateTexture TEXTURE_FORMAT_SRGB8_A8 w h (Some (S (S (S n))));
   EvCreateFramebuffer (Some (S (S n)));
   EvAttach (Some n) DEPTH_ATTACHMENT (Some (S n));
   EvSetTexturePixels (Some (S n)) [Depth v];
   EvCreateTexture TEXTURE_FORMAT_DEPTH_FLOAT 1 1 (Some (S n));
   EvCreateFramebuffer (Some n)].

(** The statics [g'] hold the pointers and the light matrix of [g]: a
    frame writes neither. *)
Definition same_pointers (g g' : statics A) : Prop :=
  shadow_framebuffer g' = shadow_framebuffer g
  /\ shadow_map g' = shadow_map g
  /\ framebuffer_ g' = framebuffer_ g
  /\ color_buffer g' = color_buffer g
  /\ depth_buffer g' = depth_buffer g
  /\ light_world2clip g' = light_world2clip g.

End Observations.

(** What [initialize_rendering] and [n] iterations of the loop of [main]
    leave of the state [(g, w)] they start from: the five objects of
    [initialize_rendering] under the next five handles, the default shadow
    map untouched, the pointers set and the light matrix as it was; and the
    calls [tr] made by the [n] frames: one image saved per frame under the
    name of the frame, no call of a shadow pass, every triangle drawn with
    the scale-bias matrix times the light matrix as [world2light].  [upd i]
    is what frame [i] writes to the statics. *)
Definition animation_post {A : Type} `{Scalar A} (image_width image_height : nat)
    (name : Z -> string) (upd : Z -> statics A -> statics A) (n : nat)
    (g : statics A) (w : world A) (s' : state A) : Prop :=
  exists tc td vp vs fs cc tr,
    lib s'
    = World (<[S (S (S (S (next w)))) := td]>
               (<[S (S (S (next w))) := tc]>
                  (<[S (next w) := default_shadow_map]> (textures w))))
            (<[S (S (next w)) :=
                 Framebuffer (Some (S (S (S (next w))))) (Some (S (S (S (S (next w))))))]>
               (<[next w := Framebuffer None (Some (S (next w)))]> (framebuffers w)))
            (meshes w) (S (S (S (S (S (next w)))))) vp vs fs cc
            (tr ++ init_events image_width image_height (lit 10 10) (next w) ++ trace w)
    /\ shadow_framebuffer (globals s') = Some (next w)
    /\ shadow_map (globals s') = Some (S (next w))
    /\ framebuffer_ (globals s') = Some (S (S (next w)))
    /\ color_buffer (globals s') = Some (S (S (S (next w))))
    /\ depth_buffer (globals s') = Some (S (S (S (S (next w)))))
    /\ light_world2clip (globals s') = light_world2clip g
    /\ saved_names tr = map name (map Z.of_nat (seq 0 n))
    /\ forallb (fun e => negb (shadow_pass_event (Some (next w)) e)) tr = true
    /\ forallb frame_event tr = true
    /\ Forall (fun u => world2light u = matrix4x4_multiply scale_bias (light_world2clip g)
                        /\ u_shadow_map u = Some (S (next w)))
              (drawn_uniforms tr)
    /\ match n with
       | O => True
       | S k => exists g'', globals s' = upd (Z.of_nat k) g''
       end.

(** The runs of the violin driver that get through the load and through
    [initialize_rendering]: the five files are there, and the five
    allocations of [initialize_rendering] (numbered 5 to 9, after the five
    loads) succeed. *)
Definition violin_assets_available {A : Type} (env : environment A) : Prop :=
  is_Some (mesh_files env Violin.model_path)
  /\ is_Some (image_files env Violin.base_color_map_path true)
  /\ is_Some (image_files env Violin.normal_map_path false)
  /\ is_Some (image_files env Violin.metallic_map_path false)
  /\ is_Some (image_files env Violin.roughness_map_path false)
  /\ forall k, (5 <= k < 10)%nat -> alloc_ok env k = true.

(** The runs of the eagle driver that take the failure path of the load:
    the mesh or the image is not there, or one of the three default maps
    (the allocations numbered 2 to 4, after the two loads) is not
    allocated. *)
Definition eagle_load_fails {A : Type} (env : environment A) : Prop :=
  mesh_files env Eagle.model_path = None
  \/ image_files env Eagle.base_color_map_path true = None
  \/ alloc_ok env 2 = false \/ alloc_ok env 3 = false \/ alloc_ok env 4 = false.

(** The state a process starts in. *)
Definition violin_start {A : Type} `{Scalar A} (PI : A) : state A :=
  State (Violin.initial_statics PI) initial_world.

Definition eagle_start {A : Type} `{Scalar A} (PI : A) : state A :=
  State (Eagle.initial_statics PI) initial_world.

(** The index of a frame written with exactly three decimal digits. *)
Definition three_digits (i : Z) : string :=
  String (digit (Z.to_nat (i / 100)))
    (String (digit (Z.to_nat (i / 10))) (String (digit (Z.to_nat i)) EmptyString)).

(** Lexicographic order on file names, by character code. *)
Fixpoint string_ltb (a b : string) : bool :=
  match a, b with
  | EmptyString, String _ _ => true
  | String c a', String d b' =>
      if (nat_of_ascii c <? nat_of_ascii d)%nat then true
      else if (nat_of_ascii c =? nat_of_ascii d)%nat then string_ltb a' b'
      else false
  | _, _ => false
  end.

(** Equality of vectors of rationals, component by component. *)
Definition vector4_Qeq (a b : vector4 Q) : Prop :=
  (x4 a == x4 b /\ y4 a == y4 b /\ z4 a == z4 b /\ w4 a == w4 b)%Q.

(** ** Concrete inputs

    Small meshes, textures, stages and environments on which the
    properties below are evaluated. *)

Section Samples.
Context {A : Type} `{Scalar A}.

(** A uniform block around a given world-to-light matrix and shadow map. *)
Definition uniform_with_light (w2l : matrix4x4 A) (sm : ptr) : standard_uniform A :=
  StandardUniform matrix4x4_identity matrix4x4_identity
                  (matrix4x4_to_3x3 matrix4x4_identity)
                  (matrix4x4_to_3x3 matrix4x4_identity)
                  (Vector3 (of_Z 0) (of_Z 0) (of_Z 2))
                  (Vector3 (of_Z 0) (of_Z 0) (of_Z 1))
                  VECTOR3_ONE w2l sm VECTOR3_ONE
                  None VECTOR3_ONE None (of_Z 1) None (of_Z 1) None (lit 5 10).

Definition sample_attribute (x y z : A) : standard_vertex_attribute A :=
  StandardVertexAttribute (Vector3 x y z) (Vector3 (of_Z 0) (of_Z 0) (of_Z 1))
                          (Vector4 (of_Z 1) (of_Z 0) (of_Z 0) (of_Z 1))
                          (Vector2 x y).

(** One triangle in the plane z = 0. *)
Definition sample_triangle : triangle A :=
  (sample_attribute (of_Z (-1)) (of_Z (-1)) (of_Z 0),
   sample_attribute (of_Z 1) (of_Z (-1)) (of_Z 0),
   sample_attribute (of_Z 0) (of_Z 1) (of_Z 0)).

Definition sample_mesh : mesh A := Mesh [sample_triangle; sample_triangle].

Definition sample_image : texture A :=
  Texture TEXTURE_FORMAT_RGBA8 1 1 [Bytes [200; 100; 50; 255]].

(** Every file is there and every allocation succeeds. *)
Definition sample_environment : environment A :=
  Environment (fun _ => Some sample_mesh) (fun _ _ => Some sample_image) (fun _ => true).

(** No file is there. *)
Definition empty_environment : environment A :=
  Environment (fun _ => None) (fun _ _ => None) (fun _ => true).

(** A rasterizer that paints the first pixel of the colour attachment with
    whatever the colour attachment held there before, moved to the second
    component of the unit colour: its result depends on the contents of
    the framebuffer. *)
Definition sample_rasterizer : rasterizer A :=
  fun _ _ _ _ c d _ _ =>
    (match c with
     | Some t =>
         Some (Texture (format t) (width t) (height t)
                       (match pixels t with
                        | Color v :: rest => Color (Vector4 (y4 v) (x4 v) (z4 v) (of_Z 1)) :: rest
                        | other => other
                        end))
     | None => None
     end, d).

Definition sample_normalize (v : vector3 A) : vector3 A := v.
Definition sample_rotate_y (a : A) : matrix4x4 A :=
  Matrix4x4 (Vector4 (of_Z 1) (of_Z 0) a (of_Z 0))
            (Vector4 (of_Z 0) (of_Z 1) (of_Z 0) (of_Z 0))
            (Vector4 (fopp a) (of_Z 0) (of_Z 1) (of_Z 0))
            (Vector4 (of_Z 0) (of_Z 0) (of_Z 0) (of_Z 1)).
Definition sample_look_at (eye target up : vector3 A) : matrix4x4 A :=
  Matrix4x4 (Vector4 (of_Z 1) (of_Z 0) (of_Z 0) (fopp (x3 eye)))
            (Vector4 (of_Z 0) (of_Z 1) (of_Z 0) (fopp (y3 eye)))
            (Vector4 (of_Z 0) (of_Z 0) (of_Z 1) (fopp (z3 eye)))
            (Vector4 (of_Z 0) (of_Z 0) (of_Z 0) (of_Z 1)).
Definition sample_perspective (fov aspect near far : A) : matrix4x4 A :=
  Matrix4x4 (Vector4 (fdiv (of_Z 1) aspect) (of_Z 0) (of_Z 0) (of_Z 0))
            (Vector4 (of_Z 0) (of_Z 1) (of_Z 0) (of_Z 0))
            (Vector4 (of_Z 0) (of_Z 0) (of_Z (-1)) (fopp near))
            (Vector4 (of_Z 0) (of_Z 0) (of_Z (-1)) (of_Z 0)).
Definition sample_PI : A := lit 314159 100000.

(** A state as [initialize_rendering] leaves it, with images of 2 x 2
    pixels: the shadow framebuffer 0 with the shadow map 1, the
    framebuffer 2 with the colour buffer 3 and the depth buffer 4; the
    mesh of the model under the handle 5. *)
Definition sample_statics : statics A :=
  Statics (Vector3 (of_Z 1) (of_Z 1) (of_Z 1)) (Vector3 (of_Z 0) (of_Z 0) (of_Z 2))
          (Vector3 (of_Z 0) (of_Z 0) (of_Z 0)) (of_Z 0) (of_Z 1)
          (Some 0%nat) (Some 1%nat) (Some 2%nat) (Some 3%nat) (Some 4%nat)
          matrix4x4_zero.

Definition sample_color_buffer : texture A :=
  Texture TEXTURE_FORMAT_SRGB8_A8 2 2
          (replicate 4 (Color (Vector4 (of_Z 1) (of_Z 0) (of_Z 0) (of_Z 1)))).

Definition sample_depth_buffer : texture A :=
  Texture TEXTURE_FORMAT_DEPTH_FLOAT 2 2 (replicate 4 (Depth (lit 5 10))).

Definition sample_world : world A :=
  World (<[4%nat := sample_depth_buffer]>
           (<[3%nat := sample_color_buffer]> (<[1%nat := default_shadow_map]> ∅)))
        (<[2%nat := Framebuffer (Some 3%nat) (Some 4%nat)]>
           (<[0%nat := Framebuffer None (Some 1%nat)]> ∅))
        (<[5%nat := sample_mesh]> ∅)
        6%nat (0, 0, 0, 0) None None
        (Vector4 (of_Z 0) (of_Z 0) (of_Z 0) (of_Z 0)) [].

Definition sample_model : model := Model (Some 5%nat) None None None None.

(** Other pixels for the two attachments. *)
Definition other_color_pixels : list (texel A) :=
  replicate 4 (Color (Vector4 (of_Z 0) (of_Z 1) (of_Z 0) (of_Z 1))).

Definition other_depth_pixels : list (texel A) := replicate 4 (Depth (lit 1 10)).

End Samples.

Module RasterizerSamples.
Import Rasterizer.

(** The vertex stage that takes the position as the clip-space position
    with w = 1 and the texture coordinates as varyings. *)
Definition sample_vertex_stage (u : standard_uniform Q) (a : standard_vertex_attribute Q)
  : shaded_vertex :=
  ShadedVertex (vector3_to_4 (position a) 1%Q) [x2 (texcoord a); y2 (texcoord a)].

Definition sample_fragment_stage (u : standard_uniform Q) (v : list Q) : vector4 Q :=
  Vector4 1%Q 0%Q 0%Q 1%Q.

Definition sample_framebuffer : texture Q * texture Q :=
  (Texture TEXTURE_FORMAT_SRGB8_A8 4 4 (replicate 16 (Color (Vector4 0 0 0 0)%Q)),
   Texture TEXTURE_FORMAT_DEPTH_FLOAT 4 4 (replicate 16 (Depth 1%Q))).

(** A vertex stage with a projection: the position (x, y, z) is seen
    at (x, y) from the depth w = z + 2, so the clip-space w differs from
    vertex to vertex; the texture coordinates are the varyings. *)
Definition perspective_vertex_stage (u : standard_uniform Q)
    (a : standard_vertex_attribute Q) : shaded_vertex :=
  let w := (z3 (position a) + 2)%Q in
  ShadedVertex (Vector4 (x3 (position a) * w) (y3 (position a) * w) 0 w)%Q
               [x2 (texcoord a); y2 (texcoord a)].

(** A triangle whose vertices are projected onto the centres of the
    pixels (0,0), (3,0) and (0,3) of a 4x4 viewport, at three different
    depths. *)
Definition corner_triangle : triangle Q :=
  (sample_attribute (- (3 # 4)) (- (3 # 4)) 0, sample_attribute (3 # 4) (- (3 # 4)) 1,
   sample_attribute (- (3 # 4)) (3 # 4) 2)%Q.

(** Its three vertices after the vertex stage, and on the screen. *)
Definition corner_vertex (i : nat) : shaded_vertex :=
  perspective_vertex_stage (uniform_with_light matrix4x4_identity None)
    (let '(a, b, c) := corner_triangle in nth i [a; b] c).

Definition corner_screen_vertex (i : nat) : screen_vertex :=
  match project (0, 0, 4, 4)%Z (clip_position (corner_vertex i)) with
  | Some v => v
  | None => ScreenVertex 0 0 0 0
  end.

(** Three collinear vertices. *)
Definition degenerate_triangle : triangle Q :=
  (sample_attribute (-1) (-1) 0, sample_attribute 0 0 0, sample_attribute 1 1 0)%Q.

End RasterizerSamples.

(** ** More observations on the trace of library calls *)

Section MoreObservations.
Context {A : Type}.

(** The triangles drawn, in the order of the calls to [draw_triangle]. *)
Fixpoint drawn_triangles (tr : list (event A)) : list (triangle A) :=
  match tr with
  | [] => []
  | EvDrawTriangle _ _ t :: tr' => drawn_triangles tr' ++ [t]
  | _ :: tr' => drawn_triangles tr'
  end.

Definition is_clear (e : event A) : bool :=
  match e with
  | EvClearFramebuffer _ => true
  | _ => false
  end.

Definition is_draw (e : event A) : bool :=
  match e with
  | EvDrawTriangle _ _ _ => true
  | _ => false
  end.

Definition is_set_texture_pixels (e : event A) : bool :=
  match e with
  | EvSetTexturePixels _ _ => true
  | _ => false
  end.

(** The image files asked for, path and [is_color_data], in the order of
    the calls to [load_image]. *)
Fixpoint loaded_images (tr : list (event A)) : list (string * bool) :=
  match tr with
  | [] => []
  | EvLoadImage path c _ :: tr' => loaded_images tr' ++ [(path, c)]
  | _ :: tr' => loaded_images tr'
  end.

(** The textures asked for, format and size, in the order of the calls
    to [create_texture]. *)
Fixpoint created_textures (tr : list (event A)) : list (texture_format * nat * nat) :=
  match tr with
  | [] => []
  | EvCreateTexture f w h _ :: tr' => created_textures tr' ++ [(f, w, h)]
  | _ :: tr' => created_textures tr'
  end.

(** The images saved, in the order of the calls to [save_image]. *)
Fixpoint saved_images (tr : list (event A)) : list (texture A) :=
  match tr with
  | [] => []
  | EvSaveImage _ _ _ image :: tr' => saved_images tr' ++ [image]
  | _ :: tr' => saved_images tr'
  end.

(** The statics after the first [n] iterations of a loop whose iteration
    [i] writes [upd i] to them. *)
Fixpoint statics_after (upd : Z -> statics A -> statics A) (n : nat) (g : statics A)
  : statics A :=
  match n with
  | O => g
  | S k => upd (Z.of_nat k) (statics_after upd k g)
  end.

(** The calls of the first [n] iterations of a loop whose iteration [k]
    makes the calls [frame k], latest first. *)
Fixpoint frames_events (frame : nat -> list (event A)) (n : nat) : list (event A) :=
  match n with
  | O => []
  | S k => frame k ++ frames_events frame k
  end.

(** The statics as [initialize_rendering] leaves them when the first
    handle it is given is [n]: the five pointers set, the rest as in
    [g]. *)
Definition initialized (n : handle) (g : statics A) : statics A :=
  Statics (light_direction g) (camera_position g) (camera_target g) (rotation_y g)
          (fov g) (Some n) (Some (S n)) (Some (S (S n))) (Some (S (S (S n))))
          (Some (S (S (S (S n))))) (light_world2clip g).

(** No object lives under a handle that has not been given out yet. *)
Definition handles_fresh (w : world A) : Prop :=
  forall k, (next w <= k)%nat ->
    textures w !! k = None /\ framebuffers w !! k = None /\ meshes w !! k = None.

End MoreObservations.

(** ** What the body of the loop writes to the statics *)

Section FrameWrites.
Context {A : Type} `{Scalar A}.

(** [float camera_distance] and [float light_direction_delta_x] at frame
    [i] of the violin driver. *)
Definition violin_camera_distance (i : Z) : A :=
  float_lerp (lit 4 10) (lit 3 10) (frame_time i).

Definition violin_light_direction_delta_x (i : Z) : A :=
  float_lerp (lit 2 10) (fopp (lit 2 10)) (frame_time i).

(** The two assignments of frame [i] of the violin driver, from the
    vectors [light_direction_std] and [camera_position_std] taken before
    the loop. *)
Definition violin_writes (light_direction_std camera_position_std : vector3 A) (i : Z)
    (g : statics A) : statics A :=
  set_light_direction
    (vector3_add light_direction_std
       (Vector3 (violin_light_direction_delta_x i) (lit 0 10) (lit 0 10)))
    (set_camera_position
       (vector3_multiply_scalar camera_position_std (violin_camera_distance i)) g).

(** [camera_position] at frame [i] of the eagle driver. *)
Definition eagle_camera_position (i : Z) : vector3 A :=
  Vector3 (lit 0 10)
          (float_lerp (lit 0 10) (lit 6 10) (frame_time i))
          (float_lerp (lit 20 10) (lit 22 10) (frame_time i)).

(** The two assignments of frame [i] of the eagle driver. *)
Definition eagle_writes (i : Z) (g : statics A) : statics A :=
  set_camera_position (eagle_camera_position i)
                      (set_rotation_y (Eagle.frame_rotation i) g).

End FrameWrites.

(** [char image_name[30]]: the size of the buffer both drivers print the
    name of a frame into, and the range of the [int] they print. *)
Definition image_name_size : nat := 30.
Definition INT_MIN : Z := - 2 ^ 31.
Definition INT_MAX : Z := 2 ^ 31 - 1.

(** ** The state after the load *)

Section LoadedState.
Context {A : Type} `{Scalar A}.

(** The library state in which a model is loaded and nothing else is
    alive, as the load of either driver leaves it: the mesh under the
    handle 0, the four maps under the handles 1 to 4, the next handle 5,
    after the calls [tr]. *)
Definition loaded_world (ms : mesh A) (t1 t2 t3 t4 : texture A) (tr : list (event A))
  : world A :=
  World (<[4%nat := t4]> (<[3%nat := t3]> (<[2%nat := t2]> (<[1%nat := t1]> ∅))))
        ∅ (<[0%nat := ms]> ∅)
        5%nat (0, 0, 0, 0) None None
        (Vector4 (of_Z 0) (of_Z 0) (of_Z 0) (of_Z 0)) tr.

Definition loaded_model : model :=
  Model (Some 0%nat) (Some 1%nat) (Some 2%nat) (Some 3%nat) (Some 4%nat).

End LoadedState.

(** ** More concrete inputs *)

Section MoreSamples.
Context {A : Type} `{Scalar A}.

(** A mesh without a triangle, and the state of [sample_world] with it as
    the mesh of the model. *)
Definition empty_mesh : mesh A := Mesh [].

Definition sample_world_empty_mesh : world A :=
  World (textures sample_world) (framebuffers sample_world) (<[5%nat := empty_mesh]> ∅)
        6%nat (0, 0, 0, 0) None None
        (Vector4 (of_Z 0) (of_Z 0) (of_Z 0) (of_Z 0)) [].

(** The mesh is there, the normal map is not. *)
Definition environment_without_normal_map : environment A :=
  Environment (fun _ => Some sample_mesh)
              (fun p _ => if String.eqb p Violin.normal_map_path then None
                          else Some sample_image)
              (fun _ => true).

(** The files are there; the allocation numbered 3 fails: the second of
    the default maps of the eagle driver. *)
Definition environment_failing_allocation : environment A :=
  Environment (fun _ => Some sample_mesh) (fun _ _ => Some sample_image)
              (fun k => negb (Nat.eqb k 3)).

(** A state in which the model of the eagle driver is loaded: the mesh
    under the handle 0, the base colour map under 1, and 1x1 maps for the
    normal (a pixel of four bytes), the metallic and the roughness under 2
    to 4. *)
Definition eagle_loaded_world : world A :=
  loaded_world sample_mesh sample_image
    (Texture TEXTURE_FORMAT_RGBA8 1 1 [Bytes [128; 128; 255; 255]])
    (Texture TEXTURE_FORMAT_R8 1 1 [Bytes [255]])
    (Texture TEXTURE_FORMAT_R8 1 1 [Bytes [255]]) [].

Definition eagle_loaded_model : model := loaded_model.

End MoreSamples.

(** ** The calls of the frames *)

Section FrameCalls.
Context {A : Type} `{Scalar A}.

(** The calls of iteration [k] of the loop of [main], latest first: the
    calls of [render_model] on the mesh [ts] with the uniform block
    [uniform k], then the call that saves the image [image k]. *)
Definition frame_calls (fb cb : handle) (w h : nat) (name : Z -> string)
    (uniform : nat -> standard_uniform A) (ts : list (triangle A))
    (image : nat -> texture A) (k : nat) : list (event A) :=
  EvSaveImage (Some cb) (name (Z.of_nat k)) true (image k)
  :: render_events (Some fb) (Z.of_nat w) (Z.of_nat h)
       (Vector4 (lit 0 10) (lit 0 10) (lit 0 10) (lit 0 10)) (uniform k) ts.

(** The ten calls that end a run, latest first: the release of the model
    loaded under the handles 0 to 4, after [end_rendering] on the objects
    5 to 9. *)
Definition release_events : list (event A) :=
  [EvDestroyTexture (Some 4%nat); EvDestroyTexture (Some 3%nat);
   EvDestroyTexture (Some 2%nat); EvDestroyTexture (Some 1%nat);
   EvDestroyMesh (Some 0%nat);
   EvDestroyFramebuffer (Some 7%nat); EvDestroyFramebuffer (Some 5%nat);
   EvDestroyTexture (Some 9%nat); EvDestroyTexture (Some 8%nat);
   EvDestroyTexture (Some 6%nat)].

End FrameCalls.

(** ** Observations on the calls of a load *)

Section LoadObservations.
Context {A : Type}.

(** The messages printed, in the order of the calls to [printf]. *)
Fixpoint printed (tr : list (event A)) : list string :=
  match tr with
  | [] => []
  | EvPrintf s :: tr' => printed tr' ++ [s]
  | _ :: tr' => printed tr'
  end.

(** The pointers [load_image] returned, in the order of the calls. *)
Fixpoint load_results (tr : list (event A)) : list ptr :=
  match tr with
  | [] => []
  | EvLoadImage _ _ r :: tr' => load_results tr' ++ [r]
  | _ :: tr' => load_results tr'
  end.

(** The pointers [create_texture] returned, in the order of the calls. *)
Fixpoint create_results (tr : list (event A)) : list ptr :=
  match tr with
  | [] => []
  | EvCreateTexture _ _ _ r :: tr' => create_results tr' ++ [r]
  | _ :: tr' => create_results tr'
  end.

(** The pointers passed to [destroy_texture] and to [destroy_mesh], in
    the order of the calls. *)
Fixpoint destroyed_textures (tr : list (event A)) : list ptr :=
  match tr with
  | [] => []
  | EvDestroyTexture p :: tr' => destroyed_textures tr' ++ [p]
  | _ :: tr' => destroyed_textures tr'
  end.

Fixpoint destroyed_meshes (tr : list (event A)) : list ptr :=
  match tr with
  | [] => []
  | EvDestroyMesh p :: tr' => destroyed_meshes tr' ++ [p]
  | _ :: tr' => destroyed_meshes tr'
  end.

(** The textures written with [set_texture_pixels] and the data written,
    in the order of the calls. *)
Fixpoint pixels_set (tr : list (event A)) : list (ptr * list (texel A)) :=
  match tr with
  | [] => []
  | EvSetTexturePixels p data :: tr' => pixels_set tr' ++ [(p, data)]
  | _ :: tr' => pixels_set tr'
  end.

(** The four maps of a model, in the order of the fields. *)
Definition model_maps (m : model) : list ptr :=
  [model_base_color_map m; model_normal_map m; model_metallic_map m;
   model_roughness_map m].

End LoadObservations.
(** * Properties *)

(** ** The rasterizer: interpolation at the corners, degenerate triangles *)

Module RasterizerFacts.
Import Rasterizer.
Local Open Scope Q_scope.

Lemma checked_div_nonzero (a b : Q) : ~ b == 0 -> checked_div a b = Some (a / b).
Proof.
  intros Hb. unfold checked_div.
  destruct (Qeq_bool b 0) eqn:E; [|reflexivity].
  apply Qeq_bool_iff in E. contradiction.
Qed.

Lemma checked_div_Some (a b c : Q) : checked_div a b = Some c -> ~ b == 0 /\ c = a / b.
Proof.
  unfold checked_div. destruct (Qeq_bool b 0) eqn:E; [discriminate|].
  intros [= <-]. split; [|reflexivity].
  intros Hb. apply Qeq_bool_iff in Hb. congruence.
Qed.

(** Blending with weights equal to (1, 0, 0) gives back the first list. *)
Lemma interpolate_unit_0 (k0 k1 k2 : Q) (v0 v1 v2 : list Q) :
  k0 == 1 -> k1 == 0 -> k2 == 0 ->
  length v1 = length v0 -> length v2 = length v0 ->
  Forall2 Qeq (interpolate (k0, k1, k2) v0 v1 v2) v0.
Proof.
  intros E0 E1 E2. revert v1 v2.
  induction v0 as [|a v0 IH]; intros [|b v1] [|c v2] L1 L2;
    simpl in *; try discriminate; constructor.
  - rewrite E0, E1, E2. ring.
  - apply IH; congruence.
Qed.

Lemma interpolate_unit_1 (k0 k1 k2 : Q) (v0 v1 v2 : list Q) :
  k0 == 0 -> k1 == 1 -> k2 == 0 ->
  length v0 = length v1 -> length v2 = length v1 ->
  Forall2 Qeq (interpolate (k0, k1, k2) v0 v1 v2) v1.
Proof.
  intros E0 E1 E2. revert v0 v2.
  induction v1 as [|b v1 IH]; intros [|a v0] [|c v2] L1 L2;
    simpl in *; try discriminate; constructor.
  - rewrite E0, E1, E2. ring.
  - apply IH; congruence.
Qed.

Lemma interpolate_unit_2 (k0 k1 k2 : Q) (v0 v1 v2 : list Q) :
  k0 == 0 -> k1 == 0 -> k2 == 1 ->
  length v0 = length v2 -> length v1 = length v2 ->
  Forall2 Qeq (interpolate (k0, k1, k2) v0 v1 v2) v2.
Proof.
  intros E0 E1 E2. revert v0 v1.
  induction v2 as [|c v2 IH]; intros [|a v0] [|b v1] L1 L2;
    simpl in *; try discriminate; constructor.
  - rewrite E0, E1, E2. ring.
  - apply IH; congruence.
Qed.

(** What the reweighting returns, when it returns. *)
Lemma perspective_correct_weights_Some (b0 b1 b2 w0 w1 w2 k0 k1 k2 : Q) :
  perspective_correct_weights (b0, b1, b2) (w0, w1, w2) = Some (k0, k1, k2) ->
  ~ w0 == 0 /\ ~ w1 == 0 /\ ~ w2 == 0
  /\ ~ b0 / w0 + b1 / w1 + b2 / w2 == 0
  /\ k0 = b0 / w0 / (b0 / w0 + b1 / w1 + b2 / w2)
  /\ k1 = b1 / w1 / (b0 / w0 + b1 / w1 + b2 / w2)
  /\ k2 = b2 / w2 / (b0 / w0 + b1 / w1 + b2 / w2).
Proof.
  unfold perspective_correct_weights.
  destruct (checked_div b0 w0) as [c0|] eqn:E0; [|discriminate].
  destruct (checked_div b1 w1) as [c1|] eqn:E1; [|discriminate].
  destruct (checked_div b2 w2) as [c2|] eqn:E2; [|discriminate].
  apply checked_div_Some in E0, E1, E2.
  destruct E0 as [H0 ->], E1 as [H1 ->], E2 as [H2 ->].
  destruct (checked_div (b0 / w0) _) as [d0|] eqn:F0; [|discriminate].
  destruct (checked_div (b1 / w1) _) as [d1|] eqn:F1; [|discriminate].
  destruct (checked_div (b2 / w2) _) as [d2|] eqn:F2; [|discriminate].
  apply checked_div_Some in F0, F1, F2.
  destruct F0 as [Hs ->], F1 as [_ ->], F2 as [_ ->].
  intros [= <- <- <-]. repeat split; assumption.
Qed.

(** The reweighting keeps the corner weights: whatever the clip-space w
    of the three vertices, (1,0,0), (0,1,0) and (0,0,1) stay what they
    are. *)
Lemma reweighting_at_corner (i : nat) (b0 b1 b2 w0 w1 w2 k0 k1 k2 : Q) :
  corner_weights_of i (b0, b1, b2) ->
  perspective_correct_weights (b0, b1, b2) (w0, w1, w2) = Some (k0, k1, k2) ->
  corner_weights_of i (k0, k1, k2).
Proof.
  intros Hb Hk.
  apply perspective_correct_weights_Some in Hk.
  destruct Hk as (H0 & H1 & H2 & Hs & -> & -> & ->).
  destruct i as [|[|i]]; cbn [corner_weights_of] in *;
    destruct Hb as (E0 & E1 & E2); rewrite E0, E1, E2 in Hs |- *.
  - assert (S : 1 / w0 + 0 / w1 + 0 / w2 == / w0) by (field; tauto).
    rewrite S in Hs |- *. split; [|split]; field; tauto.
  - assert (S : 0 / w0 + 1 / w1 + 0 / w2 == / w1) by (field; tauto).
    rewrite S in Hs |- *. split; [|split]; field; tauto.
  - assert (S : 0 / w0 + 0 / w1 + 1 / w2 == / w2) by (field; tauto).
    rewrite S in Hs |- *. split; [|split]; field; tauto.
Qed.

Lemma interpolate_at_corner (i : nat) (k : Q * Q * Q) (a0 a1 a2 : list Q) :
  length a1 = length a0 -> length a2 = length a0 ->
  corner_weights_of i k ->
  Forall2 Qeq (interpolate k a0 a1 a2) (nth i [a0; a1] a2).
Proof.
  intros L1 L2 Hk. destruct k as [[k0 k1] k2].
  destruct i as [|[|i]]; cbn [corner_weights_of nth] in *;
    destruct Hk as (E0 & E1 & E2).
  - apply interpolate_unit_0; assumption.
  - apply interpolate_unit_1; congruence.
  - destruct i; apply interpolate_unit_2; congruence.
Qed.

(** *** The fragments of a triangle *)

(** A fragment of the list comes from a pixel of the box. *)
Lemma shade_pixels_In (v0 v1 v2 : screen_vertex) (a0 a1 a2 : list Q) (inv_area : Q)
    (ps : list (Z * Z)) :
  forall fs f,
    shade_pixels v0 v1 v2 a0 a1 a2 inv_area ps = Some fs -> In f fs ->
    exists p, In p ps /\ shade_pixel v0 v1 v2 a0 a1 a2 inv_area p = Some (Some f).
Proof.
  induction ps as [|p ps IH]; intros fs f E Hf; cbn [shade_pixels] in E.
  - injection E as <-. destruct Hf.
  - destruct (shade_pixel v0 v1 v2 a0 a1 a2 inv_area p) as [[g|]|] eqn:Ep;
      [| |discriminate];
      destruct (shade_pixels v0 v1 v2 a0 a1 a2 inv_area ps) as [gs|] eqn:Es;
      try discriminate; injection E as <-.
    + destruct Hf as [<-|Hf].
      * exists p. split; [left; reflexivity|exact Ep].
      * destruct (IH gs f eq_refl Hf) as (q & Hq & Eq).
        exists q. split; [right; exact Hq|exact Eq].
    + destruct (IH gs f eq_refl Hf) as (q & Hq & Eq).
      exists q. split; [right; exact Hq|exact Eq].
Qed.

(** Every pixel of the box is shaded, and a covered one gives a fragment
    of the list. *)
Lemma shade_pixels_covers (v0 v1 v2 : screen_vertex) (a0 a1 a2 : list Q) (inv_area : Q)
    (ps : list (Z * Z)) :
  forall fs p,
    shade_pixels v0 v1 v2 a0 a1 a2 inv_area ps = Some fs -> In p ps ->
    match shade_pixel v0 v1 v2 a0 a1 a2 inv_area p with
    | Some (Some f) => In f fs
    | Some None => True
    | None => False
    end.
Proof.
  induction ps as [|q ps IH]; intros fs p E Hp; [destruct Hp|].
  cbn [shade_pixels] in E.
  destruct (shade_pixel v0 v1 v2 a0 a1 a2 inv_area q) as [[g|]|] eqn:Eq;
    [| |discriminate];
    destruct (shade_pixels v0 v1 v2 a0 a1 a2 inv_area ps) as [gs|] eqn:Es;
    try discriminate; injection E as <-.
  - destruct Hp as [<-|Hp].
    + rewrite Eq. left. reflexivity.
    + specialize (IH gs p eq_refl Hp).
      destruct (shade_pixel v0 v1 v2 a0 a1 a2 inv_area p) as [[f|]|];
        [right; exact IH|exact I|exact IH].
  - destruct Hp as [<-|Hp].
    + rewrite Eq. exact I.
    + exact (IH gs p eq_refl Hp).
Qed.

(** The fragment of a pixel: where it is, and what it carries when the
    weights of the pixel are those of a corner. *)
Lemma shade_pixel_fragment (v0 v1 v2 : screen_vertex) (a0 a1 a2 : list Q)
    (inv_area : Q) (p : Z * Z) (f : fragment) (i : nat) :
  length a1 = length a0 -> length a2 = length a0 ->
  shade_pixel v0 v1 v2 a0 a1 a2 inv_area p = Some (Some f) ->
  frag_x f = fst p /\ frag_y f = snd p
  /\ (corner_weights_of i (barycentric v0 v1 v2 inv_area p) ->
      Forall2 Qeq (frag_varyings f) (nth i [a0; a1] a2)).
Proof.
  intros L1 L2. unfold shade_pixel.
  destruct (barycentric v0 v1 v2 inv_area p) as [[b0 b1] b2].
  destruct (_ && _ && _); [|discriminate].
  destruct (perspective_correct_weights _ _) as [[[k0 k1] k2]|] eqn:Ek; [|discriminate].
  intros [= <-]. cbn [frag_x frag_y frag_varyings].
  split; [reflexivity|]. split; [reflexivity|].
  intros Hb. apply interpolate_at_corner; try assumption.
  exact (reweighting_at_corner i _ _ _ _ _ _ _ _ _ Hb Ek).
Qed.

Lemma inside_edge_positive (b : Q) (owned : bool) : b == 1 -> inside_edge b owned = true.
Proof.
  intros E. unfold inside_edge.
  destruct (Qle_bool b 0) eqn:L; [|reflexivity].
  apply Qle_bool_iff in L. rewrite E in L. lra.
Qed.

Lemma inside_edge_owned (b : Q) : b == 0 -> inside_edge b true = true.
Proof.
  intros E. unfold inside_edge.
  apply Qeq_bool_iff in E. rewrite E. apply orb_true_r.
Qed.

(** A pixel whose weights are those of a corner is covered when the
    triangle owns the two edges through that corner. *)
Lemma shade_pixel_corner (v0 v1 v2 : screen_vertex) (a0 a1 a2 : list Q)
    (inv_area : Q) (p : Z * Z) (i : nat) :
  corner_weights_of i (barycentric v0 v1 v2 inv_area p) ->
  (i <> 0%nat -> owns_edge (sx v1) (sy v1) (sx v2) (sy v2) inv_area = true) ->
  (i <> 1%nat -> owns_edge (sx v2) (sy v2) (sx v0) (sy v0) inv_area = true) ->
  (i = 0%nat \/ i = 1%nat -> owns_edge (sx v0) (sy v0) (sx v1) (sy v1) inv_area = true) ->
  shade_pixel v0 v1 v2 a0 a1 a2 inv_area p <> Some None.
Proof.
  intros Hb O0 O1 O2. unfold shade_pixel.
  destruct (barycentric v0 v1 v2 inv_area p) as [[b0 b1] b2].
  assert (C : inside_edge b0 (owns_edge (sx v1) (sy v1) (sx v2) (sy v2) inv_area)
              && inside_edge b1 (owns_edge (sx v2) (sy v2) (sx v0) (sy v0) inv_area)
              && inside_edge b2 (owns_edge (sx v0) (sy v0) (sx v1) (sy v1) inv_area)
              = true).
  { destruct i as [|[|i]]; cbn [corner_weights_of] in Hb;
      destruct Hb as (E0 & E1 & E2).
    - rewrite (inside_edge_positive b0 _ E0), O1, O2 by (auto; discriminate).
      rewrite !inside_edge_owned by assumption. reflexivity.
    - rewrite (inside_edge_positive b1 _ E1), O0, O2 by (auto; discriminate).
      rewrite !inside_edge_owned by assumption. reflexivity.
    - rewrite (inside_edge_positive b2 _ E2), O0, O1 by discriminate.
      rewrite !inside_edge_owned by assumption. reflexivity. }
  rewrite C. destruct (perspective_correct_weights _ _); discriminate.
Qed.

(** The weights of a pixel whose centre is a vertex of the triangle are
    the weights of that corner. *)
Lemma barycentric_at_vertex (v0 v1 v2 : screen_vertex) (p : Z * Z) (i : nat) :
  ~ signed_area v0 v1 v2 == 0 ->
  centred_at p (nth i [v0; v1] v2) ->
  corner_weights_of i (barycentric v0 v1 v2 (1 / signed_area v0 v1 v2) p).
Proof.
  intros Ha [Hx Hy]. unfold barycentric.
  destruct i as [|[|i]]; cbn [nth corner_weights_of] in *.
  - assert (E0 : edge (sx v1) (sy v1) (sx v2) (sy v2)
                      (inject_Z (fst p) + (1 # 2)) (inject_Z (snd p) + (1 # 2))
                 == signed_area v0 v1 v2)
      by (unfold signed_area, edge; rewrite Hx, Hy; ring).
    assert (E1 : edge (sx v2) (sy v2) (sx v0) (sy v0)
                      (inject_Z (fst p) + (1 # 2)) (inject_Z (snd p) + (1 # 2)) == 0)
      by (unfold edge; rewrite Hx, Hy; ring).
    assert (E2 : edge (sx v0) (sy v0) (sx v1) (sy v1)
                      (inject_Z (fst p) + (1 # 2)) (inject_Z (snd p) + (1 # 2)) == 0)
      by (unfold edge; rewrite Hx, Hy; ring).
    rewrite E0, E1, E2. split; [|split]; [field; exact Ha|ring|ring].
  - assert (E0 : edge (sx v1) (sy v1) (sx v2) (sy v2)
                      (inject_Z (fst p) + (1 # 2)) (inject_Z (snd p) + (1 # 2)) == 0)
      by (unfold edge; rewrite Hx, Hy; ring).
    assert (E1 : edge (sx v2) (sy v2) (sx v0) (sy v0)
                      (inject_Z (fst p) + (1 # 2)) (inject_Z (snd p) + (1 # 2))
                 == signed_area v0 v1 v2)
      by (unfold signed_area, edge; rewrite Hx, Hy; ring).
    assert (E2 : edge (sx v0) (sy v0) (sx v1) (sy v1)
                      (inject_Z (fst p) + (1 # 2)) (inject_Z (snd p) + (1 # 2)) == 0)
      by (unfold edge; rewrite Hx, Hy; ring).
    rewrite E0, E1, E2. split; [|split]; [ring|field; exact Ha|ring].
  - assert (Hx' : inject_Z (fst p) + (1 # 2) == sx v2) by (destruct i; exact Hx).
    assert (Hy' : inject_Z (snd p) + (1 # 2) == sy v2) by (destruct i; exact Hy).
    assert (E0 : edge (sx v1) (sy v1) (sx v2) (sy v2)
                      (inject_Z (fst p) + (1 # 2)) (inject_Z (snd p) + (1 # 2)) == 0)
      by (unfold edge; rewrite Hx', Hy'; ring).
    assert (E1 : edge (sx v2) (sy v2) (sx v0) (sy v0)
                      (inject_Z (fst p) + (1 # 2)) (inject_Z (snd p) + (1 # 2)) == 0)
      by (unfold edge; rewrite Hx', Hy'; ring).
    assert (E2 : edge (sx v0) (sy v0) (sx v1) (sy v1)
                      (inject_Z (fst p) + (1 # 2)) (inject_Z (snd p) + (1 # 2))
                 == signed_area v0 v1 v2)
      by (unfold signed_area, edge; rewrite Hx', Hy'; ring).
    rewrite E0, E1, E2. split; [|split]; [ring|ring|field; exact Ha].
Qed.

(** *** The bounding box *)

Lemma Qfloor_Z_floor (q : Q) : Qfloor_Z q = Qfloor q.
Proof. destruct q. reflexivity. Qed.

Lemma floor_of_centre (q : Q) (x : Z) : inject_Z x + (1 # 2) == q -> Qfloor_Z q = x.
Proof.
  intros E. rewrite Qfloor_Z_floor.
  pose proof (Qfloor_le q) as L. pose proof (Qlt_floor q) as U.
  assert (L' : inject_Z (Qfloor q) < inject_Z (x + 1)).
  { rewrite (inject_Z_plus x 1). change (inject_Z 1) with 1. lra. }
  assert (U' : inject_Z x < inject_Z (Qfloor q + 1)) by lra.
  rewrite <- Zlt_Qlt in L', U'. lia.
Qed.

Lemma floor_between (a b c q : Q) (x : Z) :
  q == a \/ q == b \/ q == c -> inject_Z x + (1 # 2) == q ->
  (Qfloor_Z (Qmin3 a b c) <= x < Qfloor_Z (Qmax3 a b c) + 1)%Z.
Proof.
  intros Hq E.
  assert (Lo : Qmin3 a b c <= q).
  { unfold Qmin3. destruct Hq as [Hq|[Hq|Hq]]; rewrite Hq.
    - apply Q.le_min_l.
    - eapply Qle_trans; [apply Q.le_min_r|apply Q.le_min_l].
    - eapply Qle_trans; [apply Q.le_min_r|apply Q.le_min_r]. }
  assert (Hi : q <= Qmax3 a b c).
  { unfold Qmax3. destruct Hq as [Hq|[Hq|Hq]]; rewrite Hq.
    - apply Q.le_max_l.
    - eapply Qle_trans; [apply Q.le_max_l|apply Q.le_max_r].
    - eapply Qle_trans; [apply Q.le_max_r|apply Q.le_max_r]. }
  pose proof (floor_of_centre q x E) as F.
  rewrite !Qfloor_Z_floor in *.
  pose proof (Qfloor_resp_le _ _ Lo). pose proof (Qfloor_resp_le _ _ Hi). lia.
Qed.

Lemma in_pixels_of_box (x0 y0 x y : Z) (nx ny : nat) :
  (x0 <= x < x0 + Z.of_nat nx)%Z -> (y0 <= y < y0 + Z.of_nat ny)%Z ->
  In (x, y) (pixels_of_box x0 nx y0 ny).
Proof.
  intros Hx Hy. unfold pixels_of_box. apply in_flat_map.
  exists (Z.to_nat (y - y0)). split; [apply in_seq; lia|].
  apply in_map_iff. exists (Z.to_nat (x - x0)). split; [|apply in_seq; lia].
  f_equal; lia.
Qed.

(** A pixel of the target whose centre is a vertex is in the box. *)
Lemma vertex_pixel_in_box (a b c q a' b' c' q' : Q) (p : Z * Z)
    (vx vy vw vh : Z) (fw fh : nat) :
  q == a \/ q == b \/ q == c -> q' == a' \/ q' == b' \/ q' == c' ->
  inject_Z (fst p) + (1 # 2) == q -> inject_Z (snd p) + (1 # 2) == q' ->
  in_target (vx, vy, vw, vh) fw fh p ->
  In p (pixels_of_box (fst (clip_range a b c vx vw (Z.of_nat fw)))
                      (snd (clip_range a b c vx vw (Z.of_nat fw)))
                      (fst (clip_range a' b' c' vy vh (Z.of_nat fh)))
                      (snd (clip_range a' b' c' vy vh (Z.of_nat fh)))).
Proof.
  intros Hq Hq' Ex Ey [Bx By]. destruct p as [x y]. cbn [fst snd] in *.
  pose proof (floor_between a b c q x Hq Ex).
  pose proof (floor_between a' b' c' q' y Hq' Ey).
  unfold clip_range. cbn [fst snd]. apply in_pixels_of_box; lia.
Qed.

(** The fragments of a triangle that is not degenerate. *)
Lemma covered_fragments_proper (vp : Z * Z * Z * Z) (fw fh : nat)
    (t0 t1 t2 : shaded_vertex) (v0 v1 v2 : screen_vertex) :
  project vp (clip_position t0) = Some v0 ->
  project vp (clip_position t1) = Some v1 ->
  project vp (clip_position t2) = Some v2 ->
  ~ signed_area v0 v1 v2 == 0 ->
  covered_fragments vp fw fh t0 t1 t2
  = shade_pixels v0 v1 v2 (varyings t0) (varyings t1) (varyings t2)
      (1 / signed_area v0 v1 v2)
      (pixels_of_box
         (fst (clip_range (sx v0) (sx v1) (sx v2) (fst (fst (fst vp))) (snd (fst vp))
                          (Z.of_nat fw)))
         (snd (clip_range (sx v0) (sx v1) (sx v2) (fst (fst (fst vp))) (snd (fst vp))
                          (Z.of_nat fw)))
         (fst (clip_range (sy v0) (sy v1) (sy v2) (snd (fst (fst vp))) (snd vp)
                          (Z.of_nat fh)))
         (snd (clip_range (sy v0) (sy v1) (sy v2) (snd (fst (fst vp))) (snd vp)
                          (Z.of_nat fh)))).
Proof.
  intros P0 P1 P2 Ha. unfold covered_fragments. rewrite P0, P1, P2.
  destruct (Qeq_bool (signed_area v0 v1 v2) 0) eqn:E.
  { apply Qeq_bool_iff in E. contradiction. }
  rewrite (checked_div_nonzero _ _ Ha).
  destruct vp as [[[vx vy] vw] vh]. cbn [fst snd]. reflexivity.
Qed.

(** A fragment at a corner of the triangle: produced when the pixel is in
    the target and the triangle owns the two edges through the corner. *)
Lemma corner_fragment_exists (vp : Z * Z * Z * Z) (fw fh : nat)
    (t0 t1 t2 : shaded_vertex) (v0 v1 v2 : screen_vertex) (fs : list fragment)
    (p : Z * Z) (i : nat) :
  project vp (clip_position t0) = Some v0 ->
  project vp (clip_position t1) = Some v1 ->
  project vp (clip_position t2) = Some v2 ->
  length (varyings t1) = length (varyings t0) ->
  length (varyings t2) = length (varyings t0) ->
  covered_fragments vp fw fh t0 t1 t2 = Some fs ->
  ~ signed_area v0 v1 v2 == 0 ->
  in_target vp fw fh p ->
  centred_at p (nth i [v0; v1] v2) ->
  (i <> 0%nat ->
   owns_edge (sx v1) (sy v1) (sx v2) (sy v2) (1 / signed_area v0 v1 v2) = true) ->
  (i <> 1%nat ->
   owns_edge (sx v2) (sy v2) (sx v0) (sy v0) (1 / signed_area v0 v1 v2) = true) ->
  (i = 0%nat \/ i = 1%nat ->
   owns_edge (sx v0) (sy v0) (sx v1) (sy v1) (1 / signed_area v0 v1 v2) = true) ->
  exists f, In f fs /\ frag_x f = fst p /\ frag_y f = snd p
            /\ corner_weights_of i (fragment_weights v0 v1 v2 f)
            /\ Forall2 Qeq (frag_varyings f)
                       (nth i [varyings t0; varyings t1] (varyings t2)).
Proof.
  intros P0 P1 P2 L1 L2 C Ha Ht Hc O0 O1 O2.
  rewrite (covered_fragments_proper vp fw fh t0 t1 t2 v0 v1 v2 P0 P1 P2 Ha) in C.
  pose proof (barycentric_at_vertex v0 v1 v2 p i Ha Hc) as Hb.
  assert (Hin : In p (pixels_of_box
         (fst (clip_range (sx v0) (sx v1) (sx v2) (fst (fst (fst vp))) (snd (fst vp))
                          (Z.of_nat fw)))
         (snd (clip_range (sx v0) (sx v1) (sx v2) (fst (fst (fst vp))) (snd (fst vp))
                          (Z.of_nat fw)))
         (fst (clip_range (sy v0) (sy v1) (sy v2) (snd (fst (fst vp))) (snd vp)
                          (Z.of_nat fh)))
         (snd (clip_range (sy v0) (sy v1) (sy v2) (snd (fst (fst vp))) (snd vp)
                          (Z.of_nat fh))))).
  { destruct vp as [[[vx vy] vw] vh]. cbn [fst snd]. destruct Hc as [Hx Hy].
    apply (vertex_pixel_in_box (sx v0) (sx v1) (sx v2) (sx (nth i [v0; v1] v2))
             (sy v0) (sy v1) (sy v2) (sy (nth i [v0; v1] v2)));
      try assumption;
      destruct i as [|[|[|i]]]; cbn [nth];
      first [left; reflexivity|right; left; reflexivity|right; right; reflexivity]. }
  pose proof (shade_pixels_covers _ _ _ _ _ _ _ _ fs p C Hin) as Hp.
  pose proof (shade_pixel_corner v0 v1 v2 (varyings t0) (varyings t1) (varyings t2)
                (1 / signed_area v0 v1 v2) p i Hb O0 O1 O2) as Hn.
  destruct (shade_pixel v0 v1 v2 (varyings t0) (varyings t1) (varyings t2)
              (1 / signed_area v0 v1 v2) p) as [[f|]|] eqn:Ep;
    [|congruence|destruct Hp].
  destruct (shade_pixel_fragment v0 v1 v2 _ _ _ _ p f i L1 L2 Ep) as (Fx & Fy & Fv).
  exists f. split; [exact Hp|]. split; [exact Fx|]. split; [exact Fy|].
  split; [|exact (Fv Hb)].
  unfold fragment_weights. rewrite Fx, Fy. destruct p. exact Hb.
Qed.

(** C6.  For every triangle whose three vertices carry the varyings v0,
    v1, v2: a fragment that [covered_fragments] produces, and whose
    barycentric weights are the corner weights (1,0,0), (0,1,0) or (0,0,1),
    carries exactly the varyings of that vertex, after the
    perspective-correct reweighting, whatever the clip-space w of the
    three vertices.  And such a fragment is produced: for a triangle that
    is not degenerate, at the pixel of the target whose centre is the
    projected vertex, when the fill rule gives the triangle the two edges
    through that vertex. *)
Theorem corner_fragment_receives_vertex_varyings
    (vp : Z * Z * Z * Z) (fw fh : nat) (t0 t1 t2 : shaded_vertex)
    (v0 v1 v2 : screen_vertex) (fs : list fragment) :
  project vp (clip_position t0) = Some v0 ->
  project vp (clip_position t1) = Some v1 ->
  project vp (clip_position t2) = Some v2 ->
  length (varyings t1) = length (varyings t0) ->
  length (varyings t2) = length (varyings t0) ->
  covered_fragments vp fw fh t0 t1 t2 = Some fs ->
  (forall f i, In f fs -> corner_weights_of i (fragment_weights v0 v1 v2 f) ->
     Forall2 Qeq (frag_varyings f) (nth i [varyings t0; varyings t1] (varyings t2)))
  /\ (forall p i,
        ~ signed_area v0 v1 v2 == 0 -> in_target vp fw fh p ->
        centred_at p (nth i [v0; v1] v2) ->
        (i <> 0%nat ->
         owns_edge (sx v1) (sy v1) (sx v2) (sy v2) (1 / signed_area v0 v1 v2) = true) ->
        (i <> 1%nat ->
         owns_edge (sx v2) (sy v2) (sx v0) (sy v0) (1 / signed_area v0 v1 v2) = true) ->
        (i = 0%nat \/ i = 1%nat ->
         owns_edge (sx v0) (sy v0) (sx v1) (sy v1) (1 / signed_area v0 v1 v2) = true) ->
        exists f, In f fs /\ frag_x f = fst p /\ frag_y f = snd p
                  /\ corner_weights_of i (fragment_weights v0 v1 v2 f)
                  /\ Forall2 Qeq (frag_varyings f)
                             (nth i [varyings t0; varyings t1] (varyings t2))).
Proof.
  intros P0 P1 P2 L1 L2 C. split.
  - intros f i Hf Hb.
    destruct (Qeq_dec (signed_area v0 v1 v2) 0) as [Hz|Ha].
    { unfold covered_fragments in C. rewrite P0, P1, P2 in C.
      apply Qeq_bool_iff in Hz. rewrite Hz in C. injection C as <-. destruct Hf. }
    rewrite (covered_fragments_proper vp fw fh t0 t1 t2 v0 v1 v2 P0 P1 P2 Ha) in C.
    destruct (shade_pixels_In _ _ _ _ _ _ _ _ fs f C Hf) as (p & _ & Ep).
    destruct (shade_pixel_fragment v0 v1 v2 _ _ _ _ p f i L1 L2 Ep) as (Fx & Fy & Fv).
    apply Fv. unfold fragment_weights in Hb. rewrite Fx, Fy in Hb.
    destruct p. exact Hb.
  - intros p i Ha Ht Hc O0 O1 O2.
    exact (corner_fragment_exists vp fw fh t0 t1 t2 v0 v1 v2 fs p i
             P0 P1 P2 L1 L2 C Ha Ht Hc O0 O1 O2).
Qed.

Lemma corner_fragment_receives_vertex_varyings_witness :
  exists fs,
    covered_fragments (0, 0, 4, 4)%Z 4 4
      (RasterizerSamples.corner_vertex 0) (RasterizerSamples.corner_vertex 1)
      (RasterizerSamples.corner_vertex 2) = Some fs
    /\ exists f, In f fs /\ frag_x f = 3%Z /\ frag_y f = 0%Z
                 /\ corner_weights_of 1
                      (fragment_weights (RasterizerSamples.corner_screen_vertex 0)
                         (RasterizerSamples.corner_screen_vertex 1)
                         (RasterizerSamples.corner_screen_vertex 2) f)
                 /\ Forall2 Qeq (frag_varyings f) [3 # 4; - (3 # 4)].
Proof.
  destruct (covered_fragments (0, 0, 4, 4)%Z 4 4
              (RasterizerSamples.corner_vertex 0) (RasterizerSamples.corner_vertex 1)
              (RasterizerSamples.corner_vertex 2)) as [fs|] eqn:C;
    [|vm_compute in C; discriminate C].
  exists fs. split; [reflexivity|].
  apply (proj2 (corner_fragment_receives_vertex_varyings (0, 0, 4, 4)%Z 4 4
                  (RasterizerSamples.corner_vertex 0) (RasterizerSamples.corner_vertex 1)
                  (RasterizerSamples.corner_vertex 2)
                  (RasterizerSamples.corner_screen_vertex 0)
                  (RasterizerSamples.corner_screen_vertex 1)
                  (RasterizerSamples.corner_screen_vertex 2) fs
                  ltac:(vm_compute; reflexivity) ltac:(vm_compute; reflexivity)
                  ltac:(vm_compute; reflexivity) eq_refl eq_refl C) (3, 0)%Z 1%nat).
  - vm_compute. discriminate.
  - vm_compute. repeat split; discriminate.
  - split; vm_compute; reflexivity.
  - intros _. vm_compute. reflexivity.
  - intros H. contradiction H. reflexivity.
  - intros _. vm_compute. reflexivity.
Defined.

(** A triangle that is not degenerate covers pixels. *)
Example proper_triangle_covers_pixels :
  option_map (@length fragment)
    (covered_fragments (0, 0, 4, 4)%Z 4 4
       (RasterizerSamples.sample_vertex_stage (uniform_with_light matrix4x4_identity None)
          (sample_attribute (-1) (-1) 0))
       (RasterizerSamples.sample_vertex_stage (uniform_with_light matrix4x4_identity None)
          (sample_attribute 1 (-1) 0))
       (RasterizerSamples.sample_vertex_stage (uniform_with_light matrix4x4_identity None)
          (sample_attribute 0 1 0)))
  = Some 8%nat.
Proof. vm_compute. reflexivity. Qed.

Section Stages.
Variable vertex_stage : standard_uniform Q -> standard_vertex_attribute Q -> shaded_vertex.
Variable fragment_stage : standard_uniform Q -> list Q -> vector4 Q.

(** C7.  For every triangle whose three projected vertices have zero
    signed area, [draw_triangle] returns (no division by zero is met),
    covers zero pixels and leaves the framebuffer as it was. *)
Theorem degenerate_triangle_draws_nothing
    (vp : Z * Z * Z * Z) (fb : texture Q * texture Q) (u : standard_uniform Q)
    (a0 a1 a2 : standard_vertex_attribute Q) (v0 v1 v2 : screen_vertex) :
  project vp (clip_position (vertex_stage u a0)) = Some v0 ->
  project vp (clip_position (vertex_stage u a1)) = Some v1 ->
  project vp (clip_position (vertex_stage u a2)) = Some v2 ->
  signed_area v0 v1 v2 == 0 ->
  covered_fragments vp (width (fst fb)) (height (fst fb))
    (vertex_stage u a0) (vertex_stage u a1) (vertex_stage u a2) = Some []
  /\ draw_triangle vertex_stage fragment_stage vp fb u (a0, a1, a2) = Some (fb, O).
Proof.
  intros P0 P1 P2 Harea.
  assert (C : covered_fragments vp (width (fst fb)) (height (fst fb))
                (vertex_stage u a0) (vertex_stage u a1) (vertex_stage u a2) = Some []).
  { unfold covered_fragments. rewrite P0, P1, P2.
    apply Qeq_bool_iff in Harea. rewrite Harea. reflexivity. }
  split; [exact C|].
  unfold draw_triangle. rewrite C. reflexivity.
Qed.

End Stages.

Lemma degenerate_triangle_draws_nothing_witness :
  covered_fragments (0, 0, 4, 4)%Z 4 4
    (RasterizerSamples.sample_vertex_stage (uniform_with_light matrix4x4_identity None)
       (sample_attribute (-1) (-1) 0))
    (RasterizerSamples.sample_vertex_stage (uniform_with_light matrix4x4_identity None)
       (sample_attribute 0 0 0))
    (RasterizerSamples.sample_vertex_stage (uniform_with_light matrix4x4_identity None)
       (sample_attribute 1 1 0)) = Some []
  /\ draw_triangle RasterizerSamples.sample_vertex_stage
       RasterizerSamples.sample_fragment_stage (0, 0, 4, 4)%Z
       RasterizerSamples.sample_framebuffer
       (uniform_with_light matrix4x4_identity None)
       RasterizerSamples.degenerate_triangle
     = Some (RasterizerSamples.sample_framebuffer, O).
Proof.
  apply (degenerate_triangle_draws_nothing
           RasterizerSamples.sample_vertex_stage RasterizerSamples.sample_fragment_stage
           (0, 0, 4, 4)%Z RasterizerSamples.sample_framebuffer
           (uniform_with_light matrix4x4_identity None)
           (sample_attribute (-1) (-1) 0) (sample_attribute 0 0 0) (sample_attribute 1 1 0)
           (ScreenVertex (0 # 2) (0 # 2) 0 1) (ScreenVertex (4 # 2) (4 # 2) 0 1)
           (ScreenVertex (8 # 2) (8 # 2) 0 1)).
  - vm_compute. reflexivity.
  - vm_compute. reflexivity.
  - vm_compute. reflexivity.
  - vm_compute. reflexivity.
Defined.

End RasterizerFacts.

(** ** The scale-bias matrix *)

Lemma scale_bias_exact (x y z : Q) :
  vector4_Qeq (matrix4x4_multiply_vector4 scale_bias (Vector4 x y z 1%Q))
              (Vector4 ((x + 1) / 2) ((y + 1) / 2) ((z + 1) / 2) 1)%Q.
Proof.
  unfold vector4_Qeq, matrix4x4_multiply_vector4, dot4, scale_bias. simpl.
  repeat split; field.
Qed.

(** C4.  The scale-bias matrix of both drivers, applied as a homogeneous
    transform, maps (-1,-1,-1) exactly to (0,0,0) and (1,1,1) exactly to
    (1,1,1), in binary32 as in exact arithmetic, where it maps each
    component c to (c + 1) / 2 and so the cube [-1,1]^3 to [0,1]^3. *)
Theorem scale_bias_remaps_clip_cube :
  matrix4x4_multiply_vector4 (A := F32.t) scale_bias
    (Vector4 (of_Z (-1)) (of_Z (-1)) (of_Z (-1)) (of_Z 1))
  = Vector4 (of_Z 0) (of_Z 0) (of_Z 0) (of_Z 1)
  /\ matrix4x4_multiply_vector4 (A := F32.t) scale_bias
       (Vector4 (of_Z 1) (of_Z 1) (of_Z 1) (of_Z 1))
     = Vector4 (of_Z 1) (of_Z 1) (of_Z 1) (of_Z 1)
  /\ vector4_Qeq (matrix4x4_multiply_vector4 scale_bias (Vector4 (-1) (-1) (-1) 1)%Q)
                 (Vector4 0 0 0 1)%Q
  /\ vector4_Qeq (matrix4x4_multiply_vector4 scale_bias (Vector4 1 1 1 1)%Q)
                 (Vector4 1 1 1 1)%Q
  /\ forall x y z : Q,
       let r := matrix4x4_multiply_vector4 scale_bias (Vector4 x y z 1%Q) in
       vector4_Qeq r (Vector4 ((x + 1) / 2) ((y + 1) / 2) ((z + 1) / 2) 1)%Q
       /\ ((-1 <= x <= 1 -> 0 <= x4 r <= 1)
           /\ (-1 <= y <= 1 -> 0 <= y4 r <= 1)
           /\ (-1 <= z <= 1 -> 0 <= z4 r <= 1))%Q.
Proof.
  split; [vm_compute; reflexivity|].
  split; [vm_compute; reflexivity|].
  split; [vm_compute; repeat split|].
  split; [vm_compute; repeat split|].
  intros x y z r.
  destruct (scale_bias_exact x y z) as (Ex & Ey & Ez & Ew).
  split; [repeat split; assumption|].
  fold r in Ex, Ey, Ez. cbn [x4 y4 z4] in Ex, Ey, Ez.
  assert (Half : forall c : Q, ((c + 1) / 2 == (1 # 2) * c + (1 # 2))%Q)
    by (intros c; field).
  split; [|split]; intros [L U];
    [rewrite Ex | rewrite Ey | rewrite Ez]; rewrite Half; lra.
Qed.

(** ** The shadow factor under the default shadow map *)

Section ShadowFacts.
Context {A : Type} `{Scalar A}.





End ShadowFacts.



Lemma leb_zero_any_sign (s : bool) (t : F32.t) :
  F32.leb (S754_zero false) t = true -> F32.leb (S754_zero s) t = true.
Proof. destruct t; intros E; exact E. Qed.





(** ** The library: clearing and drawing *)

(** Projections of explicit states and worlds. *)
Ltac simpl_world :=
  unfold log, with_textures, with_framebuffers, with_meshes, bump in *;
  cbn [lib globals log with_textures with_framebuffers with_meshes bump
       textures framebuffers meshes next viewport current_vertex_shader
       current_fragment_shader clear_color trace
       color_attachment depth_attachment] in *.

(** Evaluates a closed run [X] in a goal [exists r s, X = Some (r, s) /\ _]. *)
Ltac evaluate_run :=
  match goal with
  | |- exists r s1, ?X = Some (r, s1) /\ _ =>
      let v := eval vm_compute in X in
      match v with
      | Some (?r0, ?s0) => exists r0, s0; split; [vm_compute; reflexivity|]
      end
  end.

Section LibraryFacts.
Context {A : Type} `{Scalar A}.
Variable env : environment A.
Variable rasterize : rasterizer A.

Lemma bind_Some {X Y : Type} (m : M A X) (k : X -> M A Y) (s s' : state A) (x : X) :
  m s = Some (x, s') -> bind m k s = k x s'.
Proof. intros E. unfold bind. rewrite E. reflexivity. Qed.

Lemma bind_None {X Y : Type} (m : M A X) (k : X -> M A Y) (s : state A) :
  m s = None -> bind m k s = None.
Proof. intros E. unfold bind. rewrite E. reflexivity. Qed.

(** A cleared texture reads back the clear value at every pixel. *)
Lemma texture_pixel_cleared (v : texel A) (t : texture A) (x y : nat) :
  (x < width t)%nat -> (y < height t)%nat ->
  texture_pixel (cleared v t) x y = Some v.
Proof.
  intros Hx Hy. unfold texture_pixel, cleared. cbn [width height pixels].
  destruct (Nat.ltb_spec x (width t)); [|lia].
  destruct (Nat.ltb_spec y (height t)); [|lia].
  cbn [andb]. apply lookup_replicate_2. nia.
Qed.

Lemma clear_attachment_live (p : handle) (v : texel A) (t : texture A)
    (m : gmap handle (texture A)) :
  m !! p = Some t -> clear_attachment (Some p) v m = Some (<[p := cleared v t]> m).
Proof. intros E. unfold clear_attachment. rewrite E. reflexivity. Qed.

(** What [clear_framebuffer] does to a framebuffer with two distinct live
    attachments. *)
Lemma clear_framebuffer_attached (s : state A) (fb cb db : handle) (tc td : texture A) :
  framebuffers (lib s) !! fb = Some (Framebuffer (Some cb) (Some db)) ->
  textures (lib s) !! cb = Some tc ->
  textures (lib s) !! db = Some td ->
  cb <> db ->
  clear_framebuffer (Some fb) s
  = Some (tt, State (globals s)
                (log (EvClearFramebuffer (Some fb))
                   (with_textures
                      (<[db := cleared (Depth CLEAR_DEPTH) td]>
                         (<[cb := cleared (Color (clear_color (lib s))) tc]>
                            (textures (lib s))))
                      (lib s)))).
Proof.
  intros Hfb Hc Hd Hne. unfold clear_framebuffer, call. rewrite Hfb.
  cbn [color_attachment depth_attachment].
  rewrite (clear_attachment_live cb _ tc) by exact Hc.
  rewrite (clear_attachment_live db _ td) by (rewrite lookup_insert_ne; auto).
  reflexivity.
Qed.

(** Two inserts at the same two keys hide whatever was inserted there
    before. *)
Lemma insert_pair_overwrite (m : gmap handle (texture A)) (c d : handle)
    (t1 t2 t3 t4 : texture A) :
  <[d := t4]> (<[c := t3]> (<[d := t2]> (<[c := t1]> m))) = <[d := t4]> (<[c := t3]> m).
Proof.
  apply map_eq. intros k. rewrite !lookup_insert.
  repeat case_decide; congruence.
Qed.

(** C8.  After [set_clear_color] and [clear_framebuffer] on a framebuffer
    whose colour attachment is a live texture (and whose depth attachment,
    if any, is another live texture), every pixel of the colour attachment
    reads back exactly the clear colour, (0,0,0,0) when that is the clear
    colour, and every pixel of the depth attachment the clear depth. *)
Theorem clear_writes_clear_value_to_every_pixel
    (s : state A) (fb cb : handle) (f : framebuffer) (t : texture A) (r g b a : A) :
  framebuffers (lib s) !! fb = Some f ->
  color_attachment f = Some cb ->
  textures (lib s) !! cb = Some t ->
  (forall db, depth_attachment f = Some db ->
              db <> cb /\ is_Some (textures (lib s) !! db)) ->
  exists s',
    bind (set_clear_color r g b a) (fun _ => clear_framebuffer (Some fb)) s = Some (tt, s')
    /\ (exists t', textures (lib s') !! cb = Some t'
                   /\ format t' = format t /\ width t' = width t /\ height t' = height t
                   /\ forall x y, (x < width t)%nat -> (y < height t)%nat ->
                                  texture_pixel t' x y = Some (Color (Vector4 r g b a)))
    /\ (forall db td, depth_attachment f = Some db -> textures (lib s) !! db = Some td ->
          exists td', textures (lib s') !! db = Some td'
                      /\ forall x y, (x < width td)%nat -> (y < height td)%nat ->
                                     texture_pixel td' x y = Some (Depth CLEAR_DEPTH)).
Proof.
  intros Hfb Hc Ht Hd. destruct f as [ca da]. cbn [color_attachment depth_attachment] in *.
  subst ca.
  unfold bind, set_clear_color, clear_framebuffer, call.
  cbn [lib globals log framebuffers textures clear_color].
  rewrite Hfb. cbn [color_attachment depth_attachment].
  rewrite (clear_attachment_live cb _ t) by exact Ht.
  destruct da as [db|].
  - destruct (Hd db eq_refl) as [Hne [td Htd]].
    rewrite (clear_attachment_live db _ td) by (rewrite lookup_insert_ne; auto).
    eexists. split; [reflexivity|].
    cbn [lib textures with_textures log]. split.
    + exists (cleared (Color (Vector4 r g b a)) t).
      rewrite lookup_insert_ne by auto. rewrite lookup_insert_eq.
      repeat split. intros x y Hx Hy. apply texture_pixel_cleared; assumption.
    + intros db' td' E Htd'. injection E as <-.
      rewrite Htd in Htd'. injection Htd' as <-.
      exists (cleared (Depth CLEAR_DEPTH) td).
      rewrite lookup_insert_eq. split; [reflexivity|].
      intros x y Hx Hy. apply texture_pixel_cleared; assumption.
  - cbn [clear_attachment].
    eexists. split; [reflexivity|].
    cbn [lib textures with_textures log]. split.
    + exists (cleared (Color (Vector4 r g b a)) t).
      rewrite lookup_insert_eq.
      repeat split. intros x y Hx Hy. apply texture_pixel_cleared; assumption.
    + intros db' td' E. discriminate E.
Qed.

End LibraryFacts.

(** ** [render_model] *)

Section DriverFacts.
Context {A : Type} `{Scalar A}.
Variable env : environment A.
Variable rasterize : rasterizer A.
Variable PI : A.
Variable vector3_normalize : vector3 A -> vector3 A.
Variable matrix4x4_rotate_y : A -> matrix4x4 A.
Variable matrix4x4_look_at : vector3 A -> vector3 A -> vector3 A -> matrix4x4 A.
Variable matrix4x4_perspective : A -> A -> A -> A -> matrix4x4 A.
Variable IMAGE_WIDTH IMAGE_HEIGHT : nat.
Variable the_illuminance : vector3 A.
Variable the_ambient_luminance : vector3 A.
Variable the_metallic : A.

(** One [draw_triangle] into a framebuffer with two distinct live
    attachments: only the two attachments and the trace change. *)
Lemma draw_triangle_attached (g : statics A) (w : world A) (fb cb db : handle)
    (tc td : texture A) (u : standard_uniform A) (t : triangle A) :
  framebuffers w !! fb = Some (Framebuffer (Some cb) (Some db)) ->
  textures w !! cb = Some tc -> textures w !! db = Some td -> cb <> db ->
  exists tc' td',
    draw_triangle rasterize (Some fb) u t (State g w)
    = Some (tt, State g (World (<[db := td']> (<[cb := tc']> (textures w)))
                               (framebuffers w) (meshes w) (next w) (viewport w)
                               (current_vertex_shader w) (current_fragment_shader w)
                               (clear_color w) (EvDrawTriangle (Some fb) u t :: trace w))).
Proof.
  intros Hfb Hc Hd Hne. unfold draw_triangle, call. cbn [lib globals].
  rewrite Hfb. cbn [color_attachment depth_attachment attached]. rewrite Hc, Hd.
  destruct (rasterize _ _ _ _ _ _ _ _) as [c' d'].
  assert (Hd' : <[cb := tc]> (textures w) !! db = Some td)
    by (rewrite lookup_insert_ne; auto).
  destruct c' as [x|], d' as [y|]; cbn [store_attachment].
  - exists x, y. reflexivity.
  - exists x, td. unfold log, with_textures. cbn.
    rewrite (insert_id (<[cb := x]> (textures w)) db td)
      by (rewrite lookup_insert_ne; auto).
    reflexivity.
  - exists tc, y. unfold log, with_textures. cbn.
    rewrite (insert_id (textures w) cb tc) by exact Hc. reflexivity.
  - exists tc, td. unfold log, with_textures. cbn.
    rewrite (insert_id (textures w) cb tc) by exact Hc.
    rewrite (insert_id (textures w) db td) by exact Hd. reflexivity.
Qed.

(** The loop over the triangles of [render_model]. *)
Lemma for_each_draw (g : statics A) (fb cb db : handle) (u : standard_uniform A)
    (ts : list (triangle A)) :
  cb <> db ->
  forall (w : world A) (tc td : texture A),
    framebuffers w !! fb = Some (Framebuffer (Some cb) (Some db)) ->
    textures w !! cb = Some tc -> textures w !! db = Some td ->
    exists tc' td',
      for_each ts (fun t => draw_triangle rasterize (Some fb) u t) (State g w)
      = Some (tt, State g (World (<[db := td']> (<[cb := tc']> (textures w)))
                                 (framebuffers w) (meshes w) (next w) (viewport w)
                                 (current_vertex_shader w) (current_fragment_shader w)
                                 (clear_color w)
                                 (rev (map (EvDrawTriangle (Some fb) u) ts) ++ trace w))).
Proof.
  intros Hne. induction ts as [|t ts IH]; intros w tc td Hfb Hc Hd.
  - exists tc, td. cbn [for_each map rev app]. unfold ret.
    rewrite (insert_id (textures w) cb tc) by exact Hc.
    rewrite (insert_id (textures w) db td) by exact Hd.
    destruct w; reflexivity.
  - destruct (draw_triangle_attached g w fb cb db tc td u t Hfb Hc Hd Hne)
      as (tc1 & td1 & E1).
    cbn [for_each]. rewrite (bind_Some _ _ _ _ _ E1).
    match type of E1 with
    | _ = Some (tt, State _ ?w1) =>
        destruct (IH w1 tc1 td1) as (tc2 & td2 & E2)
    end.
    + exact Hfb.
    + cbn [textures]. rewrite lookup_insert_ne by auto. apply lookup_insert_eq.
    + cbn [textures]. apply lookup_insert_eq.
    + rewrite E2. exists tc2, td2. cbn [textures framebuffers meshes next viewport
        current_vertex_shader current_fragment_shader clear_color trace].
      rewrite insert_pair_overwrite. cbn [map rev]. rewrite <- app_assoc. reflexivity.
Qed.

Local Notation "'render_model_'" :=
  (render_model rasterize vector3_normalize matrix4x4_rotate_y matrix4x4_look_at
                matrix4x4_perspective IMAGE_WIDTH IMAGE_HEIGHT the_illuminance
                the_ambient_luminance the_metallic).
Local Notation "'make_uniform_'" :=
  (make_uniform vector3_normalize matrix4x4_rotate_y matrix4x4_look_at
                matrix4x4_perspective IMAGE_WIDTH IMAGE_HEIGHT the_illuminance
                the_ambient_luminance the_metallic).

(** [render_model] on a state whose framebuffer has two distinct live
    attachments and whose model has a live mesh: it returns, and changes
    the pixels of the two attachments, the rasterizer settings and the
    trace, nothing else. *)
Lemma render_model_spec (m : model) (g : statics A) (w : world A)
    (fb cb db mh : handle) (tc td : texture A) (ms : mesh A) :
  framebuffer_ g = Some fb ->
  framebuffers w !! fb = Some (Framebuffer (Some cb) (Some db)) ->
  textures w !! cb = Some tc -> textures w !! db = Some td -> cb <> db ->
  model_mesh m = Some mh -> meshes w !! mh = Some ms ->
  exists tc' td',
    render_model_ m (State g w)
    = Some (tt, State g
                  (World (<[db := td']> (<[cb := tc']> (textures w)))
                         (framebuffers w) (meshes w) (next w)
                         (0, 0, Z.of_nat IMAGE_WIDTH, Z.of_nat IMAGE_HEIGHT)
                         (Some standard_vertex_shader) (Some standard_fragment_shader)
                         (Vector4 (lit 0 10) (lit 0 10) (lit 0 10) (lit 0 10))
                         (render_events (Some fb) (Z.of_nat IMAGE_WIDTH)
                            (Z.of_nat IMAGE_HEIGHT)
                            (Vector4 (lit 0 10) (lit 0 10) (lit 0 10) (lit 0 10))
                            (make_uniform_ g m) (triangles ms)
                          ++ trace w))).
Proof.
  intros Hg Hfb Hc Hd Hne Hm Hms.
  unfold render_model.
  unfold bind at 1. unfold set_viewport at 1, call at 1. simpl_world.
  unfold bind at 1. unfold set_vertex_shader at 1, call at 1. simpl_world.
  unfold bind at 1. unfold set_fragment_shader at 1, call at 1. simpl_world.
  unfold bind at 1. unfold set_clear_color at 1, call at 1. simpl_world.
  unfold bind at 1. unfold read at 1. simpl_world. rewrite Hg.
  erewrite bind_Some; cycle 1.
  { apply (clear_framebuffer_attached _ fb cb db tc td); simpl_world; auto. }
  unfold bind at 1. unfold read at 1. simpl_world. cbn [id].
  unfold bind at 1. unfold mesh_triangles, call. rewrite Hm.
  simpl_world. rewrite Hms.
  match goal with
  | |- context [for_each _ _ (State _ ?w1)] =>
      destruct (for_each_draw g fb cb db (make_uniform_ g m) (triangles ms) Hne w1
                  (cleared (Color (Vector4 (lit 0 10) (lit 0 10) (lit 0 10) (lit 0 10))) tc)
                  (cleared (Depth CLEAR_DEPTH) td))
        as (tc' & td' & E)
  end.
  - exact Hfb.
  - simpl_world. rewrite lookup_insert_ne by auto. apply lookup_insert_eq.
  - simpl_world. apply lookup_insert_eq.
  - exists tc', td'. rewrite E. simpl_world.
    rewrite insert_pair_overwrite. unfold render_events.
    rewrite <- app_assoc. reflexivity.
Qed.

(** The same texture with other pixels. *)
Lemma cleared_forgets_pixels (v : texel A) (t : texture A) (ps : list (texel A)) :
  cleared v (Texture (format t) (width t) (height t) ps) = cleared v t.
Proof. reflexivity. Qed.

(** [render_model] does not depend on the pixels the two attachments of
    the framebuffer hold when it is called. *)
Lemma render_model_forgets_pixels (m : model) (g : statics A) (w : world A)
    (fb cb db : handle) (tc td : texture A) (pc pd : list (texel A)) :
  framebuffer_ g = Some fb ->
  framebuffers w !! fb = Some (Framebuffer (Some cb) (Some db)) ->
  textures w !! cb = Some tc -> textures w !! db = Some td -> cb <> db ->
  render_model_ m
    (State g (with_textures
                (<[db := Texture (format td) (width td) (height td) pd]>
                   (<[cb := Texture (format tc) (width tc) (height tc) pc]> (textures w)))
                w))
  = render_model_ m (State g w).
Proof.
  intros Hg Hfb Hc Hd Hne.
  unfold render_model.
  do 2 (unfold bind at 1; unfold set_viewport at 1, call at 1; simpl_world;
        symmetry).
  do 2 (unfold bind at 1; unfold set_vertex_shader at 1, call at 1; simpl_world;
        symmetry).
  do 2 (unfold bind at 1; unfold set_fragment_shader at 1, call at 1; simpl_world;
        symmetry).
  do 2 (unfold bind at 1; unfold set_clear_color at 1, call at 1; simpl_world;
        symmetry).
  do 2 (unfold bind at 1; unfold read at 1; simpl_world; rewrite Hg; symmetry).
  erewrite bind_Some; cycle 1.
  { apply (clear_framebuffer_attached _ fb cb db
             (Texture (format tc) (width tc) (height tc) pc)
             (Texture (format td) (width td) (height td) pd)); simpl_world; auto.
    - rewrite lookup_insert_ne by auto. apply lookup_insert_eq.
    - apply lookup_insert_eq. }
  symmetry.
  erewrite bind_Some; cycle 1.
  { apply (clear_framebuffer_attached _ fb cb db tc td); simpl_world; auto. }
  simpl_world. rewrite !cleared_forgets_pixels, insert_pair_overwrite. reflexivity.
Qed.

(** [initialize_rendering] when its five allocations succeed: the shadow
    framebuffer, the default shadow map, the framebuffer, the colour buffer
    and the depth buffer get the next five handles. *)
Lemma initialize_rendering_spec (g : statics A) (w : world A) :
  (forall k, (next w <= k < next w + 5)%nat -> alloc_ok env k = true) ->
  initialize_rendering env IMAGE_WIDTH IMAGE_HEIGHT (State g w)
  = Some (tt,
          State (Statics (light_direction g) (camera_position g) (camera_target g)
                         (rotation_y g) (fov g)
                         (Some (next w)) (Some (S (next w))) (Some (S (S (next w))))
                         (Some (S (S (S (next w))))) (Some (S (S (S (S (next w))))))
                         (light_world2clip g))
                (World (<[S (S (S (S (next w)))) :=
                            Texture TEXTURE_FORMAT_DEPTH_FLOAT IMAGE_WIDTH IMAGE_HEIGHT
                                    (replicate (IMAGE_WIDTH * IMAGE_HEIGHT) Uninit)]>
                          (<[S (S (S (next w))) :=
                               Texture TEXTURE_FORMAT_SRGB8_A8 IMAGE_WIDTH IMAGE_HEIGHT
                                       (replicate (IMAGE_WIDTH * IMAGE_HEIGHT) Uninit)]>
                             (<[S (next w) := default_shadow_map]> (textures w))))
                       (<[S (S (next w)) :=
                            Framebuffer (Some (S (S (S (next w)))))
                                        (Some (S (S (S (S (next w))))))]>
                          (<[next w := Framebuffer None (Some (S (next w)))]>
                             (framebuffers w)))
                       (meshes w) (S (S (S (S (S (next w)))))) (viewport w)
                       (current_vertex_shader w) (current_fragment_shader w)
                       (clear_color w)
                       (init_events IMAGE_WIDTH IMAGE_HEIGHT (lit 10 10) (next w)
                        ++ trace w))).
Proof.
  intros Halloc. unfold initialize_rendering.
  unfold bind at 1. unfold create_framebuffer at 1, call at 1. simpl_world.
  rewrite Halloc by lia.
  unfold bind at 1. unfold write at 1. simpl_world.
  unfold bind at 1. unfold create_texture at 1, call at 1. simpl_world.
  rewrite Halloc by lia.
  unfold bind at 1. unfold write at 1. simpl_world.
  unfold bind at 1. unfold set_texture_pixels at 1, call at 1. simpl_world.
  rewrite lookup_insert_eq.
  cbn [width height format length Nat.mul Nat.add Nat.eqb forallb texel_fits andb].
  unfold bind at 1. unfold attach_texture_to_framebuffer at 1, call at 1. simpl_world.
  rewrite lookup_insert_eq. simpl_world.
  unfold bind at 1. unfold create_framebuffer at 1, call at 1. simpl_world.
  rewrite Halloc by lia.
  unfold bind at 1. unfold write at 1. simpl_world.
  unfold bind at 1. unfold create_texture at 1, call at 1. simpl_world.
  rewrite Halloc by lia.
  unfold bind at 1. unfold write at 1. simpl_world.
  unfold bind at 1. unfold create_texture at 1, call at 1. simpl_world.
  rewrite Halloc by lia.
  unfold bind at 1. unfold write at 1. simpl_world.
  unfold bind at 1. unfold attach_texture_to_framebuffer at 1, call at 1. simpl_world.
  rewrite lookup_insert_eq. simpl_world.
  unfold attach_texture_to_framebuffer, call. simpl_world.
  rewrite lookup_insert_eq. simpl_world.
  rewrite !insert_insert_eq.
  unfold set_shadow_framebuffer, set_shadow_map, set_framebuffer, set_color_buffer,
    set_depth_buffer.
  cbn [light_direction camera_position camera_target rotation_y fov shadow_framebuffer
       shadow_map framebuffer_ color_buffer depth_buffer light_world2clip format].
  reflexivity.
Qed.

End DriverFacts.

(** ** Observations on the calls of [render_model] *)

Section ObservationFacts.
Context {A : Type}.

Lemma saved_names_app (a b : list (event A)) :
  saved_names (a ++ b) = saved_names b ++ saved_names a.
Proof.
  induction a as [|e a IH]; cbn [app saved_names].
  - rewrite app_nil_r. reflexivity.
  - destruct e; try exact IH. rewrite IH, app_assoc. reflexivity.
Qed.

Lemma saved_names_draws (fb : ptr) (u : standard_uniform A) (ts : list (triangle A)) :
  saved_names (rev (map (EvDrawTriangle fb u) ts)) = [].
Proof.
  induction ts as [|t ts IH]; [reflexivity|].
  cbn [map rev]. rewrite saved_names_app, IH. reflexivity.
Qed.

Lemma saved_names_render_events (fb : ptr) (w h : Z) (c : vector4 A)
    (u : standard_uniform A) (ts : list (triangle A)) :
  saved_names (render_events fb w h c u ts) = [].
Proof.
  unfold render_events. rewrite saved_names_app, saved_names_draws. reflexivity.
Qed.

Lemma drawn_uniforms_app (a b : list (event A)) :
  drawn_uniforms (a ++ b) = drawn_uniforms a ++ drawn_uniforms b.
Proof.
  induction a as [|e a IH]; [reflexivity|].
  cbn [app drawn_uniforms]. destruct e; try exact IH.
  rewrite IH. reflexivity.
Qed.

Lemma drawn_uniforms_draws (fb : ptr) (u : standard_uniform A) (ts : list (triangle A)) :
  Forall (eq u) (drawn_uniforms (rev (map (EvDrawTriangle fb u) ts))).
Proof.
  induction ts as [|t ts IH]; [constructor|].
  cbn [map rev]. rewrite drawn_uniforms_app. apply Forall_app. split; [exact IH|].
  repeat constructor.
Qed.

Lemma drawn_uniforms_render_events (fb : ptr) (w h : Z) (c : vector4 A)
    (u : standard_uniform A) (ts : list (triangle A)) :
  Forall (eq u) (drawn_uniforms (render_events fb w h c u ts)).
Proof.
  unfold render_events. rewrite drawn_uniforms_app. apply Forall_app. split.
  - apply drawn_uniforms_draws.
  - constructor.
Qed.

Lemma no_shadow_pass_draws (sfb fb : ptr) (u : standard_uniform A)
    (ts : list (triangle A)) :
  ptr_eqb fb sfb = false ->
  forallb (fun e => negb (shadow_pass_event sfb e)) (rev (map (EvDrawTriangle fb u) ts))
  = true.
Proof.
  intros Hne. induction ts as [|t ts IH]; [reflexivity|].
  cbn [map rev]. rewrite forallb_app, IH. cbn. rewrite Hne. reflexivity.
Qed.

Lemma no_shadow_pass_render_events (sfb fb : ptr) (w h : Z) (c : vector4 A)
    (u : standard_uniform A) (ts : list (triangle A)) :
  ptr_eqb fb sfb = false ->
  forallb (fun e => negb (shadow_pass_event sfb e)) (render_events fb w h c u ts) = true.
Proof.
  intros Hne. unfold render_events.
  rewrite forallb_app, no_shadow_pass_draws by exact Hne.
  cbn. rewrite Hne. reflexivity.
Qed.

Lemma frame_event_render_events (fb : ptr) (w h : Z) (c : vector4 A)
    (u : standard_uniform A) (ts : list (triangle A)) :
  forallb frame_event (render_events fb w h c u ts) = true.
Proof.
  unfold render_events. rewrite forallb_app. apply andb_true_intro.
  split; [|reflexivity].
  induction ts as [|t ts IH]; [reflexivity|].
  cbn [map rev]. rewrite forallb_app, IH. reflexivity.
Qed.

End ObservationFacts.

(** ** The loop of [main] *)

Section LoopFacts.
Context {A : Type} `{Scalar A}.
Variable env : environment A.
Variable rasterize : rasterizer A.
Variable vector3_normalize : vector3 A -> vector3 A.
Variable matrix4x4_rotate_y : A -> matrix4x4 A.
Variable matrix4x4_look_at : vector3 A -> vector3 A -> vector3 A -> matrix4x4 A.
Variable matrix4x4_perspective : A -> A -> A -> A -> matrix4x4 A.
Variable IMAGE_WIDTH IMAGE_HEIGHT : nat.
Variable the_illuminance : vector3 A.
Variable the_ambient_luminance : vector3 A.
Variable the_metallic : A.

Local Notation "'render_model_'" :=
  (render_model rasterize vector3_normalize matrix4x4_rotate_y matrix4x4_look_at
                matrix4x4_perspective IMAGE_WIDTH IMAGE_HEIGHT the_illuminance
                the_ambient_luminance the_metallic).
Local Notation "'make_uniform_'" :=
  (make_uniform vector3_normalize matrix4x4_rotate_y matrix4x4_look_at
                matrix4x4_perspective IMAGE_WIDTH IMAGE_HEIGHT the_illuminance
                the_ambient_luminance the_metallic).
Local Notation "'black'" := (Vector4 (lit 0 10) (lit 0 10) (lit 0 10) (lit 0 10)).

(** [render_model(&model); ...; save_image(color_buffer, name, true)]:
    the end of the body of the loop in both drivers. *)
Lemma render_and_save_spec (m : model) (name : string) (g : statics A) (w : world A)
    (fb cb db mh : handle) (tc td : texture A) (ms : mesh A) :
  framebuffer_ g = Some fb -> color_buffer g = Some cb ->
  framebuffers w !! fb = Some (Framebuffer (Some cb) (Some db)) ->
  textures w !! cb = Some tc -> textures w !! db = Some td -> cb <> db ->
  model_mesh m = Some mh -> meshes w !! mh = Some ms ->
  exists tc' td',
    bind (render_model_ m)
         (fun _ => bind (read color_buffer) (fun p => save_image p name true))
         (State g w)
    = Some (tt, State g
                  (World (<[db := td']> (<[cb := tc']> (textures w)))
                         (framebuffers w) (meshes w) (next w)
                         (0, 0, Z.of_nat IMAGE_WIDTH, Z.of_nat IMAGE_HEIGHT)
                         (Some standard_vertex_shader) (Some standard_fragment_shader)
                         black
                         (EvSaveImage (Some cb) name true tc'
                          :: render_events (Some fb) (Z.of_nat IMAGE_WIDTH)
                               (Z.of_nat IMAGE_HEIGHT) black (make_uniform_ g m)
                               (triangles ms)
                          ++ trace w))).
Proof.
  intros Hg Hcb Hfb Hc Hd Hne Hm Hms.
  destruct (render_model_spec rasterize vector3_normalize matrix4x4_rotate_y
              matrix4x4_look_at matrix4x4_perspective IMAGE_WIDTH IMAGE_HEIGHT
              the_illuminance the_ambient_luminance the_metallic
              m g w fb cb db mh tc td ms Hg Hfb Hc Hd Hne Hm Hms) as (tc' & td' & E).
  exists tc', td'. rewrite (bind_Some _ _ _ _ _ E).
  unfold bind, read, save_image, call. simpl_world. rewrite Hcb.
  rewrite lookup_insert_ne by auto. rewrite lookup_insert_eq. reflexivity.
Qed.

Lemma same_pointers_refl (g : statics A) : same_pointers g g.
Proof. repeat split. Qed.

Lemma same_pointers_trans (g1 g2 g3 : statics A) :
  same_pointers g1 g2 -> same_pointers g2 g3 -> same_pointers g1 g3.
Proof.
  intros (a1 & a2 & a3 & a4 & a5 & a6) (b1 & b2 & b3 & b4 & b5 & b6).
  repeat split; congruence.
Qed.

(** The loop of [main] with a body that writes some statics (but no
    pointer and not the light matrix), renders the model and saves the
    colour buffer under the name of the frame: after [n] iterations the
    loop has returned, only the pixels of the two attachments, the
    rasterizer settings, the written statics and the trace have changed,
    and the trace has grown by the calls of [n] frames. *)
Lemma animation_spec (m : model) (upd : Z -> statics A -> statics A)
    (name : Z -> string) (body : Z -> M A unit)
    (sfb fb cb db mh : handle) (ms : mesh A) :
  (forall i g w,
      body i (State g w)
      = bind (render_model_ m)
             (fun _ => bind (read color_buffer) (fun p => save_image p (name i) true))
             (State (upd i g) w)) ->
  (forall i g, same_pointers g (upd i g)) ->
  cb <> db -> fb <> sfb -> model_mesh m = Some mh ->
  forall (n : nat) (g : statics A) (w : world A) (tc td : texture A),
    framebuffer_ g = Some fb -> color_buffer g = Some cb ->
    framebuffers w !! fb = Some (Framebuffer (Some cb) (Some db)) ->
    textures w !! cb = Some tc -> textures w !! db = Some td ->
    meshes w !! mh = Some ms ->
    exists g' tc' td' vp vs fs cc tr,
      for_loop n body (State g w)
      = Some (tt, State g' (World (<[db := td']> (<[cb := tc']> (textures w)))
                                  (framebuffers w) (meshes w) (next w) vp vs fs cc
                                  (tr ++ trace w)))
      /\ same_pointers g g'
      /\ saved_names tr = map name (map Z.of_nat (seq 0 n))
      /\ forallb (fun e => negb (shadow_pass_event (Some sfb) e)) tr = true
      /\ forallb frame_event tr = true
      /\ Forall (fun u => world2light u = matrix4x4_multiply scale_bias (light_world2clip g)
                          /\ u_shadow_map u = shadow_map g)
                (drawn_uniforms tr)
      /\ match n with
         | O => g' = g
         | S k => exists g'', g' = upd (Z.of_nat k) g''
         end.
Proof.
  intros Hbody Hupd Hne Hsfb Hm.
  induction n as [|n IH]; intros g w tc td Hg Hcb Hfb Hc Hd Hms.
  - exists g, tc, td, (viewport w), (current_vertex_shader w),
      (current_fragment_shader w), (clear_color w), [].
    cbn [for_loop]. unfold ret.
    rewrite (insert_id (textures w) cb tc) by exact Hc.
    rewrite (insert_id (textures w) db td) by exact Hd.
    destruct w. repeat split. constructor.
  - destruct (IH g w tc td Hg Hcb Hfb Hc Hd Hms)
      as (g1 & tc1 & td1 & vp & vs & fs & cc & tr & E & Hp & Hsaved & Hshadow
          & Hframe & Hlight & _).
    cbn [for_loop]. rewrite (bind_Some _ _ _ _ _ E). rewrite Hbody.
    pose proof (Hupd (Z.of_nat n) g1) as Hp1.
    pose proof (same_pointers_trans _ _ _ Hp Hp1) as Hp2.
    destruct Hp2 as (q1 & q2 & q3 & q4 & q5 & q6).
    match goal with
    | |- context [State (upd _ g1) ?w1] =>
        destruct (render_and_save_spec m (name (Z.of_nat n)) (upd (Z.of_nat n) g1) w1
                    fb cb db mh tc1 td1 ms)
          as (tc2 & td2 & E2)
    end; simpl_world; try congruence.
    { rewrite lookup_insert_ne by auto. apply lookup_insert_eq. }
    { apply lookup_insert_eq. }
    rewrite E2. rewrite insert_pair_overwrite.
    eexists (upd (Z.of_nat n) g1), tc2, td2, _, _, _, _,
      (EvSaveImage (Some cb) (name (Z.of_nat n)) true tc2
       :: render_events (Some fb) (Z.of_nat IMAGE_WIDTH) (Z.of_nat IMAGE_HEIGHT) black
            (make_uniform_ (upd (Z.of_nat n) g1) m) (triangles ms)
       ++ tr).
    split; [rewrite <- app_comm_cons, <- app_assoc; reflexivity|].
    split; [repeat split; assumption|].
    split.
    { cbn [saved_names]. rewrite saved_names_app, saved_names_render_events, Hsaved.
      rewrite seq_S, !map_app, app_nil_r. reflexivity. }
    split.
    { cbn [forallb shadow_pass_event negb andb].
      rewrite forallb_app, Hshadow, no_shadow_pass_render_events; [reflexivity|].
      cbn [ptr_eqb]. apply Nat.eqb_neq. exact Hsfb. }
    split.
    { cbn [forallb frame_event andb].
      rewrite forallb_app, Hframe, frame_event_render_events. reflexivity. }
    split.
    { cbn [drawn_uniforms]. rewrite drawn_uniforms_app. apply Forall_app. split.
      - eapply Forall_impl; [apply drawn_uniforms_render_events|].
        intros u <-. cbn [world2light u_shadow_map make_uniform]. split; congruence.
      - exact Hlight. }
    exists g1. reflexivity.
Qed.

End LoopFacts.

(** ** Releasing the objects *)

Section ReleaseFacts.
Context {A : Type} `{Scalar A}.

Lemma destroy_texture_live (g : statics A) (w : world A) (p : handle) (t : texture A) :
  textures w !! p = Some t ->
  destroy_texture (Some p) (State g w)
  = Some (tt, State g (World (delete p (textures w)) (framebuffers w) (meshes w)
                             (next w) (viewport w) (current_vertex_shader w)
                             (current_fragment_shader w) (clear_color w)
                             (EvDestroyTexture (Some p) :: trace w))).
Proof. intros E. unfold destroy_texture, call. simpl_world. rewrite E. reflexivity. Qed.

Lemma destroy_framebuffer_live (g : statics A) (w : world A) (p : handle)
    (f : framebuffer) :
  framebuffers w !! p = Some f ->
  destroy_framebuffer (Some p) (State g w)
  = Some (tt, State g (World (textures w) (delete p (framebuffers w)) (meshes w)
                             (next w) (viewport w) (current_vertex_shader w)
                             (current_fragment_shader w) (clear_color w)
                             (EvDestroyFramebuffer (Some p) :: trace w))).
Proof. intros E. unfold destroy_framebuffer, call. simpl_world. rewrite E. reflexivity. Qed.

Lemma destroy_mesh_live (g : statics A) (w : world A) (p : handle) (ms : mesh A) :
  meshes w !! p = Some ms ->
  destroy_mesh (Some p) (State g w)
  = Some (tt, State g (World (textures w) (framebuffers w) (delete p (meshes w))
                             (next w) (viewport w) (current_vertex_shader w)
                             (current_fragment_shader w) (clear_color w)
                             (EvDestroyMesh (Some p) :: trace w))).
Proof. intros E. unfold destroy_mesh, call. simpl_world. rewrite E. reflexivity. Qed.

(** [end_rendering] on a state in which the five objects of
    [initialize_rendering] are live and distinct. *)
Lemma end_rendering_spec (g : statics A) (w : world A) (sfb sm fb cb db : handle)
    (tsm tc td : texture A) (fs ff : framebuffer) :
  shadow_framebuffer g = Some sfb -> shadow_map g = Some sm ->
  framebuffer_ g = Some fb -> color_buffer g = Some cb -> depth_buffer g = Some db ->
  textures w !! sm = Some tsm -> textures w !! cb = Some tc -> textures w !! db = Some td ->
  sm <> cb -> sm <> db -> cb <> db ->
  framebuffers w !! sfb = Some fs -> framebuffers w !! fb = Some ff -> sfb <> fb ->
  end_rendering (State g w)
  = Some (tt, State g (World (delete db (delete cb (delete sm (textures w))))
                             (delete fb (delete sfb (framebuffers w))) (meshes w)
                             (next w) (viewport w) (current_vertex_shader w)
                             (current_fragment_shader w) (clear_color w)
                             ([EvDestroyFramebuffer (Some fb);
                               EvDestroyFramebuffer (Some sfb);
                               EvDestroyTexture (Some db);
                               EvDestroyTexture (Some cb);
                               EvDestroyTexture (Some sm)] ++ trace w))).
Proof.
  intros G1 G2 G3 G4 G5 T1 T2 T3 N1 N2 N3 F1 F2 N4.
  unfold end_rendering.
  unfold bind at 1. unfold read at 1. simpl_world. rewrite G2.
  erewrite bind_Some by (eapply destroy_texture_live; eassumption).
  unfold bind at 1. unfold read at 1. simpl_world. rewrite G4.
  erewrite bind_Some
    by (eapply destroy_texture_live; simpl_world; rewrite lookup_delete_ne by auto;
        eassumption).
  unfold bind at 1. unfold read at 1. simpl_world. rewrite G5.
  erewrite bind_Some
    by (eapply destroy_texture_live; simpl_world; rewrite !lookup_delete_ne by auto;
        eassumption).
  unfold bind at 1. unfold read at 1. simpl_world. rewrite G1.
  erewrite bind_Some by (eapply destroy_framebuffer_live; simpl_world; eassumption).
  unfold bind at 1. unfold read at 1. simpl_world. rewrite G3.
  erewrite destroy_framebuffer_live
    by (simpl_world; rewrite lookup_delete_ne by auto; eassumption).
  reflexivity.
Qed.

(** [release_model] on a state in which the mesh and the four maps of the
    model are live and distinct. *)
Lemma release_model_spec (g : statics A) (w : world A) (mh h1 h2 h3 h4 : handle)
    (ms : mesh A) (t1 t2 t3 t4 : texture A) :
  meshes w !! mh = Some ms ->
  textures w !! h1 = Some t1 -> textures w !! h2 = Some t2 ->
  textures w !! h3 = Some t3 -> textures w !! h4 = Some t4 ->
  h1 <> h2 -> h1 <> h3 -> h1 <> h4 -> h2 <> h3 -> h2 <> h4 -> h3 <> h4 ->
  release_model (Model (Some mh) (Some h1) (Some h2) (Some h3) (Some h4)) (State g w)
  = Some (tt, State g (World (delete h4 (delete h3 (delete h2 (delete h1 (textures w)))))
                             (framebuffers w) (delete mh (meshes w))
                             (next w) (viewport w) (current_vertex_shader w)
                             (current_fragment_shader w) (clear_color w)
                             ([EvDestroyTexture (Some h4); EvDestroyTexture (Some h3);
                               EvDestroyTexture (Some h2); EvDestroyTexture (Some h1);
                               EvDestroyMesh (Some mh)] ++ trace w))).
Proof.
  intros M1 T1 T2 T3 T4 N12 N13 N14 N23 N24 N34.
  unfold release_model.
  cbn [model_mesh model_base_color_map model_normal_map model_metallic_map
       model_roughness_map].
  erewrite bind_Some by (eapply destroy_mesh_live; eassumption).
  erewrite bind_Some by (eapply destroy_texture_live; simpl_world; eassumption).
  erewrite bind_Some
    by (eapply destroy_texture_live; simpl_world; rewrite !lookup_delete_ne by auto;
        eassumption).
  erewrite bind_Some
    by (eapply destroy_texture_live; simpl_world; rewrite !lookup_delete_ne by auto;
        eassumption).
  erewrite destroy_texture_live
    by (simpl_world; rewrite !lookup_delete_ne by auto; eassumption).
  reflexivity.
Qed.

End ReleaseFacts.

(** ** From [initialize_rendering] to the end of [main] *)

Section SessionFacts.
Context {A : Type} `{Scalar A}.
Variable env : environment A.
Variable rasterize : rasterizer A.
Variable vector3_normalize : vector3 A -> vector3 A.
Variable matrix4x4_rotate_y : A -> matrix4x4 A.
Variable matrix4x4_look_at : vector3 A -> vector3 A -> vector3 A -> matrix4x4 A.
Variable matrix4x4_perspective : A -> A -> A -> A -> matrix4x4 A.
Variable IMAGE_WIDTH IMAGE_HEIGHT : nat.
Variable the_illuminance : vector3 A.
Variable the_ambient_luminance : vector3 A.
Variable the_metallic : A.

Local Notation "'render_model_'" :=
  (render_model rasterize vector3_normalize matrix4x4_rotate_y matrix4x4_look_at
                matrix4x4_perspective IMAGE_WIDTH IMAGE_HEIGHT the_illuminance
                the_ambient_luminance the_metallic).

(** [initialize_rendering] followed by [n] iterations of the loop: the
    state it leaves and the calls it makes. *)
Lemma animate_spec (m : model) (upd : Z -> statics A -> statics A)
    (name : Z -> string) (body : Z -> M A unit) (mh : handle) (ms : mesh A)
    (n : nat) (g : statics A) (w : world A) :
  (forall i g w,
      body i (State g w)
      = bind (render_model_ m)
             (fun _ => bind (read color_buffer) (fun p => save_image p (name i) true))
             (State (upd i g) w)) ->
  (forall i g, same_pointers g (upd i g)) ->
  model_mesh m = Some mh -> meshes w !! mh = Some ms ->
  (forall k, (next w <= k < next w + 5)%nat -> alloc_ok env k = true) ->
  exists s',
    bind (initialize_rendering env IMAGE_WIDTH IMAGE_HEIGHT) (fun _ => for_loop n body)
         (State g w) = Some (tt, s')
    /\ animation_post IMAGE_WIDTH IMAGE_HEIGHT name upd n g w s'.
Proof.
  intros Hbody Hupd Hm Hms Halloc.
  rewrite (bind_Some _ _ _ _ _ (initialize_rendering_spec env IMAGE_WIDTH IMAGE_HEIGHT
                                   g w Halloc)).
  match goal with
  | |- context [for_loop n body (State ?g1 ?w1)] =>
      destruct (animation_spec rasterize vector3_normalize matrix4x4_rotate_y
                  matrix4x4_look_at matrix4x4_perspective IMAGE_WIDTH IMAGE_HEIGHT
                  the_illuminance the_ambient_luminance the_metallic
                  m upd name body (next w) (S (S (next w))) (S (S (S (next w))))
                  (S (S (S (S (next w))))) mh ms Hbody Hupd
                  ltac:(lia) ltac:(lia) Hm n g1 w1
                  (Texture TEXTURE_FORMAT_SRGB8_A8 IMAGE_WIDTH IMAGE_HEIGHT
                           (replicate (IMAGE_WIDTH * IMAGE_HEIGHT) Uninit))
                  (Texture TEXTURE_FORMAT_DEPTH_FLOAT IMAGE_WIDTH IMAGE_HEIGHT
                           (replicate (IMAGE_WIDTH * IMAGE_HEIGHT) Uninit)))
        as (g' & tc & td & vp & vs & fs & cc & tr & E & Hp & Hsaved & Hshadow
            & Hframe & Hlight & Hlast)
  end; simpl_world; try reflexivity.
  { apply lookup_insert_eq. }
  { rewrite lookup_insert_ne by lia. apply lookup_insert_eq. }
  { apply lookup_insert_eq. }
  { exact Hms. }
  rewrite E, insert_pair_overwrite. eexists. split; [reflexivity|].
  exists tc, td, vp, vs, fs, cc, tr.
  destruct Hp as (p1 & p2 & p3 & p4 & p5 & p6).
  cbn [shadow_framebuffer shadow_map framebuffer_ color_buffer depth_buffer
       light_world2clip globals lib] in *.
  split; [reflexivity|].
  repeat (split; [assumption|]).
  destruct n; [exact I|exact Hlast].
Qed.

(** The end of [main] after the loop: [end_rendering] and the release of
    the model return, and add ten calls that destroy an object each. *)
Lemma finish_spec (name : Z -> string) (upd : Z -> statics A -> statics A) (n : nat)
    (g : statics A) (w : world A) (s' : state A)
    (mh h1 h2 h3 h4 : handle) (ms : mesh A) (t1 t2 t3 t4 : texture A) :
  animation_post IMAGE_WIDTH IMAGE_HEIGHT name upd n g w s' ->
  meshes w !! mh = Some ms ->
  textures w !! h1 = Some t1 -> textures w !! h2 = Some t2 ->
  textures w !! h3 = Some t3 -> textures w !! h4 = Some t4 ->
  h1 <> h2 -> h1 <> h3 -> h1 <> h4 -> h2 <> h3 -> h2 <> h4 -> h3 <> h4 ->
  (h1 < next w)%nat -> (h2 < next w)%nat -> (h3 < next w)%nat -> (h4 < next w)%nat ->
  exists s'',
    bind end_rendering
         (fun _ => bind (release_model
                           (Model (Some mh) (Some h1) (Some h2) (Some h3) (Some h4)))
                        (fun _ => ret 0))
         s'
    = Some (0, s'')
    /\ trace (lib s'')
       = [EvDestroyTexture (Some h4); EvDestroyTexture (Some h3);
          EvDestroyTexture (Some h2); EvDestroyTexture (Some h1);
          EvDestroyMesh (Some mh);
          EvDestroyFramebuffer (Some (S (S (next w))));
          EvDestroyFramebuffer (Some (next w));
          EvDestroyTexture (Some (S (S (S (S (next w))))));
          EvDestroyTexture (Some (S (S (S (next w)))));
          EvDestroyTexture (Some (S (next w)))] ++ trace (lib s').
Proof.
  intros (tc & td & vp & vs & fs & cc & tr & Elib & P1 & P2 & P3 & P4 & P5 & _)
         Hms T1 T2 T3 T4 N12 N13 N14 N23 N24 N34 L1 L2 L3 L4.
  destruct s' as [g' w']. cbn [lib globals] in *. subst w'.
  erewrite bind_Some; cycle 1.
  { eapply (end_rendering_spec g' _ (next w) (S (next w)) (S (S (next w)))
              (S (S (S (next w)))) (S (S (S (S (next w))))));
      simpl_world; try eassumption; try lia.
    - rewrite !lookup_insert_ne by lia. apply lookup_insert_eq.
    - rewrite !lookup_insert_ne by lia. apply lookup_insert_eq.
    - apply lookup_insert_eq.
    - rewrite !lookup_insert_ne by lia. apply lookup_insert_eq.
    - apply lookup_insert_eq. }
  simpl_world.
  erewrite bind_Some; cycle 1.
  { eapply (release_model_spec g' _ mh h1 h2 h3 h4 ms t1 t2 t3 t4);
      simpl_world; try assumption;
      rewrite !lookup_delete_ne by lia; rewrite !lookup_insert_ne by lia; assumption. }
  simpl_world. unfold ret. eexists. split; reflexivity.
Qed.

End SessionFacts.

(** ** anim_violin.c *)

Section ViolinFacts.
Context {A : Type} `{Scalar A}.
Variable env : environment A.
Variable rasterize : rasterizer A.
Variable PI : A.
Variable vector3_normalize : vector3 A -> vector3 A.
Variable matrix4x4_rotate_y : A -> matrix4x4 A.
Variable matrix4x4_look_at : vector3 A -> vector3 A -> vector3 A -> matrix4x4 A.
Variable matrix4x4_perspective : A -> A -> A -> A -> matrix4x4 A.

Local Notation "'load_'" := (Violin.load env).
Local Notation "'frame_'" :=
  (Violin.frame rasterize vector3_normalize matrix4x4_rotate_y matrix4x4_look_at
                matrix4x4_perspective).
Local Notation "'animate_'" :=
  (Violin.animate env rasterize vector3_normalize matrix4x4_rotate_y matrix4x4_look_at
                  matrix4x4_perspective).
Local Notation "'run_'" :=
  (Violin.run env rasterize PI vector3_normalize matrix4x4_rotate_y matrix4x4_look_at
              matrix4x4_perspective).

(** The calls of a successful load, latest first. *)
Local Notation "'load_events'" :=
  [EvLoadImage Violin.roughness_map_path false (Some 4%nat);
   EvLoadImage Violin.metallic_map_path false (Some 3%nat);
   EvLoadImage Violin.normal_map_path false (Some 2%nat);
   EvLoadImage Violin.base_color_map_path true (Some 1%nat);
   EvLoadMesh Violin.model_path (Some 0%nat)].

Local Notation "'the_model'" :=
  (Model (Some 0%nat) (Some 1%nat) (Some 2%nat) (Some 3%nat) (Some 4%nat)).

(** When the five files are there, the model is loaded under the handles
    0 to 4. *)
Lemma violin_load_ok (g : statics A) (ms : mesh A) (t1 t2 t3 t4 : texture A) :
  mesh_files env Violin.model_path = Some ms ->
  image_files env Violin.base_color_map_path true = Some t1 ->
  image_files env Violin.normal_map_path false = Some t2 ->
  image_files env Violin.metallic_map_path false = Some t3 ->
  image_files env Violin.roughness_map_path false = Some t4 ->
  load_ (State g initial_world)
  = Some (Some the_model,
          State g (World (<[4%nat := t4]> (<[3%nat := t3]> (<[2%nat := t2]>
                            (<[1%nat := t1]> ∅))))
                         ∅ (<[0%nat := ms]> ∅) 5%nat (0, 0, 0, 0) None None
                         (Vector4 (of_Z 0) (of_Z 0) (of_Z 0) (of_Z 0))
                         load_events)).
Proof.
  intros Hms H1 H2 H3 H4. unfold Violin.load, initial_world.
  unfold bind at 1. unfold load_mesh at 1, call at 1. simpl_world. rewrite Hms.
  cbn [is_null].
  unfold bind at 1. unfold load_image at 1, call at 1. simpl_world. rewrite H1.
  unfold bind at 1. unfold load_image at 1, call at 1. simpl_world. rewrite H2.
  unfold bind at 1. unfold load_image at 1, call at 1. simpl_world. rewrite H3.
  unfold bind at 1. unfold load_image at 1, call at 1. simpl_world. rewrite H4.
  cbn [is_null orb]. reflexivity.
Qed.

(** The statics a frame of the violin driver writes. *)
Local Notation "'upd_' lstd cstd" :=
  (fun (i : Z) (g : statics A) =>
     set_light_direction
       (vector3_add lstd
          (Vector3 (float_lerp (lit 2 10) (fopp (lit 2 10)) (frame_time i))
                   (lit 0 10) (lit 0 10)))
       (set_camera_position
          (vector3_multiply_scalar cstd
             (float_lerp (lit 4 10) (lit 3 10) (frame_time i)))
          g)) (at level 10, lstd at level 9, cstd at level 9).

Lemma violin_frame_body (m : model) (lstd cstd : vector3 A) (i : Z)
    (g : statics A) (w : world A) :
  frame_ m lstd cstd i (State g w)
  = bind (Violin.render_model rasterize vector3_normalize matrix4x4_rotate_y
            matrix4x4_look_at matrix4x4_perspective m)
         (fun _ => bind (read color_buffer)
                        (fun p => save_image p (Violin.image_name i) true))
         (State ((upd_ lstd cstd) i g) w).
Proof. reflexivity. Qed.

Lemma violin_upd_same_pointers (lstd cstd : vector3 A) (i : Z) (g : statics A) :
  same_pointers g ((upd_ lstd cstd) i g).
Proof. repeat split. Qed.

(** [initialize_rendering] and the first [n] iterations of the loop of the
    violin driver. *)
Lemma violin_animate_ok (m : model) (mh : handle) (ms : mesh A) (n : nat)
    (g : statics A) (w : world A) :
  model_mesh m = Some mh -> meshes w !! mh = Some ms ->
  (forall k, (next w <= k < next w + 5)%nat -> alloc_ok env k = true) ->
  exists s',
    animate_ m n (State g w) = Some (tt, s')
    /\ animation_post Violin.IMAGE_WIDTH Violin.IMAGE_HEIGHT Violin.image_name
         (upd_ (light_direction g) (vector3_normalize (camera_position g))) n g w s'.
Proof.
  intros Hm Hms Halloc.
  destruct (animate_spec env rasterize vector3_normalize matrix4x4_rotate_y
              matrix4x4_look_at matrix4x4_perspective
              Violin.IMAGE_WIDTH Violin.IMAGE_HEIGHT
              (Vector3 (lit 10 10) (lit 10 10) (lit 10 10))
              (Vector3 (lit 20 10) (lit 12 10) (lit 9 10)) (lit 10 10)
              m (upd_ (light_direction g) (vector3_normalize (camera_position g)))
              Violin.image_name
              (frame_ m (light_direction g) (vector3_normalize (camera_position g)))
              mh ms n g w
              (violin_frame_body m _ _)
              (violin_upd_same_pointers _ _) Hm Hms Halloc) as (s' & E & Hpost).
  exists s'. split; [|exact Hpost].
  rewrite <- E. unfold Violin.animate, Violin.initialize_rendering.
  rewrite !(bind_Some _ _ _ _ _ (initialize_rendering_spec env Violin.IMAGE_WIDTH
                                   Violin.IMAGE_HEIGHT g w Halloc)).
  reflexivity.
Qed.

(** A run of the violin driver in which the five files are there and the
    five allocations of [initialize_rendering] succeed: [main] returns 0,
    and the calls it made are those of the load, of [initialize_rendering],
    of the frames, and of the release. *)
Lemma violin_run_ok (ms : mesh A) (t1 t2 t3 t4 : texture A) :
  mesh_files env Violin.model_path = Some ms ->
  image_files env Violin.base_color_map_path true = Some t1 ->
  image_files env Violin.normal_map_path false = Some t2 ->
  image_files env Violin.metallic_map_path false = Some t3 ->
  image_files env Violin.roughness_map_path false = Some t4 ->
  (forall k, (5 <= k < 10)%nat -> alloc_ok env k = true) ->
  exists s tr,
    run_ = Some (0, s)
    /\ trace (lib s)
       = [EvDestroyTexture (Some 4%nat); EvDestroyTexture (Some 3%nat);
          EvDestroyTexture (Some 2%nat); EvDestroyTexture (Some 1%nat);
          EvDestroyMesh (Some 0%nat);
          EvDestroyFramebuffer (Some 7%nat); EvDestroyFramebuffer (Some 5%nat);
          EvDestroyTexture (Some 9%nat); EvDestroyTexture (Some 8%nat);
          EvDestroyTexture (Some 6%nat)]
         ++ tr
         ++ init_events Violin.IMAGE_WIDTH Violin.IMAGE_HEIGHT (lit 10 10) 5%nat
         ++ load_events
    /\ saved_names tr
       = map Violin.image_name (map Z.of_nat (seq 0 (Z.to_nat frame_count)))
    /\ forallb (fun e => negb (shadow_pass_event (Some 5%nat) e)) tr = true
    /\ forallb frame_event tr = true
    /\ Forall (fun u => world2light u = matrix4x4_multiply scale_bias matrix4x4_zero
                        /\ u_shadow_map u = Some 6%nat)
              (drawn_uniforms tr).
Proof.
  intros Hms H1 H2 H3 H4 Halloc.
  unfold Violin.run, Violin.main.
  rewrite (bind_Some _ _ _ _ _ (violin_load_ok _ ms t1 t2 t3 t4 Hms H1 H2 H3 H4)).
  cbv beta iota.
  match goal with
  | |- context [bind (Violin.animate _ _ _ _ _ _ ?m ?n) _ (State ?g ?w)] =>
      destruct (violin_animate_ok m 0%nat ms n g w eq_refl) as (s' & E & Hpost)
  end.
  { apply lookup_insert_eq. }
  { exact Halloc. }
  rewrite (bind_Some _ _ _ _ _ E).
  edestruct (finish_spec Violin.IMAGE_WIDTH Violin.IMAGE_HEIGHT _ _ _ _ _ s'
               0%nat 1%nat 2%nat 3%nat 4%nat ms t1 t2 t3 t4 Hpost)
    as (s'' & E2 & Htr); simpl_world; try lia.
  { apply lookup_insert_eq. }
  { rewrite !lookup_insert_ne by lia. apply lookup_insert_eq. }
  { rewrite !lookup_insert_ne by lia. apply lookup_insert_eq. }
  { rewrite !lookup_insert_ne by lia. apply lookup_insert_eq. }
  { apply lookup_insert_eq. }
  destruct Hpost as (tc & td & vp & vs & fs & cc & tr & Elib & _ & _ & _ & _ & _ & _
                     & Hsaved & Hshadow & Hframe & Hlight & _).
  exists s'', tr. split; [exact E2|].
  split; [rewrite Htr, Elib; reflexivity|].
  repeat (split; [assumption|]). exact Hlight.
Qed.

(** The load of the violin driver never crashes; it takes the failure
    path exactly when a load returned NULL; and then [main] returns 0
    having printed a message, with every object it had created destroyed
    and no frame rendered or saved. *)
Lemma violin_load_failure :
  exists r s1,
    load_ (State (Violin.initial_statics PI) initial_world) = Some (r, s1)
    /\ (existsb returned_null (trace (lib s1)) = true <-> r = None)
    /\ (r = None ->
        run_ = Some (0, s1)
        /\ existsb is_printf (trace (lib s1)) = true
        /\ existsb frame_event (trace (lib s1)) = false
        /\ textures (lib s1) = ∅ /\ meshes (lib s1) = ∅ /\ framebuffers (lib s1) = ∅).
Proof.
  assert (L : exists r s1,
             load_ (State (Violin.initial_statics PI) initial_world) = Some (r, s1)
             /\ (existsb returned_null (trace (lib s1)) = true <-> r = None)
             /\ (r = None ->
                 existsb is_printf (trace (lib s1)) = true
                 /\ existsb frame_event (trace (lib s1)) = false
                 /\ textures (lib s1) = ∅ /\ meshes (lib s1) = ∅
                 /\ framebuffers (lib s1) = ∅)).
  { destruct (mesh_files env Violin.model_path) as [ms|] eqn:Hms;
      [destruct (image_files env Violin.base_color_map_path true) as [t1|] eqn:H1,
                (image_files env Violin.normal_map_path false) as [t2|] eqn:H2,
                (image_files env Violin.metallic_map_path false) as [t3|] eqn:H3,
                (image_files env Violin.roughness_map_path false) as [t4|] eqn:H4|];
      unfold Violin.load, bind, load_mesh, load_image, call;
      rewrite ?Hms, ?H1, ?H2, ?H3, ?H4;
      evaluate_run;
      (split; [vm_compute; split; [try discriminate; reflexivity
                                  | try discriminate; reflexivity]|]);
      try (intros Hr; discriminate Hr);
      intros _; vm_compute; repeat split. }
  destruct L as (r & s1 & E & Hiff & Hfail).
  exists r, s1. split; [exact E|]. split; [exact Hiff|].
  intros ->. split; [|apply Hfail; reflexivity].
  unfold Violin.run, Violin.main. rewrite (bind_Some _ _ _ _ _ E). reflexivity.
Qed.

End ViolinFacts.

(** ** The eagle driver *)

Section EagleFacts.
Context {A : Type} `{Scalar A}.
Variable env : environment A.
Variable rasterize : rasterizer A.
Variable PI : A.
Variable vector3_normalize : vector3 A -> vector3 A.
Variable matrix4x4_rotate_y : A -> matrix4x4 A.
Variable matrix4x4_look_at : vector3 A -> vector3 A -> vector3 A -> matrix4x4 A.
Variable matrix4x4_perspective : A -> A -> A -> A -> matrix4x4 A.

Local Notation "'load_'" := (Eagle.load env).
Local Notation "'frame_'" :=
  (Eagle.frame rasterize vector3_normalize matrix4x4_rotate_y matrix4x4_look_at
               matrix4x4_perspective).
Local Notation "'animate_'" :=
  (Eagle.animate env rasterize vector3_normalize matrix4x4_rotate_y matrix4x4_look_at
                 matrix4x4_perspective).
Local Notation "'run_'" :=
  (Eagle.run env rasterize PI vector3_normalize matrix4x4_rotate_y matrix4x4_look_at
             matrix4x4_perspective).

(** The statics a frame of the eagle driver writes. *)
Local Notation "'upd_'" :=
  (fun (i : Z) (g : statics A) =>
     set_camera_position
       (Vector3 (lit 0 10)
                (float_lerp (lit 0 10) (lit 6 10) (frame_time i))
                (float_lerp (lit 20 10) (lit 22 10) (frame_time i)))
       (set_rotation_y (Eagle.frame_rotation i) g)).

Lemma eagle_frame_body (m : model) (i : Z) (g : statics A) (w : world A) :
  frame_ m i (State g w)
  = bind (Eagle.render_model rasterize vector3_normalize matrix4x4_rotate_y
            matrix4x4_look_at matrix4x4_perspective m)
         (fun _ => bind (read color_buffer)
                        (fun p => save_image p (Eagle.image_name i) true))
         (State (upd_ i g) w).
Proof. reflexivity. Qed.

Lemma eagle_upd_same_pointers (i : Z) (g : statics A) : same_pointers g (upd_ i g).
Proof. repeat split. Qed.

(** [initialize_rendering] and the first [n] iterations of the loop of the
    eagle driver. *)
Lemma eagle_animate_ok (m : model) (mh : handle) (ms : mesh A) (n : nat)
    (g : statics A) (w : world A) :
  model_mesh m = Some mh -> meshes w !! mh = Some ms ->
  (forall k, (next w <= k < next w + 5)%nat -> alloc_ok env k = true) ->
  exists s',
    animate_ m n (State g w) = Some (tt, s')
    /\ animation_post Eagle.IMAGE_WIDTH Eagle.IMAGE_HEIGHT Eagle.image_name upd_ n g w s'.
Proof.
  intros Hm Hms Halloc.
  exact (animate_spec env rasterize vector3_normalize matrix4x4_rotate_y
           matrix4x4_look_at matrix4x4_perspective
           Eagle.IMAGE_WIDTH Eagle.IMAGE_HEIGHT
           (Vector3 (lit 0 10) (lit 0 10) (lit 0 10))
           (Vector3 (lit 98 100) (lit 98 100) (lit 98 100)) (lit 0 10)
           m upd_ Eagle.image_name (frame_ m) mh ms n g w
           (eagle_frame_body m) eagle_upd_same_pointers Hm Hms Halloc).
Qed.

(** After iteration [k] of the loop the static [rotation_y] holds the
    rotation of frame [k]. *)
Lemma eagle_rotation_after_frame (m : model) (mh : handle) (ms : mesh A) (k : nat)
    (g : statics A) (w : world A) :
  model_mesh m = Some mh -> meshes w !! mh = Some ms ->
  (forall k, (next w <= k < next w + 5)%nat -> alloc_ok env k = true) ->
  exists s',
    animate_ m (S k) (State g w) = Some (tt, s')
    /\ rotation_y (globals s') = Eagle.frame_rotation (Z.of_nat k).
Proof.
  intros Hm Hms Halloc.
  destruct (eagle_animate_ok m mh ms (S k) g w Hm Hms Halloc) as (s' & E & Hpost).
  exists s'. split; [exact E|].
  destruct Hpost as (tc & td & vp & vs & fs & cc & tr & _ & _ & _ & _ & _ & _ & _
                     & _ & _ & _ & _ & g'' & ->).
  reflexivity.
Qed.

(** The load of the eagle driver.  On its failure path it returns without
    a model, having written no static, printed a message and destroyed
    every object it had created.  Otherwise it passes the three bytes of
    [normal_data] to [set_texture_pixels] for a 1x1 texture of the format
    RGBA8, which has four bytes per pixel: the call is outside the
    contract of [set_texture_pixels], and the run is undefined from
    there. *)
Lemma eagle_load_cases (g : statics A) :
  match load_ (State g initial_world) with
  | Some (r, s1) =>
      eagle_load_fails env /\ r = None /\ globals s1 = g
      /\ existsb returned_null (trace (lib s1)) = true
      /\ existsb is_printf (trace (lib s1)) = true
      /\ existsb frame_event (trace (lib s1)) = false
      /\ existsb is_set_texture_pixels (trace (lib s1)) = false
      /\ textures (lib s1) = ∅ /\ meshes (lib s1) = ∅ /\ framebuffers (lib s1) = ∅
  | None => ~ eagle_load_fails env
  end.
Proof.
  clear rasterize PI vector3_normalize matrix4x4_rotate_y matrix4x4_look_at
        matrix4x4_perspective.
  destruct (mesh_files env Eagle.model_path) as [ms|] eqn:Hms;
    [destruct (image_files env Eagle.base_color_map_path true) as [t1|] eqn:H1,
              (alloc_ok env 1%nat) eqn:A1, (alloc_ok env 2%nat) eqn:A2,
              (alloc_ok env 3%nat) eqn:A3, (alloc_ok env 4%nat) eqn:A4|];
    unfold Eagle.load, initial_world;
    repeat (first [ progress (unfold bind at 1)
                  | progress (unfold load_mesh at 1, call at 1)
                  | progress (unfold load_image at 1, call at 1)
                  | progress (unfold create_texture at 1, call at 1)
                  | progress simpl_world
                  | progress (rewrite ?Hms, ?H1, ?A1, ?A2, ?A3, ?A4)
                  | progress (cbn [is_null orb]) ]);
    match goal with
    | |- match ?X with _ => _ end =>
        let v := eval vm_compute in X in
        assert (E : X = v) by (vm_compute; reflexivity); rewrite E; clear E
    end;
    first [ split;
            [ unfold eagle_load_fails; tauto
            | vm_compute; repeat split ]
          | intros [F|[F|[F|[F|F]]]]; congruence ].
Qed.

Lemma eagle_load_failure (g : statics A) :
  eagle_load_fails env ->
  exists s1,
    load_ (State g initial_world) = Some (None, s1)
    /\ globals s1 = g
    /\ existsb returned_null (trace (lib s1)) = true
    /\ existsb is_printf (trace (lib s1)) = true
    /\ existsb frame_event (trace (lib s1)) = false
    /\ existsb is_set_texture_pixels (trace (lib s1)) = false
    /\ textures (lib s1) = ∅ /\ meshes (lib s1) = ∅ /\ framebuffers (lib s1) = ∅.
Proof.
  intros Hf. pose proof (eagle_load_cases g) as C.
  destruct (load_ (State g initial_world)) as [[r s1]|]; [|contradiction].
  destruct C as (_ & -> & C). exists s1. split; [reflexivity|exact C].
Qed.

Lemma eagle_load_undefined (g : statics A) :
  ~ eagle_load_fails env -> load_ (State g initial_world) = None.
Proof.
  intros Hf. pose proof (eagle_load_cases g) as C.
  destruct (load_ (State g initial_world)) as [[r s1]|]; [|reflexivity].
  destruct C as (C & _). contradiction.
Qed.

(** [main] on the failure path of the load returns 0 at once. *)
Lemma eagle_run_failure (s1 : state A) :
  load_ (State (Eagle.initial_statics PI) initial_world) = Some (None, s1) ->
  run_ = Some (0, s1).
Proof.
  intros E. unfold Eagle.run, Eagle.main. rewrite (bind_Some _ _ _ _ _ E). reflexivity.
Qed.

Lemma eagle_run_undefined :
  load_ (State (Eagle.initial_statics PI) initial_world) = None -> run_ = None.
Proof.
  intros E. unfold Eagle.run, Eagle.main. apply bind_None. exact E.
Qed.

End EagleFacts.

(** * The claims about the drivers, in binary32 *)

Lemma zero_light_matrix_binary32 :
  matrix4x4_multiply (A := F32.t) scale_bias matrix4x4_zero = matrix4x4_zero.
Proof. vm_compute. reflexivity. Qed.

Lemma default_shadow_map_holds_one :
  default_shadow_map (A := F32.t)
  = Texture TEXTURE_FORMAT_DEPTH_FLOAT 1 1 [Depth (of_Z 1)].
Proof. vm_compute. reflexivity. Qed.

Lemma frame_count_binary32 : frame_count (A := F32.t) = 135.
Proof. vm_compute. reflexivity. Qed.

(** A check that holds for the 135 frame indices, by enumeration. *)
Lemma below_135 (P : Z -> bool) :
  forallb (fun k => P (Z.of_nat k)) (seq 0 135) = true ->
  forall i, 0 <= i < 135 -> P i = true.
Proof.
  intros Hall i Hi. rewrite forallb_forall in Hall.
  specialize (Hall (Z.to_nat i)). rewrite Z2Nat.id in Hall by lia.
  apply Hall. apply in_seq. lia.
Qed.

(** The file names of the 135 frames carry the index with three digits
    and are in the order of the indices. *)
Lemma image_names_three_digits (i : Z) :
  0 <= i < 135 ->
  format_d 3 i = three_digits i
  /\ Violin.image_name i = ("violin/v-" ++ three_digits i ++ ".tga")%string
  /\ Eagle.image_name i = ("eagle/e-" ++ three_digits i ++ ".tga")%string.
Proof.
  intros Hi.
  assert (E : format_d 3 i = three_digits i).
  { apply String.eqb_eq.
    apply (below_135 (fun i => String.eqb (format_d 3 i) (three_digits i)));
      [vm_compute; reflexivity|exact Hi]. }
  unfold Violin.image_name, Eagle.image_name. rewrite E. repeat split.
Qed.

Lemma image_names_ordered (i j : Z) :
  0 <= i < 135 -> 0 <= j < 135 -> i < j ->
  string_ltb (Violin.image_name i) (Violin.image_name j) = true
  /\ string_ltb (Eagle.image_name i) (Eagle.image_name j) = true.
Proof.
  intros Hi Hj Hij.
  pose proof (below_135
    (fun i => forallb
       (fun k => let j := Z.of_nat k in
                 if i <? j
                 then string_ltb (Violin.image_name i) (Violin.image_name j)
                      && string_ltb (Eagle.image_name i) (Eagle.image_name j)
                 else true)
       (seq 0 135))
    ltac:(vm_compute; reflexivity) i Hi) as Hall.
  cbv beta in Hall.
  pose proof (below_135
    (fun j => if i <? j
              then string_ltb (Violin.image_name i) (Violin.image_name j)
                   && string_ltb (Eagle.image_name i) (Eagle.image_name j)
              else true) Hall j Hj) as Hb.
  cbv beta in Hb.
  destruct (Z.ltb_spec i j); [|lia].
  apply andb_true_iff in Hb. exact Hb.
Qed.

(** The rotation of the eagle in exact arithmetic. *)
Lemma eagle_rotation_exact (i : Z) :
  (Eagle.frame_rotation (A := Q) i == - (94 # 100) * (1 # 135) * inject_Z i)%Q.
Proof.
  unfold Eagle.frame_rotation, float_lerp, Eagle.rotation_y_start, Eagle.rotation_y_end,
    frame_time.
  change (frame_count (A := Q)) with 135.
  cbn [fadd fmul fsub fdiv fopp lit of_Z exact]. field.
Qed.

(** The rotation of the eagle in binary32, for the 135 frames: above the
    end value. *)
Lemma eagle_rotation_above_end (i : Z) :
  0 <= i < 135 ->
  F32.ltb Eagle.rotation_y_end (Eagle.frame_rotation (A := F32.t) i) = true.
Proof.
  apply (below_135 (fun i => F32.ltb Eagle.rotation_y_end
                                     (Eagle.frame_rotation (A := F32.t) i))).
  vm_compute. reflexivity.
Qed.

Section Claims.
Variable env : environment F32.t.
Variable rasterize : rasterizer F32.t.
Variable PI : F32.t.
Variable vector3_normalize : vector3 F32.t -> vector3 F32.t.
Variable matrix4x4_rotate_y : F32.t -> matrix4x4 F32.t.
Variable matrix4x4_look_at :
  vector3 F32.t -> vector3 F32.t -> vector3 F32.t -> matrix4x4 F32.t.
Variable matrix4x4_perspective : F32.t -> F32.t -> F32.t -> F32.t -> matrix4x4 F32.t.

Local Notation "'violin_animate'" :=
  (Violin.animate env rasterize vector3_normalize matrix4x4_rotate_y matrix4x4_look_at
                  matrix4x4_perspective).
Local Notation "'violin_run'" :=
  (Violin.run env rasterize PI vector3_normalize matrix4x4_rotate_y matrix4x4_look_at
              matrix4x4_perspective).
Local Notation "'eagle_animate'" :=
  (Eagle.animate env rasterize vector3_normalize matrix4x4_rotate_y matrix4x4_look_at
                 matrix4x4_perspective).
Local Notation "'eagle_run'" :=
  (Eagle.run env rasterize PI vector3_normalize matrix4x4_rotate_y matrix4x4_look_at
             matrix4x4_perspective).

(** What C2 says of the state after some frames: the light matrix is
    still the zero matrix and the shadow map is still the 1x1 map holding
    1.0, attached to the shadow framebuffer of handle 5. *)
Local Notation "'shadow_untouched' s" :=
  (light_world2clip (globals s) = matrix4x4_zero
   /\ shadow_framebuffer (globals s) = Some 5%nat
   /\ shadow_map (globals s) = Some 6%nat
   /\ textures (lib s) !! 6%nat
      = Some (Texture TEXTURE_FORMAT_DEPTH_FLOAT 1 1 [Depth (of_Z 1)])
   /\ framebuffers (lib s) !! 5%nat = Some (Framebuffer None (Some 6%nat)))
  (at level 10, s at level 9).

(** What C2 says of the calls of a whole run: no call of a shadow pass,
    and every triangle drawn with the scale-bias matrix times the zero
    matrix, which is the zero matrix, as [world2light]. *)
Local Notation "'no_shadow_pass' s" :=
  (forallb (fun e => negb (shadow_pass_event (Some 5%nat) e)) (trace (lib s)) = true
   /\ Forall (fun u => world2light u = matrix4x4_multiply scale_bias matrix4x4_zero
                       /\ world2light u = matrix4x4_zero
                       /\ u_shadow_map u = Some 6%nat)
             (drawn_uniforms (trace (lib s))))
  (at level 10, s at level 9).

Lemma animation_post_shadow_untouched_at (w h : nat) (name : Z -> string)
    (upd : Z -> statics F32.t -> statics F32.t) (n : nat) (g : statics F32.t)
    (w0 : world F32.t) (s : state F32.t) :
  animation_post w h name upd n g w0 s ->
  light_world2clip g = matrix4x4_zero ->
  (light_world2clip (globals s) = matrix4x4_zero
   /\ shadow_framebuffer (globals s) = Some (next w0)
   /\ shadow_map (globals s) = Some (S (next w0))
   /\ textures (lib s) !! S (next w0)
      = Some (Texture TEXTURE_FORMAT_DEPTH_FLOAT 1 1 [Depth (of_Z 1)])
   /\ framebuffers (lib s) !! (next w0) = Some (Framebuffer None (Some (S (next w0))))).
Proof.
  intros (tc & td & vp & vs & fs & cc & tr & Elib & P1 & P2 & P3 & P4 & P5 & P6 & _) Hz.
  rewrite Elib. simpl_world.
  split; [congruence|]. split; [assumption|]. split; [assumption|].
  split.
  - rewrite !lookup_insert_ne by lia. rewrite lookup_insert_eq.
    rewrite default_shadow_map_holds_one. reflexivity.
  - rewrite lookup_insert_ne by lia. apply lookup_insert_eq.
Qed.

Lemma animation_post_shadow_untouched (w h : nat) (name : Z -> string)
    (upd : Z -> statics F32.t -> statics F32.t) (n : nat) (g : statics F32.t)
    (w0 : world F32.t) (s : state F32.t) :
  animation_post w h name upd n g w0 s ->
  next w0 = 5%nat -> light_world2clip g = matrix4x4_zero ->
  shadow_untouched s.
Proof.
  intros Hpost Hn Hz. rewrite <- Hn.
  exact (animation_post_shadow_untouched_at w h name upd n g w0 s Hpost Hz).
Qed.

(** The calls of [initialize_rendering] and of the frames that follow it:
    none belongs to a shadow pass. *)
Lemma animation_post_no_shadow_pass (w h : nat) (name : Z -> string)
    (upd : Z -> statics F32.t -> statics F32.t) (n : nat) (g : statics F32.t)
    (w0 : world F32.t) (s : state F32.t) :
  animation_post w h name upd n g w0 s ->
  light_world2clip g = matrix4x4_zero ->
  exists tr, trace (lib s) = tr ++ trace w0
             /\ (forallb (fun e => negb (shadow_pass_event (Some (next w0)) e)) tr = true
                 /\ Forall (fun u => world2light u = matrix4x4_multiply scale_bias matrix4x4_zero
                                     /\ world2light u = matrix4x4_zero
                                     /\ u_shadow_map u = Some (S (next w0)))
                           (drawn_uniforms tr))
             /\ saved_names tr = map name (map Z.of_nat (seq 0 n)).
Proof.
  intros (tc & td & vp & vs & fs & cc & tr & Elib & _ & _ & _ & _ & _ & _
          & Hsaved & Hshadow & _ & Hlight & _) Hz.
  exists (tr ++ init_events w h (lit 10 10) (next w0)).
  rewrite Elib. simpl_world. split; [rewrite <- app_assoc; reflexivity|].
  split; [split|].
  - rewrite forallb_app, Hshadow. reflexivity.
  - rewrite drawn_uniforms_app. cbn [drawn_uniforms init_events]. rewrite app_nil_r.
    eapply Forall_impl; [exact Hlight|].
    intros u [E1 E2]. rewrite Hz in E1. split; [exact E1|]. split; [|exact E2].
    rewrite E1. apply zero_light_matrix_binary32.
  - rewrite saved_names_app. exact Hsaved.
Qed.

Lemma run_trace_no_shadow_pass (s : state F32.t) (w h : nat)
    (tr load_events : list (event F32.t)) :
  trace (lib s)
  = [EvDestroyTexture (Some 4%nat); EvDestroyTexture (Some 3%nat);
     EvDestroyTexture (Some 2%nat); EvDestroyTexture (Some 1%nat);
     EvDestroyMesh (Some 0%nat);
     EvDestroyFramebuffer (Some 7%nat); EvDestroyFramebuffer (Some 5%nat);
     EvDestroyTexture (Some 9%nat); EvDestroyTexture (Some 8%nat);
     EvDestroyTexture (Some 6%nat)]
    ++ tr ++ init_events w h (lit 10 10) 5%nat ++ load_events ->
  forallb (fun e => negb (shadow_pass_event (Some 5%nat) e)) tr = true ->
  forallb (fun e => negb (shadow_pass_event (Some 5%nat) e)) load_events = true ->
  drawn_uniforms load_events = [] ->
  Forall (fun u => world2light u = matrix4x4_multiply scale_bias matrix4x4_zero
                   /\ u_shadow_map u = Some 6%nat) (drawn_uniforms tr) ->
  no_shadow_pass s.
Proof.
  intros -> Hshadow Hload Hdl Hlight. split.
  - rewrite !forallb_app, Hshadow, Hload. reflexivity.
  - rewrite !drawn_uniforms_app, Hdl, app_nil_r. cbn [drawn_uniforms init_events app].
    eapply Forall_impl; [exact Hlight|].
    intros u [E1 E2]. split; [exact E1|]. split; [|exact E2].
    rewrite E1. apply zero_light_matrix_binary32.
Qed.

(** C2.  In both drivers the static [light_world2clip] is the zero matrix
    of its definition after any number of frames, the 1x1 shadow map still
    holds 1.0, no call belongs to a shadow pass, and every triangle is
    drawn with [world2light] equal to the scale-bias matrix times the zero
    matrix, which is the zero matrix.  For the violin driver, in every run
    that gets through the load and [initialize_rendering], and in the whole
    run.  For the eagle driver: the static is the zero matrix at the start
    and the load does not write it; and from any state in which the mesh of
    the model is loaded and the static is the zero matrix,
    [initialize_rendering] and any number of frames keep all this. *)
Theorem light_matrix_zero_and_shadow_map_untouched :
  (violin_assets_available env ->
   (forall n, exists m s1 s,
       Violin.load env (violin_start PI) = Some (Some m, s1)
       /\ violin_animate m n s1 = Some (tt, s)
       /\ shadow_untouched s)
   /\ exists s, violin_run = Some (0, s) /\ no_shadow_pass s)
  /\ light_world2clip (Eagle.initial_statics PI) = matrix4x4_zero
  /\ (forall r s1, Eagle.load env (eagle_start PI) = Some (r, s1) ->
                   light_world2clip (globals s1) = matrix4x4_zero)
  /\ (forall (m : model) (mh : handle) (ms : mesh F32.t) (g : statics F32.t)
             (w : world F32.t) (n : nat),
        model_mesh m = Some mh -> meshes w !! mh = Some ms ->
        (forall j, (next w <= j < next w + 5)%nat -> alloc_ok env j = true) ->
        light_world2clip g = matrix4x4_zero ->
        exists s tr,
          eagle_animate m n (State g w) = Some (tt, s)
          /\ (light_world2clip (globals s) = matrix4x4_zero
              /\ shadow_framebuffer (globals s) = Some (next w)
              /\ shadow_map (globals s) = Some (S (next w))
              /\ textures (lib s) !! S (next w)
                 = Some (Texture TEXTURE_FORMAT_DEPTH_FLOAT 1 1 [Depth (of_Z 1)])
              /\ framebuffers (lib s) !! (next w) = Some (Framebuffer None (Some (S (next w)))))
          /\ trace (lib s) = tr ++ trace w
          /\ (forallb (fun e => negb (shadow_pass_event (Some (next w)) e)) tr = true
              /\ Forall (fun u => world2light u = matrix4x4_multiply scale_bias matrix4x4_zero
                                  /\ world2light u = matrix4x4_zero
                                  /\ u_shadow_map u = Some (S (next w)))
                        (drawn_uniforms tr))).
Proof.
  split; [|split; [reflexivity|split]].
  - intros ([ms Hms] & [t1 H1] & [t2 H2] & [t3 H3] & [t4 H4] & Halloc). split.
    + intros n.
      pose proof (violin_load_ok env (Violin.initial_statics PI) ms t1 t2 t3 t4
                    Hms H1 H2 H3 H4) as EL.
      match type of EL with
      | _ = Some (Some ?m, State ?g ?w) =>
          destruct (violin_animate_ok env rasterize vector3_normalize
                      matrix4x4_rotate_y matrix4x4_look_at matrix4x4_perspective
                      m 0%nat ms n g w eq_refl (lookup_insert_eq _ _ _) Halloc)
            as (s & E & Hpost);
          exists m, (State g w), s
      end.
      split; [exact EL|]. split; [exact E|].
      eapply animation_post_shadow_untouched; [exact Hpost|reflexivity|reflexivity].
    + destruct (violin_run_ok env rasterize PI vector3_normalize matrix4x4_rotate_y
                  matrix4x4_look_at matrix4x4_perspective ms t1 t2 t3 t4
                  Hms H1 H2 H3 H4 Halloc)
        as (s & tr & E & Htr & _ & Hshadow & _ & Hlight).
      exists s. split; [exact E|].
      eapply run_trace_no_shadow_pass; [exact Htr|exact Hshadow| | |exact Hlight];
        reflexivity.
  - intros r s1 E.
    pose proof (eagle_load_cases env (Eagle.initial_statics PI)) as C.
    unfold eagle_start in E. rewrite E in C.
    destruct C as (_ & _ & -> & _). reflexivity.
  - intros m mh ms g w n Hm Hms Halloc Hz.
    destruct (eagle_animate_ok env rasterize vector3_normalize matrix4x4_rotate_y
                matrix4x4_look_at matrix4x4_perspective m mh ms n g w Hm Hms Halloc)
      as (s & E & Hpost).
    destruct (animation_post_no_shadow_pass _ _ _ _ _ _ _ _ Hpost Hz)
      as (tr & Htr & Hno & _).
    exists s, tr. split; [exact E|].
    split; [exact (animation_post_shadow_untouched_at _ _ _ _ _ _ _ _ Hpost Hz)|].
    split; [exact Htr|exact Hno].
Qed.

(** C9.  In both drivers the loop of [main] saves exactly one image per
    frame index 0 to 134, in this order, under the name that embeds the
    index with three digits, padded with zeros; the names of two frames are
    in the (lexicographic) order of their indices, hence different.  For
    the violin driver, in every run that gets through the load and
    [initialize_rendering], where [main] returns with these images saved.
    For the eagle driver, from any state in which the mesh of the model is
    loaded: [initialize_rendering] and the 135 iterations of the loop
    return, and the images they save are these. *)
Theorem one_image_per_frame_named_by_index :
  (violin_assets_available env ->
   exists s, violin_run = Some (0, s)
             /\ saved_names (trace (lib s))
                = map Violin.image_name (map Z.of_nat (seq 0 135)))
  /\ (forall (m : model) (mh : handle) (ms : mesh F32.t) (g : statics F32.t)
             (w : world F32.t),
        model_mesh m = Some mh -> meshes w !! mh = Some ms ->
        (forall j, (next w <= j < next w + 5)%nat -> alloc_ok env j = true) ->
        exists s tr,
          eagle_animate m (Z.to_nat (frame_count (A := F32.t))) (State g w) = Some (tt, s)
          /\ trace (lib s) = tr ++ trace w
          /\ saved_names tr = map Eagle.image_name (map Z.of_nat (seq 0 135)))
  /\ (forall i, 0 <= i < 135 ->
        format_d 3 i = three_digits i
        /\ Violin.image_name i = ("violin/v-" ++ three_digits i ++ ".tga")%string
        /\ Eagle.image_name i = ("eagle/e-" ++ three_digits i ++ ".tga")%string)
  /\ (forall i j, 0 <= i < 135 -> 0 <= j < 135 -> i < j ->
        string_ltb (Violin.image_name i) (Violin.image_name j) = true
        /\ string_ltb (Eagle.image_name i) (Eagle.image_name j) = true).
Proof.
  split; [|split; [|split; [exact image_names_three_digits|exact image_names_ordered]]].
  - intros ([ms Hms] & [t1 H1] & [t2 H2] & [t3 H3] & [t4 H4] & Halloc).
    destruct (violin_run_ok env rasterize PI vector3_normalize matrix4x4_rotate_y
                matrix4x4_look_at matrix4x4_perspective ms t1 t2 t3 t4
                Hms H1 H2 H3 H4 Halloc)
      as (s & tr & E & Htr & Hsaved & _).
    exists s. split; [exact E|].
    rewrite Htr, !saved_names_app, Hsaved, frame_count_binary32. reflexivity.
  - intros m mh ms g w Hm Hms Halloc.
    destruct (eagle_animate_ok env rasterize vector3_normalize matrix4x4_rotate_y
                matrix4x4_look_at matrix4x4_perspective m mh ms
                (Z.to_nat (frame_count (A := F32.t))) g w Hm Hms Halloc)
      as (s & E & (tc & td & vp & vs & fs & cc & tr & Elib & _ & _ & _ & _ & _ & _
                   & Hsaved & _)).
    exists s, (tr ++ init_events Eagle.IMAGE_WIDTH Eagle.IMAGE_HEIGHT (lit 10 10) (next w)).
    split; [exact E|].
    rewrite Elib. simpl_world. split; [rewrite <- app_assoc; reflexivity|].
    rewrite saved_names_app. change (saved_names tr = map Eagle.image_name (map Z.of_nat (seq 0 135))).
    rewrite Hsaved, frame_count_binary32. reflexivity.
Qed.

(** C5.  In both drivers, a run in which the load of the mesh or of a
    texture returned NULL takes the failure path: [main] returns 0 having
    printed a message, with every object it had created destroyed, and
    without any call that renders or saves a frame.  The load of the
    violin driver returns in every run, and takes the failure path exactly
    when a load returned NULL.  The load of the eagle driver takes the
    failure path when the mesh or the image is not there or a default map
    is not allocated; and whenever it returns it has taken it. *)
Theorem failed_load_exits_cleanly :
  (exists r s1,
      Violin.load env (violin_start PI) = Some (r, s1)
      /\ (existsb returned_null (trace (lib s1)) = true <-> r = None)
      /\ (existsb returned_null (trace (lib s1)) = true ->
          violin_run = Some (0, s1)
          /\ existsb is_printf (trace (lib s1)) = true
          /\ existsb frame_event (trace (lib s1)) = false
          /\ textures (lib s1) = ∅ /\ meshes (lib s1) = ∅
          /\ framebuffers (lib s1) = ∅))
  /\ (eagle_load_fails env ->
      exists s1,
        Eagle.load env (eagle_start PI) = Some (None, s1)
        /\ existsb returned_null (trace (lib s1)) = true
        /\ eagle_run = Some (0, s1)
        /\ existsb is_printf (trace (lib s1)) = true
        /\ existsb frame_event (trace (lib s1)) = false
        /\ textures (lib s1) = ∅ /\ meshes (lib s1) = ∅
        /\ framebuffers (lib s1) = ∅)
  /\ (forall r s1,
        Eagle.load env (eagle_start PI) = Some (r, s1) ->
        r = None /\ existsb returned_null (trace (lib s1)) = true
        /\ eagle_run = Some (0, s1)).
Proof.
  split; [|split].
  - destruct (violin_load_failure env rasterize PI vector3_normalize matrix4x4_rotate_y
                matrix4x4_look_at matrix4x4_perspective)
      as (r & s1 & E & Hiff & Hfail).
    exists r, s1. split; [exact E|]. split; [exact Hiff|].
    intros Hnull. apply Hfail. apply Hiff. exact Hnull.
  - intros Hf.
    destruct (eagle_load_failure env (Eagle.initial_statics PI) Hf)
      as (s1 & E & _ & Hnull & Hp & Hfr & _ & Ht & Hm & Hfb).
    exists s1. split; [exact E|]. split; [exact Hnull|].
    split; [exact (eagle_run_failure env rasterize PI vector3_normalize
                     matrix4x4_rotate_y matrix4x4_look_at matrix4x4_perspective s1 E)|].
    repeat (split; [assumption|]). assumption.
  - intros r s1 E.
    pose proof (eagle_load_cases env (Eagle.initial_statics PI)) as C.
    unfold eagle_start in E. rewrite E in C.
    destruct C as (_ & -> & _ & Hnull & _).
    split; [reflexivity|]. split; [exact Hnull|].
    exact (eagle_run_failure env rasterize PI vector3_normalize
             matrix4x4_rotate_y matrix4x4_look_at matrix4x4_perspective s1 E).
Qed.

(** C3.  The loop of the eagle driver runs 135 times,
    [frame_count = (int)(4.5f * 30) = 135]; the rotation of frame i is
    [float_lerp(0.0f, -0.94f, (float)i / 135)], which the static
    [rotation_y] holds after iteration i; it is exactly 0.0 at frame 0,
    within 1e-7 of -0.94 * 134 / 135 (about -0.9330) at frame 134, and
    above -0.94 at every frame: the end value is not attained.  In exact
    arithmetic the rotation of frame i is -0.94 * i / 135.  The loop is
    run from any state in which the mesh of the model is loaded. *)
Theorem eagle_rotation_schedule :
  frame_count (A := F32.t) = 135
  /\ Eagle.frame_rotation (A := F32.t) 0 = F32.of_Z 0
  /\ (- (94 # 100) * (134 # 135) - (1 # 10000000)
      <= F32.to_Q (Eagle.frame_rotation (A := F32.t) 134)
      <= - (94 # 100) * (134 # 135) + (1 # 10000000))%Q
  /\ (- (9331 # 10000) <= F32.to_Q (Eagle.frame_rotation (A := F32.t) 134)
      <= - (9330 # 10000))%Q
  /\ (forall i, 0 <= i < 135 ->
        F32.ltb Eagle.rotation_y_end (Eagle.frame_rotation (A := F32.t) i) = true
        /\ Eagle.frame_rotation (A := F32.t) i <> Eagle.rotation_y_end)
  /\ frame_count (A := Q) = 135
  /\ (forall i,
        (Eagle.frame_rotation (A := Q) i == - (94 # 100) * (inject_Z i / 135))%Q
        /\ (0 <= i < 135 -> ~ (Eagle.frame_rotation (A := Q) i == - (94 # 100))%Q))
  /\ (forall (m : model) (mh : handle) (ms : mesh F32.t) (g : statics F32.t)
             (w : world F32.t),
        model_mesh m = Some mh -> meshes w !! mh = Some ms ->
        (forall j, (next w <= j < next w + 5)%nat -> alloc_ok env j = true) ->
        (forall k, exists s,
            eagle_animate m (S k) (State g w) = Some (tt, s)
            /\ rotation_y (globals s) = Eagle.frame_rotation (Z.of_nat k))
        /\ exists s tr,
            eagle_animate m (Z.to_nat (frame_count (A := F32.t))) (State g w) = Some (tt, s)
            /\ trace (lib s) = tr ++ trace w
            /\ length (saved_names tr) = 135%nat).
Proof.
  split; [vm_compute; reflexivity|].
  split; [vm_compute; reflexivity|].
  split; [split; apply Qle_bool_iff; vm_compute; reflexivity|].
  split; [split; apply Qle_bool_iff; vm_compute; reflexivity|].
  split.
  { intros i Hi. pose proof (eagle_rotation_above_end i Hi) as Hlt.
    split; [exact Hlt|]. intros E. rewrite E in Hlt. vm_compute in Hlt.
    discriminate Hlt. }
  split; [vm_compute; reflexivity|].
  split.
  { intros i. pose proof (eagle_rotation_exact i) as E. split.
    - rewrite E. field.
    - intros Hi Heq. rewrite E in Heq.
      assert (Hlt : (inject_Z i < 135)%Q).
      { change 135%Q with (inject_Z 135). rewrite <- Zlt_Qlt. lia. }
      lra. }
  intros m mh ms g w Hm Hms Halloc. split.
  - intros k.
    exact (eagle_rotation_after_frame env rasterize vector3_normalize
             matrix4x4_rotate_y matrix4x4_look_at matrix4x4_perspective
             m mh ms k g w Hm Hms Halloc).
  - destruct (eagle_animate_ok env rasterize vector3_normalize matrix4x4_rotate_y
                matrix4x4_look_at matrix4x4_perspective m mh ms
                (Z.to_nat (frame_count (A := F32.t))) g w Hm Hms Halloc)
      as (s & E & (tc & td & vp & vs & fs & cc & tr & Elib & _ & _ & _ & _ & _ & _
                   & Hsaved & _)).
    exists s, (tr ++ init_events Eagle.IMAGE_WIDTH Eagle.IMAGE_HEIGHT (lit 10 10) (next w)).
    split; [exact E|].
    rewrite Elib. simpl_world. split; [rewrite <- app_assoc; reflexivity|].
    rewrite saved_names_app. change (length (saved_names tr) = 135%nat).
    rewrite Hsaved, frame_count_binary32, !length_map, length_seq. reflexivity.
Qed.

End Claims.

(** ** A frame does not depend on the previous frame's pixels *)

Section FrameIndependence.
Context {A : Type} `{Scalar A}.
Variable rasterize : rasterizer A.
Variable vector3_normalize : vector3 A -> vector3 A.
Variable matrix4x4_rotate_y : A -> matrix4x4 A.
Variable matrix4x4_look_at : vector3 A -> vector3 A -> vector3 A -> matrix4x4 A.
Variable matrix4x4_perspective : A -> A -> A -> A -> matrix4x4 A.

Local Notation "'violin_frame'" :=
  (Violin.frame rasterize vector3_normalize matrix4x4_rotate_y matrix4x4_look_at
                matrix4x4_perspective).
Local Notation "'eagle_frame'" :=
  (Eagle.frame rasterize vector3_normalize matrix4x4_rotate_y matrix4x4_look_at
               matrix4x4_perspective).

(** The library state [w] with the pixels of the textures [cb] and [db]
    replaced by [pc] and [pd]. *)
Local Notation "'repainted' w cb tc pc db td pd" :=
  (with_textures
     (<[db := Texture (format td) (width td) (height td) pd]>
        (<[cb := Texture (format tc) (width tc) (height tc) pc]> (textures w)))
     w)
  (at level 10, w at level 9, cb at level 9, tc at level 9, pc at level 9,
   db at level 9, td at level 9, pd at level 9).

(** Running after [render_model] from two states that [render_model] does
    not tell apart. *)
Lemma bind_render_model_forgets_pixels {X : Type} (W Hh : nat) (il al : vector3 A)
    (mt : A) (k : unit -> M A X) (m : model) (g : statics A) (w : world A)
    (fb cb db : handle) (tc td : texture A) (pc pd : list (texel A)) :
  framebuffer_ g = Some fb ->
  framebuffers w !! fb = Some (Framebuffer (Some cb) (Some db)) ->
  textures w !! cb = Some tc -> textures w !! db = Some td -> cb <> db ->
  bind (render_model rasterize vector3_normalize matrix4x4_rotate_y matrix4x4_look_at
                     matrix4x4_perspective W Hh il al mt m) k
       (State g (repainted w cb tc pc db td pd))
  = bind (render_model rasterize vector3_normalize matrix4x4_rotate_y matrix4x4_look_at
                       matrix4x4_perspective W Hh il al mt m) k
         (State g w).
Proof.
  intros Hg Hfb Hc Hd Hne. unfold bind.
  rewrite (render_model_forgets_pixels rasterize vector3_normalize matrix4x4_rotate_y
             matrix4x4_look_at matrix4x4_perspective W Hh il al mt
             m g w fb cb db tc td pc pd Hg Hfb Hc Hd Hne).
  reflexivity.
Qed.

(** C10.  In both drivers the body of the loop, run from two states that
    differ only in the pixels that the colour buffer and the depth buffer
    hold from before, gives the same result: the same state, the same
    calls, the same image passed to [save_image].  And when the mesh of
    the model is live the body returns, and the image it saves is the
    colour buffer it leaves. *)
Theorem frame_independent_of_previous_pixels
    (m : model) (lstd cstd : vector3 A) (i : Z) (g : statics A) (w : world A)
    (fb cb db : handle) (tc td : texture A) (pc pd : list (texel A)) :
  framebuffer_ g = Some fb ->
  color_buffer g = Some cb ->
  framebuffers w !! fb = Some (Framebuffer (Some cb) (Some db)) ->
  textures w !! cb = Some tc -> textures w !! db = Some td -> cb <> db ->
  violin_frame m lstd cstd i (State g (repainted w cb tc pc db td pd))
  = violin_frame m lstd cstd i (State g w)
  /\ eagle_frame m i (State g (repainted w cb tc pc db td pd))
     = eagle_frame m i (State g w)
  /\ (forall mh ms, model_mesh m = Some mh -> meshes w !! mh = Some ms ->
        (exists s img rest,
            violin_frame m lstd cstd i (State g w) = Some (tt, s)
            /\ trace (lib s)
               = EvSaveImage (Some cb) (Violin.image_name i) true img :: rest
            /\ textures (lib s) !! cb = Some img)
        /\ (exists s img rest,
               eagle_frame m i (State g w) = Some (tt, s)
               /\ trace (lib s)
                  = EvSaveImage (Some cb) (Eagle.image_name i) true img :: rest
               /\ textures (lib s) !! cb = Some img)).
Proof.
  intros Hg Hcb Hfb Hc Hd Hne.
  split; [|split].
  - rewrite !violin_frame_body. unfold Violin.render_model.
    apply (bind_render_model_forgets_pixels _ _ _ _ _ _ m _ w fb cb db tc td pc pd);
      assumption.
  - rewrite !eagle_frame_body. unfold Eagle.render_model.
    apply (bind_render_model_forgets_pixels _ _ _ _ _ _ m _ w fb cb db tc td pc pd);
      assumption.
  - intros mh ms Hm Hms. split.
    + rewrite violin_frame_body. unfold Violin.render_model.
      match goal with
      | |- context [bind (render_model _ _ _ _ _ ?W ?Hh ?il ?al ?mt _) _ (State ?g1 _)] =>
          destruct (render_and_save_spec rasterize vector3_normalize matrix4x4_rotate_y
                      matrix4x4_look_at matrix4x4_perspective W Hh il al mt
                      m (Violin.image_name i) g1 w fb cb db mh tc td ms
                      Hg Hcb Hfb Hc Hd Hne Hm Hms)
            as (tc' & td' & E)
      end.
      rewrite E. eexists _, tc', _. split; [reflexivity|]. simpl_world.
      split; [reflexivity|].
      rewrite lookup_insert_ne by auto. apply lookup_insert_eq.
    + rewrite eagle_frame_body. unfold Eagle.render_model.
      match goal with
      | |- context [bind (render_model _ _ _ _ _ ?W ?Hh ?il ?al ?mt _) _ (State ?g1 _)] =>
          destruct (render_and_save_spec rasterize vector3_normalize matrix4x4_rotate_y
                      matrix4x4_look_at matrix4x4_perspective W Hh il al mt
                      m (Eagle.image_name i) g1 w fb cb db mh tc td ms
                      Hg Hcb Hfb Hc Hd Hne Hm Hms)
            as (tc' & td' & E)
      end.
      rewrite E. eexists _, tc', _. split; [reflexivity|]. simpl_world.
      split; [reflexivity|].
      rewrite lookup_insert_ne by auto. apply lookup_insert_eq.
Qed.

End FrameIndependence.

(** * The properties on concrete inputs *)

Lemma sample_violin_assets_available :
  violin_assets_available (sample_environment (A := F32.t)).
Proof.
  unfold violin_assets_available.
  repeat (split; [eexists; reflexivity|]). intros k Hk. reflexivity.
Defined.

Lemma sample_allocations (n : nat) :
  forall k, (n <= k < n + 5)%nat -> alloc_ok (sample_environment (A := F32.t)) k = true.
Proof. intros k Hk. reflexivity. Defined.

Lemma scale_bias_remaps_clip_cube_witness :
  let r := matrix4x4_multiply_vector4 scale_bias (Vector4 (1 # 2) 0 (-1) 1)%Q in
  vector4_Qeq r (Vector4 (((1 # 2) + 1) / 2) ((0 + 1) / 2) ((-1 + 1) / 2) 1)%Q
  /\ ((-1 <= 1 # 2 <= 1 -> 0 <= x4 r <= 1)
      /\ (-1 <= 0 <= 1 -> 0 <= y4 r <= 1)
      /\ (-1 <= -1 <= 1 -> 0 <= z4 r <= 1))%Q.
Proof.
  exact (proj2 (proj2 (proj2 (proj2 scale_bias_remaps_clip_cube))) (1 # 2) 0 (-1))%Q.
Defined.

Lemma clear_writes_clear_value_to_every_pixel_witness :
  exists s',
    bind (set_clear_color (of_Z 0) (of_Z 0) (of_Z 0) (of_Z 0))
         (fun _ => clear_framebuffer (Some 2%nat))
         (State (sample_statics (A := F32.t)) sample_world) = Some (tt, s')
    /\ (exists t', textures (lib s') !! 3%nat = Some t'
                   /\ format t' = format (sample_color_buffer (A := F32.t))
                   /\ width t' = width (sample_color_buffer (A := F32.t))
                   /\ height t' = height (sample_color_buffer (A := F32.t))
                   /\ forall x y,
                        (x < width (sample_color_buffer (A := F32.t)))%nat ->
                        (y < height (sample_color_buffer (A := F32.t)))%nat ->
                        texture_pixel t' x y
                        = Some (Color (Vector4 (of_Z 0) (of_Z 0) (of_Z 0) (of_Z 0))))
    /\ (forall db td,
          depth_attachment (Framebuffer (Some 3%nat) (Some 4%nat)) = Some db ->
          textures (lib (State (sample_statics (A := F32.t)) sample_world)) !! db
          = Some td ->
          exists td', textures (lib s') !! db = Some td'
                      /\ forall x y, (x < width td)%nat -> (y < height td)%nat ->
                                     texture_pixel td' x y = Some (Depth CLEAR_DEPTH)).
Proof.
  apply (clear_writes_clear_value_to_every_pixel
           (State (sample_statics (A := F32.t)) sample_world) 2%nat 3%nat
           (Framebuffer (Some 3%nat) (Some 4%nat)) sample_color_buffer
           (of_Z 0) (of_Z 0) (of_Z 0) (of_Z 0)).
  - vm_compute. reflexivity.
  - reflexivity.
  - vm_compute. reflexivity.
  - intros db E. injection E as <-. split; [lia|]. eexists. vm_compute. reflexivity.
Defined.

Lemma light_matrix_zero_and_shadow_map_untouched_witness :
  ((forall n, exists m s1 s,
       Violin.load sample_environment (violin_start sample_PI) = Some (Some m, s1)
       /\ Violin.animate sample_environment sample_rasterizer sample_normalize
            sample_rotate_y sample_look_at sample_perspective m n s1 = Some (tt, s)
       /\ light_world2clip (globals s) = matrix4x4_zero (A := F32.t)
       /\ shadow_framebuffer (globals s) = Some 5%nat
       /\ shadow_map (globals s) = Some 6%nat
       /\ textures (lib s) !! 6%nat
          = Some (Texture TEXTURE_FORMAT_DEPTH_FLOAT 1 1 [Depth (of_Z 1)])
       /\ framebuffers (lib s) !! 5%nat = Some (Framebuffer None (Some 6%nat)))
   /\ exists s,
       Violin.run sample_environment sample_rasterizer sample_PI sample_normalize
         sample_rotate_y sample_look_at sample_perspective = Some (0, s)
       /\ forallb (fun e => negb (shadow_pass_event (Some 5%nat) e)) (trace (lib s)) = true
       /\ Forall (fun u => world2light u = matrix4x4_multiply scale_bias matrix4x4_zero
                           /\ world2light u = matrix4x4_zero (A := F32.t)
                           /\ u_shadow_map u = Some 6%nat)
                 (drawn_uniforms (trace (lib s))))
  /\ exists s tr,
       Eagle.animate sample_environment sample_rasterizer sample_normalize
         sample_rotate_y sample_look_at sample_perspective eagle_loaded_model 135%nat
         (State (Eagle.initial_statics sample_PI) eagle_loaded_world) = Some (tt, s)
       /\ light_world2clip (globals s) = matrix4x4_zero (A := F32.t)
       /\ textures (lib s) !! 6%nat
          = Some (Texture TEXTURE_FORMAT_DEPTH_FLOAT 1 1 [Depth (of_Z 1)])
       /\ trace (lib s) = tr
       /\ forallb (fun e => negb (shadow_pass_event (Some 5%nat) e)) tr = true
       /\ Forall (fun u => world2light u = matrix4x4_multiply scale_bias matrix4x4_zero
                           /\ world2light u = matrix4x4_zero (A := F32.t)
                           /\ u_shadow_map u = Some 6%nat)
                 (drawn_uniforms tr).
Proof.
  pose proof (light_matrix_zero_and_shadow_map_untouched
                sample_environment sample_rasterizer sample_PI sample_normalize
                sample_rotate_y sample_look_at sample_perspective)
    as (Hv & _ & _ & He).
  split; [exact (Hv sample_violin_assets_available)|].
  destruct (He eagle_loaded_model 0%nat sample_mesh (Eagle.initial_statics sample_PI)
              eagle_loaded_world 135%nat eq_refl eq_refl (sample_allocations 5%nat)
              eq_refl)
    as (s & tr & E & (Hz & _ & _ & Ht & _) & Htr & Hs & Hu).
  exists s, tr. split; [exact E|]. split; [exact Hz|]. split; [exact Ht|].
  split; [rewrite Htr; apply app_nil_r|]. split; [exact Hs|exact Hu].
Defined.

Lemma one_image_per_frame_named_by_index_witness :
  (exists s,
      Violin.run (A := F32.t) sample_environment sample_rasterizer sample_PI
        sample_normalize sample_rotate_y sample_look_at sample_perspective = Some (0, s)
      /\ saved_names (trace (lib s)) = map Violin.image_name (map Z.of_nat (seq 0 135)))
  /\ (exists s,
         Eagle.animate (A := F32.t) sample_environment sample_rasterizer
           sample_normalize sample_rotate_y sample_look_at sample_perspective
           eagle_loaded_model (Z.to_nat (frame_count (A := F32.t)))
           (State (Eagle.initial_statics sample_PI) eagle_loaded_world) = Some (tt, s)
         /\ saved_names (trace (lib s)) = map Eagle.image_name (map Z.of_nat (seq 0 135)))
  /\ (format_d 3 7 = three_digits 7
      /\ Violin.image_name 7 = ("violin/v-" ++ three_digits 7 ++ ".tga")%string
      /\ Eagle.image_name 7 = ("eagle/e-" ++ three_digits 7 ++ ".tga")%string)
  /\ (string_ltb (Violin.image_name 9) (Violin.image_name 10) = true
      /\ string_ltb (Eagle.image_name 9) (Eagle.image_name 10) = true).
Proof.
  pose proof (one_image_per_frame_named_by_index
                sample_environment sample_rasterizer sample_PI sample_normalize
                sample_rotate_y sample_look_at sample_perspective)
    as (Hv & He & Hd & Ho).
  split; [exact (Hv sample_violin_assets_available)|].
  split.
  { destruct (He eagle_loaded_model 0%nat sample_mesh (Eagle.initial_statics sample_PI)
                eagle_loaded_world eq_refl eq_refl (sample_allocations 5%nat))
      as (s & tr & E & Htr & Hs).
    exists s. split; [exact E|]. rewrite Htr, saved_names_app. exact Hs. }
  split; [apply Hd; lia|].
  apply Ho; lia.
Defined.

Lemma eagle_rotation_schedule_witness :
  (F32.ltb Eagle.rotation_y_end (Eagle.frame_rotation (A := F32.t) 134) = true
   /\ Eagle.frame_rotation (A := F32.t) 134 <> Eagle.rotation_y_end)
  /\ ~ (Eagle.frame_rotation (A := Q) 134 == - (94 # 100))%Q
  /\ (exists s,
         Eagle.animate sample_environment sample_rasterizer sample_normalize
           sample_rotate_y sample_look_at sample_perspective eagle_loaded_model 135%nat
           (State (Eagle.initial_statics sample_PI) eagle_loaded_world) = Some (tt, s)
         /\ rotation_y (globals s) = Eagle.frame_rotation (A := F32.t) 134).
Proof.
  pose proof (eagle_rotation_schedule
                sample_environment sample_rasterizer sample_normalize
                sample_rotate_y sample_look_at sample_perspective)
    as (_ & _ & _ & _ & Habove & _ & Hexact & Hrun).
  split; [apply Habove; lia|].
  split; [apply (proj2 (Hexact 134)); lia|].
  exact (proj1 (Hrun eagle_loaded_model 0%nat sample_mesh
                  (Eagle.initial_statics sample_PI) eagle_loaded_world
                  eq_refl eq_refl (sample_allocations 5%nat)) 134%nat).
Defined.

Lemma failed_load_exits_cleanly_witness :
  (exists s,
      Violin.run (A := F32.t) environment_without_normal_map
        sample_rasterizer sample_PI sample_normalize sample_rotate_y sample_look_at
        sample_perspective = Some (0, s)
      /\ trace (lib s)
         = [EvDestroyTexture (Some 3%nat); EvDestroyTexture (Some 2%nat);
            EvDestroyTexture None; EvDestroyTexture (Some 1%nat);
            EvDestroyMesh (Some 0%nat);
            EvPrintf ("Cannot load texture files." ++ newline);
            EvLoadImage Violin.roughness_map_path false (Some 3%nat);
            EvLoadImage Violin.metallic_map_path false (Some 2%nat);
            EvLoadImage Violin.normal_map_path false None;
            EvLoadImage Violin.base_color_map_path true (Some 1%nat);
            EvLoadMesh Violin.model_path (Some 0%nat)]
      /\ textures (lib s) = ∅ /\ meshes (lib s) = ∅)
  /\ (exists s,
         Eagle.run (A := F32.t) environment_failing_allocation
           sample_rasterizer sample_PI sample_normalize sample_rotate_y sample_look_at
           sample_perspective = Some (0, s)
         /\ trace (lib s)
            = [EvDestroyTexture (Some 4%nat); EvDestroyTexture None;
               EvDestroyTexture (Some 2%nat); EvDestroyTexture (Some 1%nat);
               EvDestroyMesh (Some 0%nat);
               EvPrintf ("Cannot load texture files." ++ newline);
               EvCreateTexture TEXTURE_FORMAT_R8 1 1 (Some 4%nat);
               EvCreateTexture TEXTURE_FORMAT_R8 1 1 None;
               EvCreateTexture TEXTURE_FORMAT_RGBA8 1 1 (Some 2%nat);
               EvLoadImage Eagle.base_color_map_path true (Some 1%nat);
               EvLoadMesh Eagle.model_path (Some 0%nat)]
         /\ textures (lib s) = ∅ /\ meshes (lib s) = ∅).
Proof.
  split.
  - destruct (failed_load_exits_cleanly environment_without_normal_map
                sample_rasterizer sample_PI sample_normalize sample_rotate_y
                sample_look_at sample_perspective)
      as ((r & s1 & E & Hiff & Hfail) & _).
    assert (E' : Some (r, s1) = Violin.load _ (violin_start (A := F32.t) sample_PI))
      by (symmetry; exact E).
    vm_compute in E'. injection E' as -> ->.
    destruct (Hfail eq_refl) as (Hrun & _ & _ & Ht & Hm & _).
    eexists. split; [exact Hrun|]. repeat split.
  - destruct (failed_load_exits_cleanly environment_failing_allocation
                sample_rasterizer sample_PI sample_normalize sample_rotate_y
                sample_look_at sample_perspective)
      as (_ & Hfail & _).
    destruct Hfail as (s1 & E & _ & Hrun & _ & _ & Ht & Hm & _).
    { right. right. right. left. reflexivity. }
    assert (E' : Some (None, s1) = Eagle.load _ (eagle_start (A := F32.t) sample_PI))
      by (symmetry; exact E).
    vm_compute in E'. injection E' as ->.
    eexists. split; [exact Hrun|]. repeat split.
Defined.

Lemma frame_independent_of_previous_pixels_witness :
  Violin.frame (A := F32.t) sample_rasterizer sample_normalize sample_rotate_y
    sample_look_at sample_perspective sample_model VECTOR3_ONE VECTOR3_ONE 3
    (State sample_statics
       (with_textures
          (<[4%nat := Texture (format sample_depth_buffer) (width sample_depth_buffer)
                              (height sample_depth_buffer) other_depth_pixels]>
             (<[3%nat := Texture (format sample_color_buffer) (width sample_color_buffer)
                                 (height sample_color_buffer) other_color_pixels]>
                (textures sample_world)))
          sample_world))
  = Violin.frame sample_rasterizer sample_normalize sample_rotate_y
      sample_look_at sample_perspective sample_model VECTOR3_ONE VECTOR3_ONE 3
      (State sample_statics sample_world)
  /\ Eagle.frame (A := F32.t) sample_rasterizer sample_normalize sample_rotate_y
       sample_look_at sample_perspective sample_model 3
       (State sample_statics
          (with_textures
             (<[4%nat := Texture (format sample_depth_buffer) (width sample_depth_buffer)
                                 (height sample_depth_buffer) other_depth_pixels]>
                (<[3%nat := Texture (format sample_color_buffer)
                                    (width sample_color_buffer)
                                    (height sample_color_buffer) other_color_pixels]>
                   (textures sample_world)))
             sample_world))
     = Eagle.frame sample_rasterizer sample_normalize sample_rotate_y
         sample_look_at sample_perspective sample_model 3
         (State sample_statics sample_world).
Proof.
  pose proof (frame_independent_of_previous_pixels (A := F32.t)
                sample_rasterizer sample_normalize sample_rotate_y sample_look_at
                sample_perspective sample_model VECTOR3_ONE VECTOR3_ONE 3
                sample_statics sample_world 2%nat 3%nat 4%nat
                sample_color_buffer sample_depth_buffer
                other_color_pixels other_depth_pixels) as Hthm.
  assert (H1 : framebuffer_ (sample_statics (A := F32.t)) = Some 2%nat) by reflexivity.
  assert (H2 : color_buffer (sample_statics (A := F32.t)) = Some 3%nat) by reflexivity.
  assert (H3 : framebuffers (sample_world (A := F32.t)) !! 2%nat
               = Some (Framebuffer (Some 3%nat) (Some 4%nat)))
    by (vm_compute; reflexivity).
  assert (H4 : textures (sample_world (A := F32.t)) !! 3%nat = Some sample_color_buffer)
    by (vm_compute; reflexivity).
  assert (H5 : textures (sample_world (A := F32.t)) !! 4%nat = Some sample_depth_buffer)
    by (vm_compute; reflexivity).
  assert (H6 : 3%nat <> 4%nat) by lia.
  destruct (Hthm H1 H2 H3 H4 H5 H6) as (Ev & Ee & _).
  split; [exact Ev|exact Ee].
Defined.

(** The rasterizer of the concrete inputs does tell the repainted colour
    buffer from the original: without the clear of [render_model] the two
    frames above would differ. *)
Example sample_rasterizer_sees_pixels :
  fst (sample_rasterizer (A := F32.t) (0, 0, 2, 2) None None ∅
         (Some sample_color_buffer) None
         (uniform_with_light matrix4x4_zero None) sample_triangle)
  <> fst (sample_rasterizer (A := F32.t) (0, 0, 2, 2) None None ∅
            (Some (Texture (format sample_color_buffer) (width sample_color_buffer)
                           (height sample_color_buffer) other_color_pixels)) None
            (uniform_with_light matrix4x4_zero None) sample_triangle).
Proof. vm_compute. discriminate. Qed.


(** * Further properties of the drivers *)

(** ** [initialize_rendering], [end_rendering] and [render_model] *)

Section SetupFacts.
Context {A : Type} `{Scalar A}.
Variable env : environment A.
Variable rasterize : rasterizer A.
Variable vector3_normalize : vector3 A -> vector3 A.
Variable matrix4x4_rotate_y : A -> matrix4x4 A.
Variable matrix4x4_look_at : vector3 A -> vector3 A -> vector3 A -> matrix4x4 A.
Variable matrix4x4_perspective : A -> A -> A -> A -> matrix4x4 A.
Variable IMAGE_WIDTH IMAGE_HEIGHT : nat.
Variable the_illuminance : vector3 A.
Variable the_ambient_luminance : vector3 A.
Variable the_metallic : A.

Local Notation "'render_model_'" :=
  (render_model rasterize vector3_normalize matrix4x4_rotate_y matrix4x4_look_at
                matrix4x4_perspective IMAGE_WIDTH IMAGE_HEIGHT the_illuminance
                the_ambient_luminance the_metallic).
Local Notation "'make_uniform_'" :=
  (make_uniform vector3_normalize matrix4x4_rotate_y matrix4x4_look_at
                matrix4x4_perspective IMAGE_WIDTH IMAGE_HEIGHT the_illuminance
                the_ambient_luminance the_metallic).
Local Notation "'black'" := (Vector4 (lit 0 10) (lit 0 10) (lit 0 10) (lit 0 10)).

(** The five calls [render_model] makes before it draws, latest first. *)
Local Notation "'setup_events' fb" :=
  [EvClearFramebuffer fb; EvSetClearColor black;
   EvSetFragmentShader standard_fragment_shader;
   EvSetVertexShader standard_vertex_shader;
   EvSetViewport 0 0 (Z.of_nat IMAGE_WIDTH) (Z.of_nat IMAGE_HEIGHT)]
  (at level 10, fb at level 9).

(** [render_model] up to its loop: the rasterizer is set up, the two
    attachments are cleared, and the loop over the triangles starts from
    there. *)
Lemma render_model_clears_then_draws (m : model) (g : statics A) (w : world A)
    (fb cb db mh : handle) (tc td : texture A) (ms : mesh A) :
  framebuffer_ g = Some fb ->
  framebuffers w !! fb = Some (Framebuffer (Some cb) (Some db)) ->
  textures w !! cb = Some tc -> textures w !! db = Some td -> cb <> db ->
  model_mesh m = Some mh -> meshes w !! mh = Some ms ->
  render_model_ m (State g w)
  = for_each (triangles ms)
      (fun t => draw_triangle rasterize (Some fb) (make_uniform_ g m) t)
      (State g (World (<[db := cleared (Depth CLEAR_DEPTH) td]>
                         (<[cb := cleared (Color black) tc]> (textures w)))
                      (framebuffers w) (meshes w) (next w)
                      (0, 0, Z.of_nat IMAGE_WIDTH, Z.of_nat IMAGE_HEIGHT)
                      (Some standard_vertex_shader) (Some standard_fragment_shader)
                      black (setup_events (Some fb) ++ trace w))).
Proof.
  intros Hg Hfb Hc Hd Hne Hm Hms.
  unfold render_model.
  unfold bind at 1. unfold set_viewport at 1, call at 1. simpl_world.
  unfold bind at 1. unfold set_vertex_shader at 1, call at 1. simpl_world.
  unfold bind at 1. unfold set_fragment_shader at 1, call at 1. simpl_world.
  unfold bind at 1. unfold set_clear_color at 1, call at 1. simpl_world.
  unfold bind at 1. unfold read at 1. simpl_world. rewrite Hg.
  erewrite bind_Some; cycle 1.
  { apply (clear_framebuffer_attached _ fb cb db tc td); simpl_world; auto. }
  unfold bind at 1. unfold read at 1. simpl_world. cbn [id].
  unfold bind at 1. unfold mesh_triangles, call. rewrite Hm.
  simpl_world. rewrite Hms. reflexivity.
Qed.

Lemma drawn_triangles_app (a b : list (event A)) :
  drawn_triangles (a ++ b) = drawn_triangles b ++ drawn_triangles a.
Proof.
  induction a as [|e a IH]; cbn [app drawn_triangles].
  - rewrite app_nil_r. reflexivity.
  - destruct e; try exact IH. rewrite IH, app_assoc. reflexivity.
Qed.

Lemma drawn_triangles_draws (fb : ptr) (u : standard_uniform A) (ts : list (triangle A)) :
  drawn_triangles (rev (map (EvDrawTriangle fb u) ts)) = ts.
Proof.
  induction ts as [|t ts IH]; [reflexivity|].
  cbn [map rev]. rewrite drawn_triangles_app, IH. reflexivity.
Qed.

Lemma is_draw_draws (fb : ptr) (u : standard_uniform A) (ts : list (triangle A)) :
  forallb is_draw (rev (map (EvDrawTriangle fb u) ts)) = true.
Proof.
  induction ts as [|t ts IH]; [reflexivity|].
  cbn [map rev]. rewrite forallb_app, IH. reflexivity.
Qed.

Lemma no_clear_in_draws (fb : ptr) (u : standard_uniform A) (ts : list (triangle A)) :
  filter is_clear (rev (map (EvDrawTriangle fb u) ts)) = [].
Proof.
  induction ts as [|t ts IH]; [reflexivity|].
  cbn [map rev]. rewrite filter_app, IH. reflexivity.
Qed.

(** X1.  When its five allocations succeed, [initialize_rendering]
    returns with the five statics pointing to five new objects: a shadow
    framebuffer whose only attachment is the 1x1 depth texture holding
    1.0, and a framebuffer whose colour and depth attachments are two
    textures of [IMAGE_WIDTH] x [IMAGE_HEIGHT] pixels, of formats sRGB8-A8
    and depth-float.  The objects that lived before, the meshes and the
    other statics are as they were. *)
Theorem initialize_rendering_sets_up_both_framebuffers (g : statics A) (w : world A) :
  (forall k, (next w <= k < next w + 5)%nat -> alloc_ok env k = true) ->
  exists s',
    initialize_rendering env IMAGE_WIDTH IMAGE_HEIGHT (State g w) = Some (tt, s')
    /\ globals s' = initialized (next w) g
    /\ framebuffers (lib s') !! next w = Some (Framebuffer None (Some (S (next w))))
    /\ framebuffers (lib s') !! S (S (next w))
       = Some (Framebuffer (Some (S (S (S (next w))))) (Some (S (S (S (S (next w)))))))
    /\ textures (lib s') !! S (next w)
       = Some (Texture TEXTURE_FORMAT_DEPTH_FLOAT 1 1 [Depth (lit 10 10)])
    /\ (exists tc, textures (lib s') !! S (S (S (next w))) = Some tc
                   /\ format tc = TEXTURE_FORMAT_SRGB8_A8
                   /\ width tc = IMAGE_WIDTH /\ height tc = IMAGE_HEIGHT
                   /\ length (pixels tc) = (IMAGE_WIDTH * IMAGE_HEIGHT)%nat)
    /\ (exists td, textures (lib s') !! S (S (S (S (next w)))) = Some td
                   /\ format td = TEXTURE_FORMAT_DEPTH_FLOAT
                   /\ width td = IMAGE_WIDTH /\ height td = IMAGE_HEIGHT
                   /\ length (pixels td) = (IMAGE_WIDTH * IMAGE_HEIGHT)%nat)
    /\ (forall k, (k < next w)%nat ->
          textures (lib s') !! k = textures w !! k
          /\ framebuffers (lib s') !! k = framebuffers w !! k)
    /\ meshes (lib s') = meshes w
    /\ next (lib s') = (next w + 5)%nat.
Proof.
  intros Halloc. eexists. split.
  { apply (initialize_rendering_spec env IMAGE_WIDTH IMAGE_HEIGHT g w Halloc). }
  cbn [globals lib framebuffers textures meshes next].
  split; [reflexivity|].
  split; [rewrite lookup_insert_ne by lia; apply lookup_insert_eq|].
  split; [apply lookup_insert_eq|].
  split; [rewrite !lookup_insert_ne by lia; apply lookup_insert_eq|].
  split.
  { eexists. split; [rewrite lookup_insert_ne by lia; apply lookup_insert_eq|].
    cbn [format width height pixels]. rewrite length_replicate. repeat split. }
  split.
  { eexists. split; [apply lookup_insert_eq|].
    cbn [format width height pixels]. rewrite length_replicate. repeat split. }
  split.
  { intros k Hk. rewrite !lookup_insert_ne by lia. split; reflexivity. }
  split; [reflexivity|lia].
Qed.

(** X2.  [initialize_rendering] followed by [end_rendering] returns and
    leaves the textures, the framebuffers and the meshes exactly as they
    were before: each of the five objects is destroyed once.
    [end_rendering] does not reset the statics: the five pointers keep
    their values, which no longer name a live object. *)
Theorem end_rendering_releases_what_initialize_rendering_created
    (g : statics A) (w : world A) :
  (forall k, (next w <= k < next w + 5)%nat -> alloc_ok env k = true) ->
  handles_fresh w ->
  exists s',
    bind (initialize_rendering env IMAGE_WIDTH IMAGE_HEIGHT) (fun _ => end_rendering)
         (State g w) = Some (tt, s')
    /\ textures (lib s') = textures w
    /\ framebuffers (lib s') = framebuffers w
    /\ meshes (lib s') = meshes w
    /\ globals s' = initialized (next w) g
    /\ textures (lib s') !! S (next w) = None
    /\ textures (lib s') !! S (S (S (next w))) = None
    /\ textures (lib s') !! S (S (S (S (next w)))) = None
    /\ framebuffers (lib s') !! next w = None
    /\ framebuffers (lib s') !! S (S (next w)) = None.
Proof.
  intros Halloc Hfresh.
  rewrite (bind_Some _ _ _ _ _ (initialize_rendering_spec env IMAGE_WIDTH IMAGE_HEIGHT
                                   g w Halloc)).
  erewrite (end_rendering_spec _ _ (next w) (S (next w)) (S (S (next w)))
              (S (S (S (next w)))) (S (S (S (S (next w))))));
    simpl_world; try reflexivity; try lia; cycle 1.
  { rewrite !lookup_insert_ne by lia. apply lookup_insert_eq. }
  { rewrite !lookup_insert_ne by lia. apply lookup_insert_eq. }
  { apply lookup_insert_eq. }
  { rewrite !lookup_insert_ne by lia. apply lookup_insert_eq. }
  { apply lookup_insert_eq. }
  eexists. split; [reflexivity|]. cbn [lib globals textures framebuffers meshes].
  match goal with
  | |- ?t = _ /\ ?f = _ /\ _ =>
      assert (Et : t = textures w);
      [|assert (Ef : f = framebuffers w); [|rewrite Et, Ef]]
  end.
  { apply map_eq. intros k. rewrite !lookup_delete, !lookup_insert.
    repeat case_decide; subst; try reflexivity; symmetry; apply Hfresh; lia. }
  { apply map_eq. intros k. rewrite !lookup_delete, !lookup_insert.
    repeat case_decide; subst; try reflexivity; symmetry; apply Hfresh; lia. }
  split; [reflexivity|]. split; [reflexivity|]. split; [reflexivity|].
  split; [reflexivity|].
  repeat split; apply Hfresh; lia.
Qed.

(** X3.  [render_model], called with the framebuffer of
    [initialize_rendering] and a model whose mesh is live, returns; it
    writes no static, creates and destroys nothing, and changes no texture
    other than the two attachments of the framebuffer: the maps of the
    model and the shadow map are as they were.  It leaves the viewport at
    the size of the image, the standard stages selected and the clear
    colour at (0,0,0,0). *)
Theorem render_model_changes_only_the_attachments
    (m : model) (g : statics A) (w : world A)
    (fb cb db mh : handle) (tc td : texture A) (ms : mesh A) :
  framebuffer_ g = Some fb ->
  framebuffers w !! fb = Some (Framebuffer (Some cb) (Some db)) ->
  textures w !! cb = Some tc -> textures w !! db = Some td -> cb <> db ->
  model_mesh m = Some mh -> meshes w !! mh = Some ms ->
  exists s',
    render_model_ m (State g w) = Some (tt, s')
    /\ globals s' = g
    /\ framebuffers (lib s') = framebuffers w
    /\ meshes (lib s') = meshes w
    /\ next (lib s') = next w
    /\ (forall k, k <> cb -> k <> db -> textures (lib s') !! k = textures w !! k)
    /\ is_Some (textures (lib s') !! cb)
    /\ is_Some (textures (lib s') !! db)
    /\ viewport (lib s') = (0, 0, Z.of_nat IMAGE_WIDTH, Z.of_nat IMAGE_HEIGHT)
    /\ current_vertex_shader (lib s') = Some standard_vertex_shader
    /\ current_fragment_shader (lib s') = Some standard_fragment_shader
    /\ clear_color (lib s') = black.
Proof.
  intros Hg Hfb Hc Hd Hne Hm Hms.
  destruct (render_model_spec rasterize vector3_normalize matrix4x4_rotate_y
              matrix4x4_look_at matrix4x4_perspective IMAGE_WIDTH IMAGE_HEIGHT
              the_illuminance the_ambient_luminance the_metallic
              m g w fb cb db mh tc td ms Hg Hfb Hc Hd Hne Hm Hms) as (tc' & td' & E).
  eexists. split; [exact E|].
  cbn [globals lib framebuffers meshes next textures viewport current_vertex_shader
       current_fragment_shader clear_color].
  repeat (split; [reflexivity|]).
  split.
  { intros k Hkc Hkd. rewrite !lookup_insert_ne by auto. reflexivity. }
  split.
  { exists tc'. rewrite lookup_insert_ne by auto. apply lookup_insert_eq. }
  split.
  { exists td'. apply lookup_insert_eq. }
  repeat split.
Qed.

(** X4.  One call of [render_model] clears the framebuffer once, before
    any triangle is drawn, and then draws every triangle of the mesh of
    the model exactly once, in the order of the mesh, into the framebuffer
    of the statics and all with the same uniform block, the one built from
    the statics and the model at the call. *)
Theorem render_model_draws_each_triangle_once
    (m : model) (g : statics A) (w : world A)
    (fb cb db mh : handle) (tc td : texture A) (ms : mesh A) :
  framebuffer_ g = Some fb ->
  framebuffers w !! fb = Some (Framebuffer (Some cb) (Some db)) ->
  textures w !! cb = Some tc -> textures w !! db = Some td -> cb <> db ->
  model_mesh m = Some mh -> meshes w !! mh = Some ms ->
  exists s' draws,
    render_model_ m (State g w) = Some (tt, s')
    /\ trace (lib s') = draws ++ setup_events (Some fb) ++ trace w
    /\ draws = rev (map (EvDrawTriangle (Some fb) (make_uniform_ g m)) (triangles ms))
    /\ forallb is_draw draws = true
    /\ drawn_triangles draws = triangles ms
    /\ length draws = length (triangles ms)
    /\ Forall (eq (make_uniform_ g m)) (drawn_uniforms draws)
    /\ filter is_clear (draws ++ setup_events (Some fb)) = [EvClearFramebuffer (Some fb)].
Proof.
  intros Hg Hfb Hc Hd Hne Hm Hms.
  destruct (render_model_spec rasterize vector3_normalize matrix4x4_rotate_y
              matrix4x4_look_at matrix4x4_perspective IMAGE_WIDTH IMAGE_HEIGHT
              the_illuminance the_ambient_luminance the_metallic
              m g w fb cb db mh tc td ms Hg Hfb Hc Hd Hne Hm Hms) as (tc' & td' & E).
  eexists. exists (rev (map (EvDrawTriangle (Some fb) (make_uniform_ g m)) (triangles ms))).
  split; [exact E|]. cbn [lib trace]. unfold render_events.
  split; [rewrite <- app_assoc; reflexivity|].
  split; [reflexivity|].
  split; [apply is_draw_draws|].
  split; [apply drawn_triangles_draws|].
  split; [rewrite length_rev, length_map; reflexivity|].
  split; [apply drawn_uniforms_draws|].
  rewrite filter_app, no_clear_in_draws. reflexivity.
Qed.

(** With a mesh that has no triangle [render_model] leaves the two
    attachments cleared. *)
Lemma render_model_empty_mesh (m : model) (g : statics A) (w : world A)
    (fb cb db mh : handle) (tc td : texture A) (ms : mesh A) :
  framebuffer_ g = Some fb ->
  framebuffers w !! fb = Some (Framebuffer (Some cb) (Some db)) ->
  textures w !! cb = Some tc -> textures w !! db = Some td -> cb <> db ->
  model_mesh m = Some mh -> meshes w !! mh = Some ms -> triangles ms = [] ->
  render_model_ m (State g w)
  = Some (tt, State g (World (<[db := cleared (Depth CLEAR_DEPTH) td]>
                                (<[cb := cleared (Color black) tc]> (textures w)))
                             (framebuffers w) (meshes w) (next w)
                             (0, 0, Z.of_nat IMAGE_WIDTH, Z.of_nat IMAGE_HEIGHT)
                             (Some standard_vertex_shader)
                             (Some standard_fragment_shader)
                             black (setup_events (Some fb) ++ trace w))).
Proof.
  intros Hg Hfb Hc Hd Hne Hm Hms Hts.
  rewrite (render_model_clears_then_draws m g w fb cb db mh tc td ms
             Hg Hfb Hc Hd Hne Hm Hms).
  rewrite Hts. reflexivity.
Qed.

(** The end of the body of the loop, on a mesh that has no triangle. *)
Lemma render_and_save_empty_mesh (m : model) (name : string) (g : statics A)
    (w : world A) (fb cb db mh : handle) (tc td : texture A) (ms : mesh A) :
  framebuffer_ g = Some fb -> color_buffer g = Some cb ->
  framebuffers w !! fb = Some (Framebuffer (Some cb) (Some db)) ->
  textures w !! cb = Some tc -> textures w !! db = Some td -> cb <> db ->
  model_mesh m = Some mh -> meshes w !! mh = Some ms -> triangles ms = [] ->
  bind (render_model_ m)
       (fun _ => bind (read color_buffer) (fun p => save_image p name true))
       (State g w)
  = Some (tt, State g (World (<[db := cleared (Depth CLEAR_DEPTH) td]>
                                (<[cb := cleared (Color black) tc]> (textures w)))
                             (framebuffers w) (meshes w) (next w)
                             (0, 0, Z.of_nat IMAGE_WIDTH, Z.of_nat IMAGE_HEIGHT)
                             (Some standard_vertex_shader)
                             (Some standard_fragment_shader)
                             black
                             (EvSaveImage (Some cb) name true (cleared (Color black) tc)
                              :: setup_events (Some fb) ++ trace w))).
Proof.
  intros Hg Hcb Hfb Hc Hd Hne Hm Hms Hts.
  rewrite (bind_Some _ _ _ _ _
             (render_model_empty_mesh m g w fb cb db mh tc td ms
                Hg Hfb Hc Hd Hne Hm Hms Hts)).
  unfold bind, read, save_image, call. simpl_world. rewrite Hcb.
  rewrite lookup_insert_ne by auto. rewrite lookup_insert_eq. reflexivity.
Qed.

End SetupFacts.

(** ** The calls and the statics of the loop of [main] *)

Section TraceFacts.
Context {A : Type} `{Scalar A}.
Variable env : environment A.
Variable rasterize : rasterizer A.
Variable vector3_normalize : vector3 A -> vector3 A.
Variable matrix4x4_rotate_y : A -> matrix4x4 A.
Variable matrix4x4_look_at : vector3 A -> vector3 A -> vector3 A -> matrix4x4 A.
Variable matrix4x4_perspective : A -> A -> A -> A -> matrix4x4 A.
Variable IMAGE_WIDTH IMAGE_HEIGHT : nat.
Variable the_illuminance : vector3 A.
Variable the_ambient_luminance : vector3 A.
Variable the_metallic : A.

Local Notation "'render_model_'" :=
  (render_model rasterize vector3_normalize matrix4x4_rotate_y matrix4x4_look_at
                matrix4x4_perspective IMAGE_WIDTH IMAGE_HEIGHT the_illuminance
                the_ambient_luminance the_metallic).
Local Notation "'make_uniform_'" :=
  (make_uniform vector3_normalize matrix4x4_rotate_y matrix4x4_look_at
                matrix4x4_perspective IMAGE_WIDTH IMAGE_HEIGHT the_illuminance
                the_ambient_luminance the_metallic).

Lemma statics_after_same_pointers (upd : Z -> statics A -> statics A) (n : nat)
    (g : statics A) :
  (forall i g, same_pointers g (upd i g)) -> same_pointers g (statics_after upd n g).
Proof.
  intros Hupd. induction n as [|n IH]; cbn [statics_after].
  - apply same_pointers_refl.
  - eapply same_pointers_trans; [exact IH|apply Hupd].
Qed.

Lemma frames_events_ext (f f' : nat -> list (event A)) (n : nat) :
  (forall k, (k < n)%nat -> f k = f' k) -> frames_events f n = frames_events f' n.
Proof.
  induction n as [|n IH]; intros E; [reflexivity|].
  cbn [frames_events]. rewrite (E n) by lia. rewrite IH; [reflexivity|].
  intros k Hk. apply E. lia.
Qed.

(** The calls of one more frame. *)
Lemma frames_events_update (fb cb : handle) (w h : nat) (name : Z -> string)
    (uniform : nat -> standard_uniform A) (ts : list (triangle A))
    (image : nat -> texture A) (t : texture A) (n : nat) :
  frames_events
    (frame_calls fb cb w h name uniform ts (fun k => if Nat.eqb k n then t else image k))
    (S n)
  = frame_calls fb cb w h name uniform ts (fun _ => t) n
    ++ frames_events (frame_calls fb cb w h name uniform ts image) n.
Proof.
  cbn [frames_events]. f_equal.
  - unfold frame_calls. rewrite Nat.eqb_refl. reflexivity.
  - apply frames_events_ext. intros k Hk. unfold frame_calls.
    destruct (Nat.eqb_spec k n); [lia|reflexivity].
Qed.

(** The loop of [main], with the statics and the calls of each
    iteration: iteration [k] renders with the uniform block built from the
    statics it has just written, and saves the colour buffer it has just
    rendered. *)
Lemma animation_trace (m : model) (upd : Z -> statics A -> statics A)
    (name : Z -> string) (body : Z -> M A unit)
    (fb cb db mh : handle) (ms : mesh A) :
  (forall i g w,
      body i (State g w)
      = bind (render_model_ m)
             (fun _ => bind (read color_buffer) (fun p => save_image p (name i) true))
             (State (upd i g) w)) ->
  (forall i g, same_pointers g (upd i g)) ->
  cb <> db -> model_mesh m = Some mh ->
  forall (n : nat) (g : statics A) (w : world A) (tc td : texture A),
    framebuffer_ g = Some fb -> color_buffer g = Some cb ->
    framebuffers w !! fb = Some (Framebuffer (Some cb) (Some db)) ->
    textures w !! cb = Some tc -> textures w !! db = Some td ->
    meshes w !! mh = Some ms ->
    exists tc' td' vp vs fs cc image,
      for_loop n body (State g w)
      = Some (tt, State (statics_after upd n g)
                    (World (<[db := td']> (<[cb := tc']> (textures w)))
                           (framebuffers w) (meshes w) (next w) vp vs fs cc
                           (frames_events
                              (frame_calls fb cb IMAGE_WIDTH IMAGE_HEIGHT name
                                 (fun k => make_uniform_ (statics_after upd (S k) g) m)
                                 (triangles ms) image) n
                            ++ trace w)))
      /\ match n with
         | O => tc' = tc
         | S k => tc' = image k
         end.
Proof.
  intros Hbody Hupd Hne Hm.
  induction n as [|n IH]; intros g w tc td Hg Hcb Hfb Hc Hd Hms.
  - exists tc, td, (viewport w), (current_vertex_shader w),
      (current_fragment_shader w), (clear_color w), (fun _ => tc).
    cbn [for_loop statics_after frames_events app]. unfold ret.
    rewrite (insert_id (textures w) cb tc) by exact Hc.
    rewrite (insert_id (textures w) db td) by exact Hd.
    destruct w. split; reflexivity.
  - destruct (IH g w tc td Hg Hcb Hfb Hc Hd Hms)
      as (tc1 & td1 & vp & vs & fs & cc & image & E & _).
    cbn [for_loop]. rewrite (bind_Some _ _ _ _ _ E). rewrite Hbody.
    pose proof (statics_after_same_pointers upd (S n) g Hupd) as Hp.
    cbn [statics_after] in Hp.
    destruct Hp as (q1 & q2 & q3 & q4 & q5 & q6).
    match goal with
    | |- context [State (upd ?i ?g1) ?w1] =>
        destruct (render_and_save_spec rasterize vector3_normalize matrix4x4_rotate_y
                    matrix4x4_look_at matrix4x4_perspective IMAGE_WIDTH IMAGE_HEIGHT
                    the_illuminance the_ambient_luminance the_metallic
                    m (name i) (upd i g1) w1 fb cb db mh tc1 td1 ms)
          as (tc2 & td2 & E2)
    end; simpl_world; try congruence.
    { rewrite lookup_insert_ne by auto. apply lookup_insert_eq. }
    { apply lookup_insert_eq. }
    rewrite E2. rewrite insert_pair_overwrite.
    exists tc2, td2. eexists _, _, _, _.
    exists (fun k => if Nat.eqb k n then tc2 else image k).
    split; [|rewrite Nat.eqb_refl; reflexivity].
    rewrite frames_events_update, <- app_assoc. reflexivity.
Qed.

(** [initialize_rendering] followed by [n] iterations of the loop. *)
Lemma animate_trace (m : model) (upd : Z -> statics A -> statics A)
    (name : Z -> string) (body : Z -> M A unit) (mh : handle) (ms : mesh A)
    (n : nat) (g : statics A) (w : world A) :
  (forall i g w,
      body i (State g w)
      = bind (render_model_ m)
             (fun _ => bind (read color_buffer) (fun p => save_image p (name i) true))
             (State (upd i g) w)) ->
  (forall i g, same_pointers g (upd i g)) ->
  model_mesh m = Some mh -> meshes w !! mh = Some ms ->
  (forall k, (next w <= k < next w + 5)%nat -> alloc_ok env k = true) ->
  exists tc td vp vs fs cc image,
    bind (initialize_rendering env IMAGE_WIDTH IMAGE_HEIGHT) (fun _ => for_loop n body)
         (State g w)
    = Some (tt, State (statics_after upd n (initialized (next w) g))
                  (World (<[S (S (S (S (next w)))) := td]>
                            (<[S (S (S (next w))) := tc]>
                               (<[S (next w) := default_shadow_map]> (textures w))))
                         (<[S (S (next w)) :=
                              Framebuffer (Some (S (S (S (next w)))))
                                          (Some (S (S (S (S (next w))))))]>
                            (<[next w := Framebuffer None (Some (S (next w)))]>
                               (framebuffers w)))
                         (meshes w) (S (S (S (S (S (next w)))))) vp vs fs cc
                         (frames_events
                            (frame_calls (S (S (next w))) (S (S (S (next w))))
                               IMAGE_WIDTH IMAGE_HEIGHT name
                               (fun k => make_uniform_
                                           (statics_after upd (S k)
                                              (initialized (next w) g)) m)
                               (triangles ms) image) n
                          ++ init_events IMAGE_WIDTH IMAGE_HEIGHT (lit 10 10) (next w)
                          ++ trace w))).
Proof.
  intros Hbody Hupd Hm Hms Halloc.
  rewrite (bind_Some _ _ _ _ _ (initialize_rendering_spec env IMAGE_WIDTH IMAGE_HEIGHT
                                   g w Halloc)).
  match goal with
  | |- context [for_loop n body (State ?g1 ?w1)] =>
      destruct (animation_trace m upd name body (S (S (next w))) (S (S (S (next w))))
                  (S (S (S (S (next w))))) mh ms Hbody Hupd
                  ltac:(lia) Hm n g1 w1
                  (Texture TEXTURE_FORMAT_SRGB8_A8 IMAGE_WIDTH IMAGE_HEIGHT
                           (replicate (IMAGE_WIDTH * IMAGE_HEIGHT) Uninit))
                  (Texture TEXTURE_FORMAT_DEPTH_FLOAT IMAGE_WIDTH IMAGE_HEIGHT
                           (replicate (IMAGE_WIDTH * IMAGE_HEIGHT) Uninit)))
        as (tc & td & vp & vs & fs & cc & image & E & _)
  end; simpl_world; try reflexivity.
  { apply lookup_insert_eq. }
  { rewrite lookup_insert_ne by lia. apply lookup_insert_eq. }
  { apply lookup_insert_eq. }
  { exact Hms. }
  rewrite E, insert_pair_overwrite.
  exists tc, td, vp, vs, fs, cc, image. reflexivity.
Qed.

(** The end of [main] after the loop, on the state the loop leaves:
    [end_rendering] and the release of the model destroy the five objects
    of [initialize_rendering] and the five of the model, and nothing
    else. *)
Lemma finish_state (g : statics A) (w : world A) (tc td : texture A)
    (vp : Z * Z * Z * Z) (vs : option vertex_shader) (fs : option fragment_shader)
    (cc : vector4 A) (tr : list (event A))
    (mh h1 h2 h3 h4 : handle) (ms : mesh A) (t1 t2 t3 t4 : texture A) :
  same_pointers (initialized (next w) g) g ->
  handles_fresh w ->
  meshes w !! mh = Some ms ->
  textures w !! h1 = Some t1 -> textures w !! h2 = Some t2 ->
  textures w !! h3 = Some t3 -> textures w !! h4 = Some t4 ->
  h1 <> h2 -> h1 <> h3 -> h1 <> h4 -> h2 <> h3 -> h2 <> h4 -> h3 <> h4 ->
  bind end_rendering
       (fun _ => bind (release_model
                         (Model (Some mh) (Some h1) (Some h2) (Some h3) (Some h4)))
                      (fun _ => ret 0))
       (State g
          (World (<[S (S (S (S (next w)))) := td]>
                    (<[S (S (S (next w))) := tc]>
                       (<[S (next w) := default_shadow_map]> (textures w))))
                 (<[S (S (next w)) :=
                      Framebuffer (Some (S (S (S (next w)))))
                                  (Some (S (S (S (S (next w))))))]>
                    (<[next w := Framebuffer None (Some (S (next w)))]>
                       (framebuffers w)))
                 (meshes w) (S (S (S (S (S (next w)))))) vp vs fs cc tr))
  = Some (0, State g
               (World (delete h4 (delete h3 (delete h2 (delete h1 (textures w)))))
                      (framebuffers w) (delete mh (meshes w))
                      (S (S (S (S (S (next w)))))) vp vs fs cc
                      ([EvDestroyTexture (Some h4); EvDestroyTexture (Some h3);
                        EvDestroyTexture (Some h2); EvDestroyTexture (Some h1);
                        EvDestroyMesh (Some mh);
                        EvDestroyFramebuffer (Some (S (S (next w))));
                        EvDestroyFramebuffer (Some (next w));
                        EvDestroyTexture (Some (S (S (S (S (next w))))));
                        EvDestroyTexture (Some (S (S (S (next w)))));
                        EvDestroyTexture (Some (S (next w)))] ++ tr))).
Proof.
  intros (P1 & P2 & P3 & P4 & P5 & _) Hfresh Hms T1 T2 T3 T4 N12 N13 N14 N23 N24 N34.
  cbn [initialized shadow_framebuffer shadow_map framebuffer_ color_buffer
       depth_buffer] in P1, P2, P3, P4, P5.
  assert (L : forall h t, textures w !! h = Some t -> (h < next w)%nat).
  { intros h t E. destruct (Nat.lt_ge_cases h (next w)) as [L|L]; [exact L|].
    destruct (Hfresh h L) as (E' & _). congruence. }
  pose proof (L _ _ T1). pose proof (L _ _ T2). pose proof (L _ _ T3).
  pose proof (L _ _ T4).
  erewrite bind_Some; cycle 1.
  { eapply (end_rendering_spec g _ (next w) (S (next w)) (S (S (next w)))
              (S (S (S (next w)))) (S (S (S (S (next w))))));
      simpl_world; try eassumption; try lia.
    - rewrite !lookup_insert_ne by lia. apply lookup_insert_eq.
    - rewrite !lookup_insert_ne by lia. apply lookup_insert_eq.
    - apply lookup_insert_eq.
    - rewrite !lookup_insert_ne by lia. apply lookup_insert_eq.
    - apply lookup_insert_eq. }
  simpl_world.
  erewrite bind_Some; cycle 1.
  { eapply (release_model_spec g _ mh h1 h2 h3 h4 ms t1 t2 t3 t4);
      simpl_world; try assumption;
      rewrite !lookup_delete_ne by lia; rewrite !lookup_insert_ne by lia; assumption. }
  simpl_world. unfold ret.
  match goal with
  | |- Some (_, State _ (World ?t ?f _ _ _ _ _ _ _)) = _ =>
      assert (Et : t = delete h4 (delete h3 (delete h2 (delete h1 (textures w)))));
      [|assert (Ef : f = framebuffers w); [|rewrite Et, Ef; reflexivity]]
  end.
  - apply map_eq. intros k. rewrite !lookup_delete, !lookup_insert, ?lookup_delete.
    repeat case_decide; subst; try reflexivity; try lia;
      symmetry; apply Hfresh; lia.
  - apply map_eq. intros k. rewrite !lookup_delete, !lookup_insert.
    repeat case_decide; subst; try reflexivity; symmetry; apply Hfresh; lia.
Qed.

(** *** Counting the calls of the frames *)

Lemma drawn_triangles_render_events (fb : ptr) (w h : Z) (c : vector4 A)
    (u : standard_uniform A) (ts : list (triangle A)) :
  drawn_triangles (render_events fb w h c u ts) = ts.
Proof.
  unfold render_events. rewrite drawn_triangles_app, drawn_triangles_draws.
  reflexivity.
Qed.

Lemma clears_render_events (fb : ptr) (w h : Z) (c : vector4 A)
    (u : standard_uniform A) (ts : list (triangle A)) :
  filter is_clear (render_events fb w h c u ts) = [EvClearFramebuffer fb].
Proof.
  unfold render_events. rewrite filter_app, no_clear_in_draws. reflexivity.
Qed.

Lemma drawn_triangles_frames (fb cb : handle) (w h : nat) (name : Z -> string)
    (uniform : nat -> standard_uniform A) (ts : list (triangle A))
    (image : nat -> texture A) (n : nat) :
  drawn_triangles (frames_events (frame_calls fb cb w h name uniform ts image) n)
  = concat (replicate n ts).
Proof.
  induction n as [|n IH]; [reflexivity|].
  cbn [frames_events]. rewrite drawn_triangles_app, IH.
  unfold frame_calls. cbn [drawn_triangles].
  rewrite drawn_triangles_render_events.
  change (ts :: replicate n ts) with (replicate (S n) ts).
  rewrite replicate_S_end, concat_app. cbn [concat]. rewrite app_nil_r. reflexivity.
Qed.

Lemma clears_frames (fb cb : handle) (w h : nat) (name : Z -> string)
    (uniform : nat -> standard_uniform A) (ts : list (triangle A))
    (image : nat -> texture A) (n : nat) :
  filter is_clear (frames_events (frame_calls fb cb w h name uniform ts image) n)
  = replicate n (EvClearFramebuffer (Some fb)).
Proof.
  induction n as [|n IH]; [reflexivity|].
  cbn [frames_events]. rewrite filter_app, IH.
  unfold frame_calls. rewrite filter_cons_False by (cbn [is_clear]; exact id).
  rewrite clears_render_events. reflexivity.
Qed.

Lemma saved_images_app (a b : list (event A)) :
  saved_images (a ++ b) = saved_images b ++ saved_images a.
Proof.
  induction a as [|e a IH]; cbn [app saved_images].
  - rewrite app_nil_r. reflexivity.
  - destruct e; try exact IH. rewrite IH, app_assoc. reflexivity.
Qed.

Lemma saved_images_render_events (fb : ptr) (w h : Z) (c : vector4 A)
    (u : standard_uniform A) (ts : list (triangle A)) :
  saved_images (render_events fb w h c u ts) = [].
Proof.
  unfold render_events. rewrite saved_images_app. cbn [saved_images app].
  induction ts as [|t ts IH]; [reflexivity|].
  cbn [map rev]. rewrite saved_images_app, IH. reflexivity.
Qed.

Lemma saved_images_frames (fb cb : handle) (w h : nat) (name : Z -> string)
    (uniform : nat -> standard_uniform A) (ts : list (triangle A))
    (image : nat -> texture A) (n : nat) :
  saved_images (frames_events (frame_calls fb cb w h name uniform ts image) n)
  = map image (seq 0 n).
Proof.
  induction n as [|n IH]; [reflexivity|].
  cbn [frames_events]. rewrite saved_images_app, IH.
  unfold frame_calls. cbn [saved_images].
  rewrite saved_images_render_events, seq_S, map_app. reflexivity.
Qed.

End TraceFacts.

(** ** The frames and the runs of both drivers *)

Section RunFacts.
Context {A : Type} `{Scalar A}.
Variable env : environment A.
Variable rasterize : rasterizer A.
Variable PI : A.
Variable vector3_normalize : vector3 A -> vector3 A.
Variable matrix4x4_rotate_y : A -> matrix4x4 A.
Variable matrix4x4_look_at : vector3 A -> vector3 A -> vector3 A -> matrix4x4 A.
Variable matrix4x4_perspective : A -> A -> A -> A -> matrix4x4 A.

Local Notation "'violin_frame'" :=
  (Violin.frame rasterize vector3_normalize matrix4x4_rotate_y matrix4x4_look_at
                matrix4x4_perspective).
Local Notation "'eagle_frame'" :=
  (Eagle.frame rasterize vector3_normalize matrix4x4_rotate_y matrix4x4_look_at
               matrix4x4_perspective).
Local Notation "'violin_animate'" :=
  (Violin.animate env rasterize vector3_normalize matrix4x4_rotate_y matrix4x4_look_at
                  matrix4x4_perspective).
Local Notation "'eagle_animate'" :=
  (Eagle.animate env rasterize vector3_normalize matrix4x4_rotate_y matrix4x4_look_at
                 matrix4x4_perspective).
Local Notation "'violin_run'" :=
  (Violin.run env rasterize PI vector3_normalize matrix4x4_rotate_y matrix4x4_look_at
              matrix4x4_perspective).
Local Notation "'eagle_run'" :=
  (Eagle.run env rasterize PI vector3_normalize matrix4x4_rotate_y matrix4x4_look_at
             matrix4x4_perspective).
Local Notation "'violin_uniform'" :=
  (make_uniform vector3_normalize matrix4x4_rotate_y matrix4x4_look_at
                matrix4x4_perspective Violin.IMAGE_WIDTH Violin.IMAGE_HEIGHT
                (Vector3 (lit 10 10) (lit 10 10) (lit 10 10))
                (Vector3 (lit 20 10) (lit 12 10) (lit 9 10)) (lit 10 10)).
Local Notation "'eagle_uniform'" :=
  (make_uniform vector3_normalize matrix4x4_rotate_y matrix4x4_look_at
                matrix4x4_perspective Eagle.IMAGE_WIDTH Eagle.IMAGE_HEIGHT
                (Vector3 (lit 0 10) (lit 0 10) (lit 0 10))
                (Vector3 (lit 98 100) (lit 98 100) (lit 98 100)) (lit 0 10)).
Local Notation "'black'" := (Vector4 (lit 0 10) (lit 0 10) (lit 0 10) (lit 0 10)).
Local Notation "'eagle_after_load'" :=
  (Eagle.after_load env rasterize vector3_normalize matrix4x4_rotate_y matrix4x4_look_at
                    matrix4x4_perspective).

Lemma violin_frame_writes (m : model) (lstd cstd : vector3 A) (i : Z)
    (g : statics A) (w : world A) :
  violin_frame m lstd cstd i (State g w)
  = bind (Violin.render_model rasterize vector3_normalize matrix4x4_rotate_y
            matrix4x4_look_at matrix4x4_perspective m)
         (fun _ => bind (read color_buffer)
                        (fun p => save_image p (Violin.image_name i) true))
         (State (violin_writes lstd cstd i g) w).
Proof. reflexivity. Qed.

Lemma eagle_frame_writes (m : model) (i : Z) (g : statics A) (w : world A) :
  eagle_frame m i (State g w)
  = bind (Eagle.render_model rasterize vector3_normalize matrix4x4_rotate_y
            matrix4x4_look_at matrix4x4_perspective m)
         (fun _ => bind (read color_buffer)
                        (fun p => save_image p (Eagle.image_name i) true))
         (State (eagle_writes i g) w).
Proof. reflexivity. Qed.

Lemma violin_writes_same_pointers (lstd cstd : vector3 A) (i : Z) (g : statics A) :
  same_pointers g (violin_writes lstd cstd i g).
Proof. repeat split. Qed.

Lemma eagle_writes_same_pointers (i : Z) (g : statics A) :
  same_pointers g (eagle_writes i g).
Proof. repeat split. Qed.

(** The statics the violin driver never writes in its loop. *)
Lemma violin_statics_kept (lstd cstd : vector3 A) (n : nat) (g : statics A) :
  rotation_y (statics_after (violin_writes lstd cstd) n g) = rotation_y g
  /\ fov (statics_after (violin_writes lstd cstd) n g) = fov g
  /\ camera_target (statics_after (violin_writes lstd cstd) n g) = camera_target g.
Proof.
  induction n as [|n IH]; [repeat split|]. cbn [statics_after]. exact IH.
Qed.

(** The statics the eagle driver never writes in its loop. *)
Lemma eagle_statics_kept (n : nat) (g : statics A) :
  light_direction (statics_after eagle_writes n g) = light_direction g
  /\ fov (statics_after eagle_writes n g) = fov g
  /\ camera_target (statics_after eagle_writes n g) = camera_target g.
Proof.
  induction n as [|n IH]; [repeat split|]. cbn [statics_after]. exact IH.
Qed.

(** [initialize_rendering] and the first [n] iterations of the loop of the
    violin driver, with the statics and the calls of each iteration. *)
Lemma violin_animate_trace (m : model) (mh : handle) (ms : mesh A) (n : nat)
    (g : statics A) (w : world A) :
  model_mesh m = Some mh -> meshes w !! mh = Some ms ->
  (forall k, (next w <= k < next w + 5)%nat -> alloc_ok env k = true) ->
  exists tc td vp vs fs cc image,
    violin_animate m n (State g w)
    = Some (tt, State (statics_after
                         (violin_writes (light_direction g)
                                        (vector3_normalize (camera_position g)))
                         n (initialized (next w) g))
                  (World (<[S (S (S (S (next w)))) := td]>
                            (<[S (S (S (next w))) := tc]>
                               (<[S (next w) := default_shadow_map]> (textures w))))
                         (<[S (S (next w)) :=
                              Framebuffer (Some (S (S (S (next w)))))
                                          (Some (S (S (S (S (next w))))))]>
                            (<[next w := Framebuffer None (Some (S (next w)))]>
                               (framebuffers w)))
                         (meshes w) (S (S (S (S (S (next w)))))) vp vs fs cc
                         (frames_events
                            (frame_calls (S (S (next w))) (S (S (S (next w))))
                               Violin.IMAGE_WIDTH Violin.IMAGE_HEIGHT Violin.image_name
                               (fun k => violin_uniform
                                           (statics_after
                                              (violin_writes (light_direction g)
                                                 (vector3_normalize (camera_position g)))
                                              (S k) (initialized (next w) g)) m)
                               (triangles ms) image) n
                          ++ init_events Violin.IMAGE_WIDTH Violin.IMAGE_HEIGHT
                               (lit 10 10) (next w)
                          ++ trace w))).
Proof.
  intros Hm Hms Halloc.
  destruct (animate_trace env rasterize vector3_normalize matrix4x4_rotate_y
              matrix4x4_look_at matrix4x4_perspective
              Violin.IMAGE_WIDTH Violin.IMAGE_HEIGHT
              (Vector3 (lit 10 10) (lit 10 10) (lit 10 10))
              (Vector3 (lit 20 10) (lit 12 10) (lit 9 10)) (lit 10 10)
              m (violin_writes (light_direction g) (vector3_normalize (camera_position g)))
              Violin.image_name
              (violin_frame m (light_direction g) (vector3_normalize (camera_position g)))
              mh ms n g w
              (violin_frame_writes m _ _)
              (violin_writes_same_pointers _ _) Hm Hms Halloc)
    as (tc & td & vp & vs & fs & cc & image & E).
  exists tc, td, vp, vs, fs, cc, image.
  rewrite <- E. unfold Violin.animate, Violin.initialize_rendering.
  rewrite !(bind_Some _ _ _ _ _ (initialize_rendering_spec env Violin.IMAGE_WIDTH
                                   Violin.IMAGE_HEIGHT g w Halloc)).
  reflexivity.
Qed.

Lemma eagle_animate_trace (m : model) (mh : handle) (ms : mesh A) (n : nat)
    (g : statics A) (w : world A) :
  model_mesh m = Some mh -> meshes w !! mh = Some ms ->
  (forall k, (next w <= k < next w + 5)%nat -> alloc_ok env k = true) ->
  exists tc td vp vs fs cc image,
    eagle_animate m n (State g w)
    = Some (tt, State (statics_after eagle_writes n (initialized (next w) g))
                  (World (<[S (S (S (S (next w)))) := td]>
                            (<[S (S (S (next w))) := tc]>
                               (<[S (next w) := default_shadow_map]> (textures w))))
                         (<[S (S (next w)) :=
                              Framebuffer (Some (S (S (S (next w)))))
                                          (Some (S (S (S (S (next w))))))]>
                            (<[next w := Framebuffer None (Some (S (next w)))]>
                               (framebuffers w)))
                         (meshes w) (S (S (S (S (S (next w)))))) vp vs fs cc
                         (frames_events
                            (frame_calls (S (S (next w))) (S (S (S (next w))))
                               Eagle.IMAGE_WIDTH Eagle.IMAGE_HEIGHT Eagle.image_name
                               (fun k => eagle_uniform
                                           (statics_after eagle_writes (S k)
                                              (initialized (next w) g)) m)
                               (triangles ms) image) n
                          ++ init_events Eagle.IMAGE_WIDTH Eagle.IMAGE_HEIGHT
                               (lit 10 10) (next w)
                          ++ trace w))).
Proof.
  intros Hm Hms Halloc.
  exact (animate_trace env rasterize vector3_normalize matrix4x4_rotate_y
           matrix4x4_look_at matrix4x4_perspective
           Eagle.IMAGE_WIDTH Eagle.IMAGE_HEIGHT
           (Vector3 (lit 0 10) (lit 0 10) (lit 0 10))
           (Vector3 (lit 98 100) (lit 98 100) (lit 98 100)) (lit 0 10)
           m eagle_writes Eagle.image_name (eagle_frame m) mh ms n g w
           (eagle_frame_writes m) eagle_writes_same_pointers Hm Hms Halloc).
Qed.

Lemma initialized_pointers (n : handle) (g0 g : statics A) :
  same_pointers (initialized n g0) g -> same_pointers (initialized n g) g.
Proof.
  intros (P1 & P2 & P3 & P4 & P5 & _).
  cbn [initialized shadow_framebuffer shadow_map framebuffer_ color_buffer
       depth_buffer] in *.
  repeat split; assumption.
Qed.

(** The calls of a successful load of the violin driver, latest first. *)
Local Notation "'violin_load_events'" :=
  [EvLoadImage Violin.roughness_map_path false (Some 4%nat);
   EvLoadImage Violin.metallic_map_path false (Some 3%nat);
   EvLoadImage Violin.normal_map_path false (Some 2%nat);
   EvLoadImage Violin.base_color_map_path true (Some 1%nat);
   EvLoadMesh Violin.model_path (Some 0%nat)].

Lemma loaded_world_fresh (ms : mesh A) (t1 t2 t3 t4 : texture A)
    (tr : list (event A)) :
  handles_fresh
    (World (<[4%nat := t4]> (<[3%nat := t3]> (<[2%nat := t2]> (<[1%nat := t1]> ∅))))
           ∅ (<[0%nat := ms]> ∅) 5%nat (0, 0, 0, 0) None None
           (Vector4 (of_Z 0) (of_Z 0) (of_Z 0) (of_Z 0)) tr).
Proof.
  intros k Hk. cbn [next textures framebuffers meshes] in *.
  rewrite !lookup_insert_ne by lia. rewrite !lookup_empty. repeat split.
Qed.

Lemma loaded_world_released (t1 t2 t3 t4 : texture A) :
  delete 4%nat (delete 3%nat (delete 2%nat (delete 1%nat
    (<[4%nat := t4]> (<[3%nat := t3]> (<[2%nat := t2]>
       (<[1%nat := t1]> (∅ : gmap handle (texture A)))))))))
  = ∅.
Proof.
  apply map_eq. intros k. rewrite !lookup_delete, !lookup_insert, lookup_empty.
  repeat case_decide; reflexivity.
Qed.

(** A whole run of the violin driver in which the five files are there
    and the five allocations succeed: the state [main] returns in. *)
Lemma violin_run_state (ms : mesh A) (t1 t2 t3 t4 : texture A) :
  mesh_files env Violin.model_path = Some ms ->
  image_files env Violin.base_color_map_path true = Some t1 ->
  image_files env Violin.normal_map_path false = Some t2 ->
  image_files env Violin.metallic_map_path false = Some t3 ->
  image_files env Violin.roughness_map_path false = Some t4 ->
  (forall k, (5 <= k < 10)%nat -> alloc_ok env k = true) ->
  exists g vp vs fs cc uniform image,
    violin_run
    = Some (0, State g
                 (World ∅ ∅ ∅ 10%nat vp vs fs cc
                        (release_events
                         ++ frames_events
                              (frame_calls 7%nat 8%nat Violin.IMAGE_WIDTH
                                 Violin.IMAGE_HEIGHT Violin.image_name uniform
                                 (triangles ms) image)
                              (Z.to_nat frame_count)
                         ++ init_events Violin.IMAGE_WIDTH Violin.IMAGE_HEIGHT
                              (lit 10 10) 5%nat
                         ++ violin_load_events)))
    /\ same_pointers (initialized 5%nat (Violin.initial_statics PI)) g.
Proof.
  intros Hms H1 H2 H3 H4 Halloc.
  unfold Violin.run, Violin.main.
  rewrite (bind_Some _ _ _ _ _ (violin_load_ok env _ ms t1 t2 t3 t4 Hms H1 H2 H3 H4)).
  cbv beta iota.
  match goal with
  | |- context [bind (Violin.animate _ _ _ _ _ _ ?m ?n) _ (State ?g ?w)] =>
      destruct (violin_animate_trace m 0%nat ms n g w eq_refl)
        as (tc & td & vp & vs & fs & cc & image & E)
  end.
  { apply lookup_insert_eq. }
  { exact Halloc. }
  rewrite (bind_Some _ _ _ _ _ E).
  match type of E with
  | _ _ _ (State _ ?w0)
    = Some (_, State ?g1 (World _ _ _ _ _ _ _ _
                                (frames_events (frame_calls _ _ _ _ _ ?u _ _) _ ++ _))) =>
      exists g1, vp, vs, fs, cc, u, image; pose (w1 := w0)
  end.
  split.
  - erewrite (finish_state _ w1 tc td vp vs fs cc _ 0%nat 1%nat 2%nat 3%nat 4%nat
                ms t1 t2 t3 t4);
      unfold w1; cbn [next textures framebuffers meshes]; try lia.
    + rewrite loaded_world_released, delete_insert_eq, delete_empty. reflexivity.
    + eapply initialized_pointers.
      apply statics_after_same_pointers. apply violin_writes_same_pointers.
    + apply loaded_world_fresh.
    + apply lookup_insert_eq.
    + rewrite !lookup_insert_ne by lia. apply lookup_insert_eq.
    + rewrite !lookup_insert_ne by lia. apply lookup_insert_eq.
    + rewrite !lookup_insert_ne by lia. apply lookup_insert_eq.
    + apply lookup_insert_eq.
  - apply statics_after_same_pointers. apply violin_writes_same_pointers.
Qed.

(** The end of [main] of the eagle driver, from a state in which the
    model is loaded and the five allocations of [initialize_rendering]
    succeed: the state [main] returns in. *)
Lemma eagle_after_load_state (ms : mesh A) (t1 t2 t3 t4 : texture A)
    (tr0 : list (event A)) (g0 : statics A) :
  (forall k, (5 <= k < 10)%nat -> alloc_ok env k = true) ->
  exists g vp vs fs cc uniform image,
    eagle_after_load loaded_model (State g0 (loaded_world ms t1 t2 t3 t4 tr0))
    = Some (0, State g
                 (World ∅ ∅ ∅ 10%nat vp vs fs cc
                        (release_events
                         ++ frames_events
                              (frame_calls 7%nat 8%nat Eagle.IMAGE_WIDTH
                                 Eagle.IMAGE_HEIGHT Eagle.image_name uniform
                                 (triangles ms) image)
                              (Z.to_nat frame_count)
                         ++ init_events Eagle.IMAGE_WIDTH Eagle.IMAGE_HEIGHT
                              (lit 10 10) 5%nat
                         ++ tr0)))
    /\ same_pointers (initialized 5%nat g0) g.
Proof.
  intros Halloc.
  unfold Eagle.after_load, loaded_model, loaded_world.
  match goal with
  | |- context [bind (Eagle.animate _ _ _ _ _ _ ?m ?n) _ (State ?g ?w)] =>
      destruct (eagle_animate_trace m 0%nat ms n g w eq_refl)
        as (tc & td & vp & vs & fs & cc & image & E)
  end.
  { apply lookup_insert_eq. }
  { exact Halloc. }
  rewrite (bind_Some _ _ _ _ _ E).
  match type of E with
  | _ _ _ (State _ ?w0)
    = Some (_, State ?g1 (World _ _ _ _ _ _ _ _
                                (frames_events (frame_calls _ _ _ _ _ ?u _ _) _ ++ _))) =>
      exists g1, vp, vs, fs, cc, u, image; pose (w1 := w0)
  end.
  split.
  - erewrite (finish_state _ w1 tc td vp vs fs cc _ 0%nat 1%nat 2%nat 3%nat 4%nat
                ms t1 t2 t3 t4);
      unfold w1; cbn [next textures framebuffers meshes]; try lia.
    + rewrite loaded_world_released, delete_insert_eq, delete_empty. reflexivity.
    + eapply initialized_pointers.
      apply statics_after_same_pointers. apply eagle_writes_same_pointers.
    + apply loaded_world_fresh.
    + apply lookup_insert_eq.
    + rewrite !lookup_insert_ne by lia. apply lookup_insert_eq.
    + rewrite !lookup_insert_ne by lia. apply lookup_insert_eq.
    + rewrite !lookup_insert_ne by lia. apply lookup_insert_eq.
    + apply lookup_insert_eq.
  - apply statics_after_same_pointers. apply eagle_writes_same_pointers.
Qed.

End RunFacts.

(** ** What a frame renders with *)

Section FrameFacts.
Context {A : Type} `{Scalar A}.
Variable env : environment A.
Variable rasterize : rasterizer A.
Variable vector3_normalize : vector3 A -> vector3 A.
Variable matrix4x4_rotate_y : A -> matrix4x4 A.
Variable matrix4x4_look_at : vector3 A -> vector3 A -> vector3 A -> matrix4x4 A.
Variable matrix4x4_perspective : A -> A -> A -> A -> matrix4x4 A.

Local Notation "'violin_frame'" :=
  (Violin.frame rasterize vector3_normalize matrix4x4_rotate_y matrix4x4_look_at
                matrix4x4_perspective).
Local Notation "'eagle_frame'" :=
  (Eagle.frame rasterize vector3_normalize matrix4x4_rotate_y matrix4x4_look_at
               matrix4x4_perspective).
Local Notation "'violin_animate'" :=
  (Violin.animate env rasterize vector3_normalize matrix4x4_rotate_y matrix4x4_look_at
                  matrix4x4_perspective).
Local Notation "'eagle_animate'" :=
  (Eagle.animate env rasterize vector3_normalize matrix4x4_rotate_y matrix4x4_look_at
                 matrix4x4_perspective).
Local Notation "'black'" := (Vector4 (lit 0 10) (lit 0 10) (lit 0 10) (lit 0 10)).

Lemma saved_names_frame_calls (fb cb : handle) (w h : nat) (name : Z -> string)
    (uniform : nat -> standard_uniform A) (ts : list (triangle A))
    (image : nat -> texture A) (k : nat) :
  saved_names (frame_calls fb cb w h name uniform ts image k) = [name (Z.of_nat k)].
Proof.
  unfold frame_calls. cbn [saved_names]. rewrite saved_names_render_events.
  reflexivity.
Qed.

Lemma drawn_triangles_frame_calls (fb cb : handle) (w h : nat) (name : Z -> string)
    (uniform : nat -> standard_uniform A) (ts : list (triangle A))
    (image : nat -> texture A) (k : nat) :
  drawn_triangles (frame_calls fb cb w h name uniform ts image k) = ts.
Proof.
  unfold frame_calls. cbn [drawn_triangles]. apply drawn_triangles_render_events.
Qed.

Lemma drawn_uniforms_frame_calls (fb cb : handle) (w h : nat) (name : Z -> string)
    (uniform : nat -> standard_uniform A) (ts : list (triangle A))
    (image : nat -> texture A) (k : nat) :
  Forall (eq (uniform k)) (drawn_uniforms (frame_calls fb cb w h name uniform ts image k)).
Proof.
  unfold frame_calls. cbn [drawn_uniforms]. apply drawn_uniforms_render_events.
Qed.

(** X5.  On a model whose mesh has no triangle, the body of the loop of
    either driver returns without a call to [draw_triangle], and the image
    it passes to [save_image] is the cleared colour buffer: it has the
    size of the colour buffer and every pixel of it reads (0,0,0,0),
    whatever the rasterizer. *)
Theorem frame_of_empty_mesh_saves_the_clear_colour
    (m : model) (lstd cstd : vector3 A) (i : Z) (g : statics A) (w : world A)
    (fb cb db mh : handle) (tc td : texture A) (ms : mesh A) :
  framebuffer_ g = Some fb -> color_buffer g = Some cb ->
  framebuffers w !! fb = Some (Framebuffer (Some cb) (Some db)) ->
  textures w !! cb = Some tc -> textures w !! db = Some td -> cb <> db ->
  model_mesh m = Some mh -> meshes w !! mh = Some ms -> triangles ms = [] ->
  (exists s image,
      violin_frame m lstd cstd i (State g w) = Some (tt, s)
      /\ saved_images (trace (lib s)) = saved_images (trace w) ++ [image]
      /\ saved_names (trace (lib s)) = saved_names (trace w) ++ [Violin.image_name i]
      /\ drawn_triangles (trace (lib s)) = drawn_triangles (trace w)
      /\ textures (lib s) !! cb = Some image
      /\ width image = width tc /\ height image = height tc
      /\ forall x y, (x < width tc)%nat -> (y < height tc)%nat ->
                     texture_pixel image x y = Some (Color black))
  /\ (exists s image,
         eagle_frame m i (State g w) = Some (tt, s)
         /\ saved_images (trace (lib s)) = saved_images (trace w) ++ [image]
         /\ saved_names (trace (lib s)) = saved_names (trace w) ++ [Eagle.image_name i]
         /\ drawn_triangles (trace (lib s)) = drawn_triangles (trace w)
         /\ textures (lib s) !! cb = Some image
         /\ width image = width tc /\ height image = height tc
         /\ forall x y, (x < width tc)%nat -> (y < height tc)%nat ->
                        texture_pixel image x y = Some (Color black)).
Proof.
  intros Hg Hcb Hfb Hc Hd Hne Hm Hms Hts. split.
  - exists (State (violin_writes lstd cstd i g)
             (World (<[db := cleared (Depth CLEAR_DEPTH) td]>
                       (<[cb := cleared (Color black) tc]> (textures w)))
                    (framebuffers w) (meshes w) (next w)
                    (0, 0, Z.of_nat Violin.IMAGE_WIDTH, Z.of_nat Violin.IMAGE_HEIGHT)
                    (Some standard_vertex_shader) (Some standard_fragment_shader)
                    black
                    (EvSaveImage (Some cb) (Violin.image_name i) true
                                 (cleared (Color black) tc)
                     :: [EvClearFramebuffer (Some fb); EvSetClearColor black;
                         EvSetFragmentShader standard_fragment_shader;
                         EvSetVertexShader standard_vertex_shader;
                         EvSetViewport 0 0 (Z.of_nat Violin.IMAGE_WIDTH)
                                       (Z.of_nat Violin.IMAGE_HEIGHT)]
                     ++ trace w))),
      (cleared (Color black) tc).
    split.
    { rewrite violin_frame_writes.
      apply (render_and_save_empty_mesh rasterize vector3_normalize matrix4x4_rotate_y
               matrix4x4_look_at matrix4x4_perspective
               Violin.IMAGE_WIDTH Violin.IMAGE_HEIGHT _ _ _ m (Violin.image_name i)
               (violin_writes lstd cstd i g) w fb cb db mh tc td ms);
        assumption. }
    cbn [lib trace textures saved_images saved_names drawn_triangles app].
    repeat (split; [reflexivity|]).
    split; [rewrite lookup_insert_ne by auto; apply lookup_insert_eq|].
    split; [reflexivity|]. split; [reflexivity|].
    intros x y Hx Hy. apply texture_pixel_cleared; assumption.
  - exists (State (eagle_writes i g)
             (World (<[db := cleared (Depth CLEAR_DEPTH) td]>
                       (<[cb := cleared (Color black) tc]> (textures w)))
                    (framebuffers w) (meshes w) (next w)
                    (0, 0, Z.of_nat Eagle.IMAGE_WIDTH, Z.of_nat Eagle.IMAGE_HEIGHT)
                    (Some standard_vertex_shader) (Some standard_fragment_shader)
                    black
                    (EvSaveImage (Some cb) (Eagle.image_name i) true
                                 (cleared (Color black) tc)
                     :: [EvClearFramebuffer (Some fb); EvSetClearColor black;
                         EvSetFragmentShader standard_fragment_shader;
                         EvSetVertexShader standard_vertex_shader;
                         EvSetViewport 0 0 (Z.of_nat Eagle.IMAGE_WIDTH)
                                       (Z.of_nat Eagle.IMAGE_HEIGHT)]
                     ++ trace w))),
      (cleared (Color black) tc).
    split.
    { rewrite eagle_frame_writes.
      apply (render_and_save_empty_mesh rasterize vector3_normalize matrix4x4_rotate_y
               matrix4x4_look_at matrix4x4_perspective
               Eagle.IMAGE_WIDTH Eagle.IMAGE_HEIGHT _ _ _ m (Eagle.image_name i)
               (eagle_writes i g) w fb cb db mh tc td ms);
        assumption. }
    cbn [lib trace textures saved_images saved_names drawn_triangles app].
    repeat (split; [reflexivity|]).
    split; [rewrite lookup_insert_ne by auto; apply lookup_insert_eq|].
    split; [reflexivity|]. split; [reflexivity|].
    intros x y Hx Hy. apply texture_pixel_cleared; assumption.
Qed.

(** X6.  In the violin driver, after [initialize_rendering] and k+1
    iterations of the loop: the camera position is the normalized camera
    position of before the loop times the camera distance of frame k, and
    the light direction is the light direction of before the loop plus the
    offset of frame k along x; both are computed from the values taken
    before the loop, not from the previous frame.  [rotation_y], [fov] and
    [camera_target] have never been written.  The latest calls are those
    of frame k: every triangle of the mesh drawn once with the uniform
    block built from exactly these statics, then the image saved under
    the name of frame k. *)
Theorem violin_frame_rendered_with_its_own_parameters
    (m : model) (mh : handle) (ms : mesh A) (k : nat) (g : statics A) (w : world A) :
  model_mesh m = Some mh -> meshes w !! mh = Some ms ->
  (forall j, (next w <= j < next w + 5)%nat -> alloc_ok env j = true) ->
  exists s calls rest,
    violin_animate m (S k) (State g w) = Some (tt, s)
    /\ camera_position (globals s)
       = vector3_multiply_scalar (vector3_normalize (camera_position g))
                                 (violin_camera_distance (Z.of_nat k))
    /\ light_direction (globals s)
       = vector3_add (light_direction g)
                     (Vector3 (violin_light_direction_delta_x (Z.of_nat k))
                              (lit 0 10) (lit 0 10))
    /\ rotation_y (globals s) = rotation_y g
    /\ fov (globals s) = fov g
    /\ camera_target (globals s) = camera_target g
    /\ trace (lib s) = calls ++ rest
    /\ saved_names calls = [Violin.image_name (Z.of_nat k)]
    /\ drawn_triangles calls = triangles ms
    /\ Forall (fun u => u_camera_position u = camera_position (globals s)
                        /\ u_light_direction u
                           = vector3_normalize (light_direction (globals s))
                        /\ local2world u = matrix4x4_rotate_y (rotation_y g))
              (drawn_uniforms calls).
Proof.
  intros Hm Hms Halloc.
  destruct (violin_animate_trace env rasterize vector3_normalize matrix4x4_rotate_y
              matrix4x4_look_at matrix4x4_perspective m mh ms (S k) g w Hm Hms Halloc)
    as (tc & td & vp & vs & fs & cc & image & E).
  destruct (violin_statics_kept (light_direction g)
              (vector3_normalize (camera_position g)) k (initialized (next w) g))
    as (K1 & K2 & K3).
  eexists. eexists. eexists. split; [exact E|].
  cbn [globals lib trace statics_after frames_events].
  split; [reflexivity|]. split; [reflexivity|].
  split; [exact K1|]. split; [exact K2|]. split; [exact K3|].
  split; [rewrite <- app_assoc; reflexivity|].
  split; [apply saved_names_frame_calls|].
  split; [apply drawn_triangles_frame_calls|].
  eapply Forall_impl; [apply drawn_uniforms_frame_calls|].
  intros u <-. cbn [statics_after].
  split; [reflexivity|]. split; [reflexivity|].
  cbn [make_uniform local2world]. f_equal. exact K1.
Qed.

(** X7.  In the eagle driver, after [initialize_rendering] and k+1
    iterations of the loop: [rotation_y] is the rotation of frame k and
    the camera position is the position of frame k, with x = 0; the
    values the statics were initialized with are used for no frame.
    [light_direction], [fov] and [camera_target] have never been written.
    The latest calls are those of frame k: every triangle of the mesh
    drawn once with the uniform block built from exactly these statics,
    then the image saved under the name of frame k. *)
Theorem eagle_frame_rendered_with_its_own_parameters
    (m : model) (mh : handle) (ms : mesh A) (k : nat) (g : statics A) (w : world A) :
  model_mesh m = Some mh -> meshes w !! mh = Some ms ->
  (forall j, (next w <= j < next w + 5)%nat -> alloc_ok env j = true) ->
  exists s calls rest,
    eagle_animate m (S k) (State g w) = Some (tt, s)
    /\ rotation_y (globals s) = Eagle.frame_rotation (Z.of_nat k)
    /\ camera_position (globals s) = eagle_camera_position (Z.of_nat k)
    /\ x3 (camera_position (globals s)) = lit 0 10
    /\ light_direction (globals s) = light_direction g
    /\ fov (globals s) = fov g
    /\ camera_target (globals s) = camera_target g
    /\ trace (lib s) = calls ++ rest
    /\ saved_names calls = [Eagle.image_name (Z.of_nat k)]
    /\ drawn_triangles calls = triangles ms
    /\ Forall (fun u => u_camera_position u = eagle_camera_position (Z.of_nat k)
                        /\ local2world u
                           = matrix4x4_rotate_y (Eagle.frame_rotation (Z.of_nat k))
                        /\ u_light_direction u = vector3_normalize (light_direction g))
              (drawn_uniforms calls).
Proof.
  intros Hm Hms Halloc.
  destruct (eagle_animate_trace env rasterize vector3_normalize matrix4x4_rotate_y
              matrix4x4_look_at matrix4x4_perspective m mh ms (S k) g w Hm Hms Halloc)
    as (tc & td & vp & vs & fs & cc & image & E).
  destruct (eagle_statics_kept k (initialized (next w) g)) as (K1 & K2 & K3).
  eexists. eexists. eexists. split; [exact E|].
  cbn [globals lib trace statics_after frames_events].
  split; [reflexivity|]. split; [reflexivity|]. split; [reflexivity|].
  split; [exact K1|]. split; [exact K2|]. split; [exact K3|].
  split; [rewrite <- app_assoc; reflexivity|].
  split; [apply saved_names_frame_calls|].
  split; [apply drawn_triangles_frame_calls|].
  eapply Forall_impl; [apply drawn_uniforms_frame_calls|].
  intros u <-. cbn [statics_after].
  split; [reflexivity|]. split; [reflexivity|].
  cbn [make_uniform u_light_direction]. f_equal. exact K1.
Qed.

End FrameFacts.

(** ** Whole runs, in binary32 *)

Section WholeRuns.
Variable env : environment F32.t.
Variable rasterize : rasterizer F32.t.
Variable PI : F32.t.
Variable vector3_normalize : vector3 F32.t -> vector3 F32.t.
Variable matrix4x4_rotate_y : F32.t -> matrix4x4 F32.t.
Variable matrix4x4_look_at :
  vector3 F32.t -> vector3 F32.t -> vector3 F32.t -> matrix4x4 F32.t.
Variable matrix4x4_perspective : F32.t -> F32.t -> F32.t -> F32.t -> matrix4x4 F32.t.

Local Notation "'violin_run'" :=
  (Violin.run env rasterize PI vector3_normalize matrix4x4_rotate_y matrix4x4_look_at
              matrix4x4_perspective).
Local Notation "'eagle_after_load'" :=
  (Eagle.after_load env rasterize vector3_normalize matrix4x4_rotate_y matrix4x4_look_at
                    matrix4x4_perspective).

(** X12.  A run of the violin driver that gets through the load and
    through [initialize_rendering] returns 0 with no texture, no
    framebuffer and no mesh left alive: each of the ten objects it created,
    under the handles 0 to 9, has been destroyed.  The last ten calls are
    the ten destructions, [end_rendering] first.  The five statics still
    hold their pointers, to objects that are no longer there.  So does the
    end of [main] of the eagle driver, from any state in which the model is
    loaded under the handles 0 to 4 and nothing else is alive. *)
Theorem successful_run_destroys_every_object :
  (violin_assets_available env ->
   exists s rest,
     violin_run = Some (0, s)
     /\ textures (lib s) = ∅ /\ framebuffers (lib s) = ∅ /\ meshes (lib s) = ∅
     /\ next (lib s) = 10%nat
     /\ trace (lib s) = release_events ++ rest
     /\ same_pointers (initialized 5%nat (Violin.initial_statics PI)) (globals s))
  /\ (forall (ms : mesh F32.t) (t1 t2 t3 t4 : texture F32.t)
             (tr0 : list (event F32.t)) (g : statics F32.t),
        (forall k, (5 <= k < 10)%nat -> alloc_ok env k = true) ->
        exists s rest,
          eagle_after_load loaded_model (State g (loaded_world ms t1 t2 t3 t4 tr0))
          = Some (0, s)
          /\ textures (lib s) = ∅ /\ framebuffers (lib s) = ∅ /\ meshes (lib s) = ∅
          /\ next (lib s) = 10%nat
          /\ trace (lib s) = release_events ++ rest
          /\ same_pointers (initialized 5%nat g) (globals s)).
Proof.
  split.
  - intros ([ms Hms] & [t1 H1] & [t2 H2] & [t3 H3] & [t4 H4] & Halloc).
    destruct (violin_run_state env rasterize PI vector3_normalize matrix4x4_rotate_y
                matrix4x4_look_at matrix4x4_perspective ms t1 t2 t3 t4
                Hms H1 H2 H3 H4 Halloc)
      as (g & vp & vs & fs & cc & uniform & image & E & Hp).
    eexists. eexists. split; [exact E|].
    cbn [lib globals textures framebuffers meshes next trace].
    repeat (split; [reflexivity|]). exact Hp.
  - intros ms t1 t2 t3 t4 tr0 g0 Halloc.
    destruct (eagle_after_load_state env rasterize vector3_normalize
                matrix4x4_rotate_y matrix4x4_look_at matrix4x4_perspective
                ms t1 t2 t3 t4 tr0 g0 Halloc)
      as (g & vp & vs & fs & cc & uniform & image & E & Hp).
    eexists. eexists. split; [exact E|].
    cbn [lib globals textures framebuffers meshes next trace].
    repeat (split; [reflexivity|]). exact Hp.
Qed.

Lemma run_trace_counts (fb cb : handle) (w h : nat) (name : Z -> string)
    (uniform : nat -> standard_uniform F32.t) (ts : list (triangle F32.t))
    (image : nat -> texture F32.t) (n : nat) (v : F32.t)
    (load_events : list (event F32.t)) :
  drawn_triangles load_events = [] -> filter is_clear load_events = [] ->
  saved_images load_events = [] ->
  let tr := release_events
            ++ frames_events (frame_calls fb cb w h name uniform ts image) n
            ++ init_events w h v 5%nat ++ load_events in
  drawn_triangles tr = concat (replicate n ts)
  /\ filter is_clear tr = replicate n (EvClearFramebuffer (Some fb))
  /\ saved_images tr = map image (seq 0 n).
Proof.
  intros D C Sv tr. unfold tr. split; [|split].
  - rewrite !drawn_triangles_app, drawn_triangles_frames, D.
    unfold init_events, release_events. cbn [drawn_triangles app].
    rewrite app_nil_r. reflexivity.
  - rewrite !filter_app, clears_frames, C.
    unfold init_events, release_events. cbn. rewrite app_nil_r. reflexivity.
  - rewrite !saved_images_app, saved_images_frames, Sv.
    unfold init_events, release_events. cbn [saved_images app].
    rewrite app_nil_r. reflexivity.
Qed.

(** X13.  The calls of a run of the violin driver that gets through the
    load and through [initialize_rendering] are, in this order: the load,
    the calls of [initialize_rendering], then for each of the 135 frames
    the calls of [render_model] followed by one [save_image], then the ten
    destructions.  So the framebuffer is cleared 135 times, 135 images are
    saved, and the triangles drawn are the triangles of the mesh in the
    order of the mesh, 135 times over.  The calls of the end of [main] of
    the eagle driver, from any state in which the model is loaded under the
    handles 0 to 4, are the same after those made before. *)
Theorem run_renders_the_whole_mesh_once_per_frame :
  (violin_assets_available env ->
   exists ms s uniform image load_events,
     mesh_files env Violin.model_path = Some ms
     /\ violin_run = Some (0, s)
     /\ trace (lib s)
        = release_events
          ++ frames_events
               (frame_calls 7%nat 8%nat Violin.IMAGE_WIDTH Violin.IMAGE_HEIGHT
                            Violin.image_name uniform (triangles ms) image) 135
          ++ init_events Violin.IMAGE_WIDTH Violin.IMAGE_HEIGHT (lit 10 10) 5%nat
          ++ load_events
     /\ existsb frame_event load_events = false
     /\ drawn_triangles (trace (lib s)) = concat (replicate 135 (triangles ms))
     /\ length (drawn_triangles (trace (lib s))) = (135 * length (triangles ms))%nat
     /\ filter is_clear (trace (lib s)) = replicate 135 (EvClearFramebuffer (Some 7%nat))
     /\ saved_images (trace (lib s)) = map image (seq 0 135))
  /\ (forall (ms : mesh F32.t) (t1 t2 t3 t4 : texture F32.t)
             (tr0 : list (event F32.t)) (g : statics F32.t),
        (forall k, (5 <= k < 10)%nat -> alloc_ok env k = true) ->
        exists s uniform image calls,
          eagle_after_load loaded_model (State g (loaded_world ms t1 t2 t3 t4 tr0))
          = Some (0, s)
          /\ trace (lib s) = calls ++ tr0
          /\ calls
             = release_events
               ++ frames_events
                    (frame_calls 7%nat 8%nat Eagle.IMAGE_WIDTH Eagle.IMAGE_HEIGHT
                                 Eagle.image_name uniform (triangles ms) image) 135
               ++ init_events Eagle.IMAGE_WIDTH Eagle.IMAGE_HEIGHT (lit 10 10) 5%nat
          /\ drawn_triangles calls = concat (replicate 135 (triangles ms))
          /\ length (drawn_triangles calls) = (135 * length (triangles ms))%nat
          /\ filter is_clear calls = replicate 135 (EvClearFramebuffer (Some 7%nat))
          /\ saved_images calls = map image (seq 0 135)).
Proof.
  split.
  - intros ([ms Hms] & [t1 H1] & [t2 H2] & [t3 H3] & [t4 H4] & Halloc).
    destruct (violin_run_state env rasterize PI vector3_normalize matrix4x4_rotate_y
                matrix4x4_look_at matrix4x4_perspective ms t1 t2 t3 t4
                Hms H1 H2 H3 H4 Halloc)
      as (g & vp & vs & fs & cc & uniform & image & E & _).
    rewrite frame_count_binary32 in E. change (Z.to_nat 135) with 135%nat in E.
    exists ms. eexists. exists uniform, image. eexists.
    split; [exact Hms|]. split; [exact E|]. cbn [lib trace].
    split; [reflexivity|]. split; [reflexivity|].
    match goal with
    | |- context [frames_events ?f 135 ++ init_events ?w ?h ?v _ ++ ?l] =>
        destruct (run_trace_counts 7%nat 8%nat w h Violin.image_name uniform
                    (triangles ms) image 135 v l eq_refl eq_refl eq_refl)
          as (D & C & Sv)
    end.
    split; [exact D|]. split; [|split; [exact C|exact Sv]].
    rewrite D, length_concat, fmap_replicate, sum_list_replicate. reflexivity.
  - intros ms t1 t2 t3 t4 tr0 g0 Halloc.
    destruct (eagle_after_load_state env rasterize vector3_normalize
                matrix4x4_rotate_y matrix4x4_look_at matrix4x4_perspective
                ms t1 t2 t3 t4 tr0 g0 Halloc)
      as (g & vp & vs & fs & cc & uniform & image & E & _).
    rewrite frame_count_binary32 in E. change (Z.to_nat 135) with 135%nat in E.
    eexists. exists uniform, image. eexists.
    split; [exact E|]. cbn [lib trace].
    split; [|split; [reflexivity|]]; [rewrite <- !app_assoc; reflexivity|].
    destruct (run_trace_counts 7%nat 8%nat Eagle.IMAGE_WIDTH Eagle.IMAGE_HEIGHT
                Eagle.image_name uniform (triangles ms) image 135 (lit 10 10) []
                eq_refl eq_refl eq_refl)
      as (D & C & Sv).
    rewrite !app_nil_r in D, C, Sv.
    split; [exact D|]. split; [|split; [exact C|exact Sv]].
    rewrite D, length_concat, fmap_replicate, sum_list_replicate. reflexivity.
Qed.

End WholeRuns.

(** ** The load of the model *)

Section LoadFacts.
Context {A : Type} `{Scalar A}.
Variable env : environment A.
Variable rasterize : rasterizer A.
Variable PI : A.
Variable vector3_normalize : vector3 A -> vector3 A.
Variable matrix4x4_rotate_y : A -> matrix4x4 A.
Variable matrix4x4_look_at : vector3 A -> vector3 A -> vector3 A -> matrix4x4 A.
Variable matrix4x4_perspective : A -> A -> A -> A -> matrix4x4 A.

Local Notation "'violin_run'" :=
  (Violin.run env rasterize PI vector3_normalize matrix4x4_rotate_y matrix4x4_look_at
              matrix4x4_perspective).
Local Notation "'eagle_run'" :=
  (Eagle.run env rasterize PI vector3_normalize matrix4x4_rotate_y matrix4x4_look_at
             matrix4x4_perspective).

(** X10.  The load of the violin driver.  When the mesh file is missing,
    [main] returns 0 after two calls only, [load_mesh] and the [printf] of
    the message about the .obj file: no image file is asked for.  When the
    mesh is there, the four image files are always all asked for, in the
    order base colour (as colour data), normal, metallic, roughness (as
    plain data), whether an earlier one failed or not.  If one of them
    failed, the message about the texture files is printed, the mesh is
    destroyed and [destroy_texture] is called once on each of the four
    results, NULL or not; otherwise nothing is printed or destroyed and
    the model holds the four results, none of them NULL. *)
Theorem violin_load_asks_for_every_image :
  (mesh_files env Violin.model_path = None ->
   exists s,
     violin_run = Some (0, s)
     /\ trace (lib s) = [EvPrintf ("Cannot load .obj file." ++ newline);
                         EvLoadMesh Violin.model_path None])
  /\ (is_Some (mesh_files env Violin.model_path) ->
      exists r s1,
        Violin.load env (violin_start PI) = Some (r, s1)
        /\ loaded_images (trace (lib s1))
           = [(Violin.base_color_map_path, true); (Violin.normal_map_path, false);
              (Violin.metallic_map_path, false); (Violin.roughness_map_path, false)]
        /\ match r with
           | Some m =>
               printed (trace (lib s1)) = []
               /\ destroyed_meshes (trace (lib s1)) = []
               /\ destroyed_textures (trace (lib s1)) = []
               /\ model_maps m = load_results (trace (lib s1))
               /\ existsb is_null (model_maps m) = false
           | None =>
               printed (trace (lib s1)) = [("Cannot load texture files." ++ newline)%string]
               /\ destroyed_meshes (trace (lib s1)) = [Some 0%nat]
               /\ destroyed_textures (trace (lib s1)) = load_results (trace (lib s1))
               /\ existsb is_null (load_results (trace (lib s1))) = true
           end).
Proof.
  split.
  - intros Hms. unfold Violin.run, Violin.main, Violin.load.
    unfold bind at 1 2. unfold load_mesh at 1, call at 1. simpl_world. rewrite Hms.
    eexists. split; vm_compute; reflexivity.
  - intros [ms Hms].
    destruct (image_files env Violin.base_color_map_path true) as [t1|] eqn:H1,
             (image_files env Violin.normal_map_path false) as [t2|] eqn:H2,
             (image_files env Violin.metallic_map_path false) as [t3|] eqn:H3,
             (image_files env Violin.roughness_map_path false) as [t4|] eqn:H4;
      unfold violin_start, Violin.load, bind, load_mesh, load_image, call;
      rewrite ?Hms, ?H1, ?H2, ?H3, ?H4;
      evaluate_run; vm_compute; repeat split.
Qed.

(** The three bytes of [normal_data] are outside the contract of
    [set_texture_pixels] for a 1x1 texture of the format RGBA8, which has
    four bytes per pixel; four bytes are inside it. *)
Lemma normal_data_does_not_fit (s : state A) (p : handle) (tx : texture A) :
  textures (lib s) !! p = Some tx ->
  format tx = TEXTURE_FORMAT_RGBA8 -> width tx = 1%nat -> height tx = 1%nat ->
  set_texture_pixels (Some p) [Bytes [128; 128; 255]] s = None
  /\ is_Some (set_texture_pixels (Some p) [Bytes [128; 128; 255; 255]] s).
Proof.
  intros Hp Hf Hw Hh. unfold set_texture_pixels, call. rewrite Hp, Hf, Hw, Hh.
  split; [reflexivity|]. eexists. reflexivity.
Qed.

(** X11.  The load of the eagle driver.  Without the mesh, [main] returns
    0 after the message about the .obj file.  When the mesh is there, the
    image of the base colour is asked for and the three default maps are
    always all created, 1x1 textures of formats RGBA8, R8 and R8, whether
    an earlier step failed or not.  When one of the four pointers is NULL
    no texture is written: the message about the texture files is printed
    (also when it is an allocation that failed), the mesh is destroyed and
    [destroy_texture] is called once on each of the four pointers, NULL or
    not.  When none is NULL, the normal map, with four bytes per pixel, is
    given the three bytes of [normal_data]: the call is outside the
    contract of [set_texture_pixels], whatever the state, and neither the
    load nor [main] returns. *)
Theorem eagle_load_fails_cleanly_or_leaves_the_contract :
  (mesh_files env Eagle.model_path = None ->
   exists s,
     eagle_run = Some (0, s)
     /\ trace (lib s) = [EvPrintf ("Cannot load .obj file." ++ newline);
                         EvLoadMesh Eagle.model_path None])
  /\ (is_Some (mesh_files env Eagle.model_path) -> eagle_load_fails env ->
      exists s1,
        Eagle.load env (eagle_start PI) = Some (None, s1)
        /\ eagle_run = Some (0, s1)
        /\ loaded_images (trace (lib s1)) = [(Eagle.base_color_map_path, true)]
        /\ created_textures (trace (lib s1))
           = [(TEXTURE_FORMAT_RGBA8, 1%nat, 1%nat); (TEXTURE_FORMAT_R8, 1%nat, 1%nat);
              (TEXTURE_FORMAT_R8, 1%nat, 1%nat)]
        /\ printed (trace (lib s1)) = [("Cannot load texture files." ++ newline)%string]
        /\ destroyed_meshes (trace (lib s1)) = [Some 0%nat]
        /\ destroyed_textures (trace (lib s1))
           = load_results (trace (lib s1)) ++ create_results (trace (lib s1))
        /\ existsb is_null (load_results (trace (lib s1))
                            ++ create_results (trace (lib s1))) = true
        /\ pixels_set (trace (lib s1)) = [])
  /\ (~ eagle_load_fails env ->
      Eagle.load env (eagle_start PI) = None /\ eagle_run = None)
  /\ (forall (s : state A) (p : handle) (tx : texture A),
        textures (lib s) !! p = Some tx ->
        format tx = TEXTURE_FORMAT_RGBA8 -> width tx = 1%nat -> height tx = 1%nat ->
        set_texture_pixels (Some p) [Bytes [128; 128; 255]] s = None
        /\ is_Some (set_texture_pixels (Some p) [Bytes [128; 128; 255; 255]] s))
  /\ bytes_per_pixel TEXTURE_FORMAT_RGBA8 = 4%nat.
Proof.
  split; [|split; [|split; [|split; [exact normal_data_does_not_fit|reflexivity]]]].
  - intros Hms. unfold Eagle.run, Eagle.main, Eagle.load.
    unfold bind at 1 2. unfold load_mesh at 1, call at 1. simpl_world. rewrite Hms.
    eexists. split; vm_compute; reflexivity.
  - intros [ms Hms] Hf.
    assert (L : exists s1,
               Eagle.load env (eagle_start PI) = Some (None, s1)
               /\ loaded_images (trace (lib s1)) = [(Eagle.base_color_map_path, true)]
               /\ created_textures (trace (lib s1))
                  = [(TEXTURE_FORMAT_RGBA8, 1%nat, 1%nat);
                     (TEXTURE_FORMAT_R8, 1%nat, 1%nat);
                     (TEXTURE_FORMAT_R8, 1%nat, 1%nat)]
               /\ printed (trace (lib s1))
                  = [("Cannot load texture files." ++ newline)%string]
               /\ destroyed_meshes (trace (lib s1)) = [Some 0%nat]
               /\ destroyed_textures (trace (lib s1))
                  = load_results (trace (lib s1)) ++ create_results (trace (lib s1))
               /\ existsb is_null (load_results (trace (lib s1))
                                   ++ create_results (trace (lib s1))) = true
               /\ pixels_set (trace (lib s1)) = []).
    { destruct (image_files env Eagle.base_color_map_path true) as [t1|] eqn:H1,
               (alloc_ok env 1%nat) eqn:A1, (alloc_ok env 2%nat) eqn:A2,
               (alloc_ok env 3%nat) eqn:A3, (alloc_ok env 4%nat) eqn:A4;
        unfold eagle_start, Eagle.load, initial_world;
        repeat (first [ progress (unfold bind at 1)
                      | progress (unfold load_mesh at 1, call at 1)
                      | progress (unfold load_image at 1, call at 1)
                      | progress (unfold create_texture at 1, call at 1)
                      | progress simpl_world
                      | progress (rewrite ?Hms, ?H1, ?A1, ?A2, ?A3, ?A4)
                      | progress (cbn [is_null orb]) ]);
        match goal with
        | |- exists s1, ?X = Some (None, s1) /\ _ =>
            let v := eval vm_compute in X in
            match v with
            | Some (None, ?s0) =>
                exists s0; split; [vm_compute; reflexivity|vm_compute; repeat split]
            | None =>
                exfalso; destruct Hf as [F|[F|[F|[F|F]]]]; congruence
            end
        end. }
    destruct L as (s1 & E & L). exists s1. split; [exact E|].
    split; [|exact L].
    exact (eagle_run_failure env rasterize PI vector3_normalize matrix4x4_rotate_y
             matrix4x4_look_at matrix4x4_perspective s1 E).
  - intros Hf.
    pose proof (eagle_load_undefined env (Eagle.initial_statics PI) Hf) as E.
    split; [exact E|].
    exact (eagle_run_undefined env rasterize PI vector3_normalize matrix4x4_rotate_y
             matrix4x4_look_at matrix4x4_perspective E).
Qed.

End LoadFacts.

(** ** The name of a frame and the buffer it is printed into *)

Lemma string_length_append (a b : string) :
  String.length (a ++ b) = (String.length a + String.length b)%nat.
Proof.
  induction a as [|c a IH]; [reflexivity|].
  change (S (String.length (a ++ b)) = S (String.length a + String.length b)).
  f_equal. exact IH.
Qed.

Lemma zeros_length (n : nat) : String.length (zeros n) = n.
Proof.
  induction n as [|n IH]; [reflexivity|].
  change (S (String.length (zeros n)) = S n). f_equal. exact IH.
Qed.

(** A number below 10^k is written with at most k digits. *)
Lemma digits_length (k : nat) :
  forall (fuel n : nat) (acc : string),
    (1 <= k)%nat -> Z.of_nat n < 10 ^ Z.of_nat k ->
    (String.length (digits fuel n acc) <= k + String.length acc)%nat.
Proof.
  induction k as [|k IH]; intros fuel n acc Hk Hn; [lia|].
  destruct fuel as [|fuel]; cbn [digits]; [lia|].
  destruct (Nat.eqb_spec (n / 10) 0) as [E|E]; [cbn [String.length]; lia|].
  assert (Hn' : Z.of_nat (n / 10) < 10 ^ Z.of_nat k).
  { rewrite Nat2Z.inj_div. change (Z.of_nat 10) with 10.
    apply Z.div_lt_upper_bound; [lia|].
    rewrite Nat2Z.inj_succ, Z.pow_succ_r in Hn by lia. exact Hn. }
  destruct k as [|k].
  - exfalso. change (10 ^ Z.of_nat 0) with 1 in Hn'. lia.
  - specialize (IH fuel (n / 10)%nat (String (digit n) acc) ltac:(lia) Hn').
    cbn [String.length] in IH. lia.
Qed.

Lemma format_d_length (i : Z) :
  INT_MIN <= i <= INT_MAX -> (String.length (format_d 3 i) <= 11)%nat.
Proof.
  intros Hi. unfold format_d.
  assert (L : (String.length (digits 20 (Z.abs_nat i) EmptyString) <= 10)%nat).
  { pose proof (digits_length 10 20 (Z.abs_nat i) EmptyString ltac:(lia)) as L.
    cbn [String.length] in L. rewrite Nat.add_0_r in L. apply L.
    rewrite Zabs2Nat.id_abs. change (Z.of_nat 10) with 10.
    unfold INT_MIN, INT_MAX in Hi. lia. }
  destruct (i <? 0); cbn [String.length];
    rewrite string_length_append, zeros_length; lia.
Qed.

(** X9.  The name of a frame fits the buffer [char image_name[30]] it is
    printed into, with its terminating null character, in both drivers
    and for every value an [int] can take, not only for the 135 frame
    indices; for these the names have 16 and 15 characters. *)
Theorem image_name_fits_its_buffer (i : Z) :
  INT_MIN <= i <= INT_MAX ->
  (String.length (Violin.image_name i) + 1 <= image_name_size)%nat
  /\ (String.length (Eagle.image_name i) + 1 <= image_name_size)%nat
  /\ (0 <= i < 135 ->
      String.length (Violin.image_name i) = 16%nat
      /\ String.length (Eagle.image_name i) = 15%nat).
Proof.
  intros Hi. pose proof (format_d_length i Hi) as L.
  unfold Violin.image_name, Eagle.image_name, image_name_size.
  rewrite !string_length_append. cbn [String.length].
  split; [lia|]. split; [lia|].
  intros Hf. destruct (image_names_three_digits i Hf) as (E & _).
  rewrite E. cbn [three_digits String.length]. split; reflexivity.
Qed.

(** ** The interpolant of a frame, in binary32 *)

Lemma frame_time_range (i : Z) :
  0 <= i < 135 ->
  F32.leb (F32.of_Z 0) (frame_time (A := F32.t) i)
  && F32.ltb (frame_time (A := F32.t) i) (F32.of_Z 1) = true.
Proof.
  apply (below_135 (fun i => F32.leb (F32.of_Z 0) (frame_time (A := F32.t) i)
                             && F32.ltb (frame_time (A := F32.t) i) (F32.of_Z 1))).
  vm_compute. reflexivity.
Qed.

(** The interpolants of the 135 frames, computed once. *)
Lemma frame_times_increase :
  forallb (fun i => forallb (fun j => if (i <? j)%nat
                                      then F32.ltb (frame_time (A := F32.t) (Z.of_nat i))
                                                   (frame_time (A := F32.t) (Z.of_nat j))
                                      else true)
                            (seq 0 135))
          (seq 0 135) = true.
Proof. vm_compute. reflexivity. Qed.

(** X8.  [float t = (float)i / frame_count] in binary32, for the 135
    frames of either driver: it is exactly 0 at frame 0, it grows strictly
    with the index, and it stays strictly below 1: the last frame is
    rendered at 134/135, to within 1e-7. *)
Theorem frame_time_stays_below_one :
  frame_time (A := F32.t) 0 = F32.of_Z 0
  /\ (forall i, 0 <= i < 135 ->
        F32.leb (F32.of_Z 0) (frame_time i) = true
        /\ F32.ltb (frame_time i) (F32.of_Z 1) = true)
  /\ (forall i j, 0 <= i < 135 -> 0 <= j < 135 -> i < j ->
        F32.ltb (frame_time (A := F32.t) i) (frame_time j) = true)
  /\ ((134 # 135) - (1 # 10000000) <= F32.to_Q (frame_time 134)
      <= (134 # 135) + (1 # 10000000))%Q.
Proof.
  split; [vm_compute; reflexivity|].
  split.
  { intros i Hi. apply andb_true_iff. apply frame_time_range. exact Hi. }
  split.
  { intros i j Hi Hj Hij.
    pose proof frame_times_increase as Hall. rewrite forallb_forall in Hall.
    specialize (Hall (Z.to_nat i) ltac:(apply in_seq; lia)).
    rewrite forallb_forall in Hall.
    specialize (Hall (Z.to_nat j) ltac:(apply in_seq; lia)).
    rewrite !Z2Nat.id in Hall by lia.
    destruct (Nat.ltb_spec (Z.to_nat i) (Z.to_nat j)); [exact Hall|lia]. }
  split; apply Qle_bool_iff; vm_compute; reflexivity.
Qed.


(** ** The further properties on concrete inputs *)

Lemma initial_world_fresh : handles_fresh (initial_world (A := F32.t)).
Proof. intros k Hk. cbn [initial_world textures framebuffers meshes]. repeat split. Defined.

Lemma initialize_rendering_sets_up_both_framebuffers_witness :
  exists s',
    initialize_rendering (sample_environment (A := F32.t)) 2%nat 2%nat
      (State sample_statics initial_world) = Some (tt, s')
    /\ globals s' = initialized 0%nat sample_statics
    /\ framebuffers (lib s') !! 2%nat = Some (Framebuffer (Some 3%nat) (Some 4%nat))
    /\ next (lib s') = 5%nat.
Proof.
  destruct (initialize_rendering_sets_up_both_framebuffers
              (sample_environment (A := F32.t)) 2%nat 2%nat sample_statics initial_world
              (sample_allocations 0%nat))
    as (s' & E & Hg & _ & Hf & _ & _ & _ & _ & _ & Hn).
  exists s'. repeat split; assumption.
Defined.

Lemma end_rendering_releases_what_initialize_rendering_created_witness :
  exists s',
    bind (initialize_rendering (sample_environment (A := F32.t)) 2%nat 2%nat)
         (fun _ => end_rendering) (State sample_statics initial_world) = Some (tt, s')
    /\ textures (lib s') = ∅
    /\ framebuffers (lib s') = ∅
    /\ color_buffer (globals s') = Some 3%nat
    /\ textures (lib s') !! 3%nat = None.
Proof.
  destruct (end_rendering_releases_what_initialize_rendering_created
              (sample_environment (A := F32.t)) 2%nat 2%nat sample_statics initial_world
              (sample_allocations 0%nat) initial_world_fresh)
    as (s' & E & Ht & Hf & _ & Hg & _ & Hc & _).
  exists s'. split; [exact E|]. split; [exact Ht|]. split; [exact Hf|].
  split; [rewrite Hg; reflexivity|exact Hc].
Defined.

Lemma render_model_changes_only_the_attachments_witness :
  exists s',
    render_model (A := F32.t) sample_rasterizer sample_normalize sample_rotate_y
      sample_look_at sample_perspective 2%nat 2%nat VECTOR3_ONE VECTOR3_ONE (of_Z 1)
      sample_model (State sample_statics sample_world) = Some (tt, s')
    /\ globals s' = sample_statics
    /\ textures (lib s') !! 1%nat = Some default_shadow_map
    /\ viewport (lib s') = (0, 0, 2, 2).
Proof.
  destruct (render_model_changes_only_the_attachments (A := F32.t)
              sample_rasterizer sample_normalize sample_rotate_y sample_look_at
              sample_perspective 2%nat 2%nat VECTOR3_ONE VECTOR3_ONE (of_Z 1)
              sample_model sample_statics sample_world 2%nat 3%nat 4%nat 5%nat
              sample_color_buffer sample_depth_buffer sample_mesh)
    as (s' & E & Hg & _ & _ & _ & Ht & _ & _ & Hv & _);
    try reflexivity; try lia.
  exists s'. split; [exact E|]. split; [exact Hg|].
  split; [|exact Hv].
  etransitivity; [apply Ht; lia|reflexivity].
Defined.

Lemma render_model_draws_each_triangle_once_witness :
  exists s' (draws : list (event F32.t)),
    render_model (A := F32.t) sample_rasterizer sample_normalize sample_rotate_y
      sample_look_at sample_perspective 2%nat 2%nat VECTOR3_ONE VECTOR3_ONE (of_Z 1)
      sample_model (State sample_statics sample_world) = Some (tt, s')
    /\ drawn_triangles draws = [sample_triangle; sample_triangle]
    /\ length draws = 2%nat.
Proof.
  destruct (render_model_draws_each_triangle_once (A := F32.t)
              sample_rasterizer sample_normalize sample_rotate_y sample_look_at
              sample_perspective 2%nat 2%nat VECTOR3_ONE VECTOR3_ONE (of_Z 1)
              sample_model sample_statics sample_world 2%nat 3%nat 4%nat 5%nat
              sample_color_buffer sample_depth_buffer sample_mesh)
    as (s' & draws & E & _ & _ & _ & Hd & Hl & _);
    try reflexivity; try lia.
  exists s', draws. split; [exact E|]. split; [exact Hd|exact Hl].
Defined.

Lemma frame_of_empty_mesh_saves_the_clear_colour_witness :
  (exists s image,
      Violin.frame (A := F32.t) sample_rasterizer sample_normalize sample_rotate_y
        sample_look_at sample_perspective sample_model VECTOR3_ONE VECTOR3_ONE 3
        (State sample_statics sample_world_empty_mesh) = Some (tt, s)
      /\ saved_images (trace (lib s)) = [image]
      /\ texture_pixel image 1%nat 1%nat
         = Some (Color (Vector4 (lit 0 10) (lit 0 10) (lit 0 10) (lit 0 10))))
  /\ (exists s image,
         Eagle.frame (A := F32.t) sample_rasterizer sample_normalize sample_rotate_y
           sample_look_at sample_perspective sample_model 3
           (State sample_statics sample_world_empty_mesh) = Some (tt, s)
         /\ saved_images (trace (lib s)) = [image]
         /\ texture_pixel image 1%nat 1%nat
            = Some (Color (Vector4 (lit 0 10) (lit 0 10) (lit 0 10) (lit 0 10)))).
Proof.
  destruct (frame_of_empty_mesh_saves_the_clear_colour (A := F32.t)
              sample_rasterizer sample_normalize sample_rotate_y sample_look_at
              sample_perspective sample_model VECTOR3_ONE VECTOR3_ONE 3
              sample_statics sample_world_empty_mesh 2%nat 3%nat 4%nat 5%nat
              sample_color_buffer sample_depth_buffer empty_mesh)
    as ((s & image & E & Hs & _ & _ & _ & _ & _ & Hp)
        & (s2 & image2 & E2 & Hs2 & _ & _ & _ & _ & _ & Hp2));
    try reflexivity; try lia.
  split.
  - exists s, image. split; [exact E|]. split; [exact Hs|].
    apply Hp; cbn; lia.
  - exists s2, image2. split; [exact E2|]. split; [exact Hs2|].
    apply Hp2; cbn; lia.
Defined.

Lemma violin_frame_rendered_with_its_own_parameters_witness :
  exists s,
    Violin.animate (A := F32.t) sample_environment sample_rasterizer sample_normalize
      sample_rotate_y sample_look_at sample_perspective sample_model 3%nat
      (State sample_statics sample_world) = Some (tt, s)
    /\ camera_position (globals s)
       = vector3_multiply_scalar (camera_position sample_statics)
                                 (violin_camera_distance 2)
    /\ rotation_y (globals s) = rotation_y sample_statics.
Proof.
  destruct (violin_frame_rendered_with_its_own_parameters (A := F32.t)
              sample_environment sample_rasterizer sample_normalize sample_rotate_y
              sample_look_at sample_perspective sample_model 5%nat sample_mesh 2%nat
              sample_statics sample_world eq_refl eq_refl (sample_allocations 6%nat))
    as (s & calls & rest & E & Hc & _ & Hr & _).
  exists s. split; [exact E|]. split; [exact Hc|exact Hr].
Defined.

Lemma eagle_frame_rendered_with_its_own_parameters_witness :
  exists s,
    Eagle.animate (A := F32.t) sample_environment sample_rasterizer sample_normalize
      sample_rotate_y sample_look_at sample_perspective sample_model 3%nat
      (State sample_statics sample_world) = Some (tt, s)
    /\ rotation_y (globals s) = Eagle.frame_rotation 2
    /\ light_direction (globals s) = light_direction sample_statics.
Proof.
  destruct (eagle_frame_rendered_with_its_own_parameters (A := F32.t)
              sample_environment sample_rasterizer sample_normalize sample_rotate_y
              sample_look_at sample_perspective sample_model 5%nat sample_mesh 2%nat
              sample_statics sample_world eq_refl eq_refl (sample_allocations 6%nat))
    as (s & calls & rest & E & Hr & _ & _ & Hl & _).
  exists s. split; [exact E|]. split; [exact Hr|exact Hl].
Defined.

Lemma frame_time_stays_below_one_witness :
  F32.ltb (frame_time (A := F32.t) 133) (frame_time 134) = true
  /\ F32.ltb (frame_time (A := F32.t) 134) (F32.of_Z 1) = true.
Proof.
  pose proof frame_time_stays_below_one as (_ & Hr & Hi & _).
  split; [apply Hi; lia|]. apply (Hr 134). lia.
Defined.

Lemma image_name_fits_its_buffer_witness :
  (String.length (Violin.image_name 134) + 1 <= image_name_size)%nat
  /\ (String.length (Eagle.image_name (-7)) + 1 <= image_name_size)%nat.
Proof.
  split.
  - apply (image_name_fits_its_buffer 134). unfold INT_MIN, INT_MAX. lia.
  - apply (image_name_fits_its_buffer (-7)). unfold INT_MIN, INT_MAX. lia.
Defined.

Lemma violin_load_asks_for_every_image_witness :
  exists r s1,
    Violin.load (A := F32.t) environment_without_normal_map (violin_start sample_PI)
    = Some (r, s1)
    /\ loaded_images (trace (lib s1))
       = [(Violin.base_color_map_path, true); (Violin.normal_map_path, false);
          (Violin.metallic_map_path, false); (Violin.roughness_map_path, false)].
Proof.
  destruct (proj2 (violin_load_asks_for_every_image (A := F32.t)
                     environment_without_normal_map sample_rasterizer sample_PI
                     sample_normalize sample_rotate_y sample_look_at sample_perspective))
    as (r & s1 & E & Hl & _).
  { eexists. reflexivity. }
  exists r, s1. split; [exact E|exact Hl].
Defined.

Lemma eagle_load_fails_cleanly_or_leaves_the_contract_witness :
  (exists s1,
      Eagle.load (A := F32.t) environment_failing_allocation (eagle_start sample_PI)
      = Some (None, s1)
      /\ created_textures (trace (lib s1))
         = [(TEXTURE_FORMAT_RGBA8, 1%nat, 1%nat); (TEXTURE_FORMAT_R8, 1%nat, 1%nat);
            (TEXTURE_FORMAT_R8, 1%nat, 1%nat)]
      /\ destroyed_textures (trace (lib s1))
         = [Some 1%nat; Some 2%nat; None; Some 4%nat]
      /\ pixels_set (trace (lib s1)) = [])
  /\ Eagle.load (A := F32.t) sample_environment (eagle_start sample_PI) = None
  /\ Eagle.run (A := F32.t) sample_environment sample_rasterizer sample_PI
       sample_normalize sample_rotate_y sample_look_at sample_perspective = None
  /\ set_texture_pixels (A := F32.t) (Some 2%nat) [Bytes [128; 128; 255]]
       (State (Eagle.initial_statics sample_PI) eagle_loaded_world) = None.
Proof.
  split; [|split; [|split]].
  - destruct (proj1 (proj2 (eagle_load_fails_cleanly_or_leaves_the_contract
                              (A := F32.t) environment_failing_allocation
                              sample_rasterizer sample_PI sample_normalize
                              sample_rotate_y sample_look_at sample_perspective)))
      as (s1 & E & _ & _ & Hc & _ & _ & Hd & _ & Hp).
    { eexists. reflexivity. }
    { right. right. right. left. reflexivity. }
    exists s1. split; [exact E|]. split; [exact Hc|]. split; [|exact Hp].
    rewrite Hd.
    assert (E' : Some (@None model, s1)
                 = Eagle.load _ (eagle_start (A := F32.t) sample_PI))
      by (symmetry; exact E).
    vm_compute in E'. injection E' as ->. reflexivity.
  - apply (proj1 (proj2 (proj2 (eagle_load_fails_cleanly_or_leaves_the_contract
                                  (A := F32.t) sample_environment
                                  sample_rasterizer sample_PI sample_normalize
                                  sample_rotate_y sample_look_at sample_perspective)))).
    intros [F|[F|[F|[F|F]]]]; discriminate F.
  - apply (proj1 (proj2 (proj2 (eagle_load_fails_cleanly_or_leaves_the_contract
                                  (A := F32.t) sample_environment
                                  sample_rasterizer sample_PI sample_normalize
                                  sample_rotate_y sample_look_at sample_perspective)))).
    intros [F|[F|[F|[F|F]]]]; discriminate F.
  - apply (proj1 (proj2 (proj2 (proj2 (eagle_load_fails_cleanly_or_leaves_the_contract
                                  (A := F32.t) sample_environment
                                  sample_rasterizer sample_PI sample_normalize
                                  sample_rotate_y sample_look_at sample_perspective))))
             (State (Eagle.initial_statics sample_PI) eagle_loaded_world) 2%nat
             (Texture TEXTURE_FORMAT_RGBA8 1 1 [Bytes [128; 128; 255; 255]]));
      reflexivity.
Defined.

Lemma successful_run_destroys_every_object_witness :
  (exists s, Violin.run (A := F32.t) sample_environment sample_rasterizer sample_PI
               sample_normalize sample_rotate_y sample_look_at sample_perspective
             = Some (0, s)
             /\ textures (lib s) = ∅ /\ framebuffers (lib s) = ∅ /\ meshes (lib s) = ∅)
  /\ (exists s, Eagle.after_load (A := F32.t) sample_environment sample_rasterizer
                  sample_normalize sample_rotate_y sample_look_at sample_perspective
                  eagle_loaded_model
                  (State (Eagle.initial_statics sample_PI) eagle_loaded_world)
                = Some (0, s)
                /\ textures (lib s) = ∅ /\ framebuffers (lib s) = ∅
                /\ meshes (lib s) = ∅).
Proof.
  pose proof (successful_run_destroys_every_object
                sample_environment sample_rasterizer sample_PI sample_normalize
                sample_rotate_y sample_look_at sample_perspective) as (Hv & He).
  destruct (Hv sample_violin_assets_available) as (s & rest & E & Ht & Hf & Hm & _).
  destruct (He sample_mesh sample_image
              (Texture TEXTURE_FORMAT_RGBA8 1 1 [Bytes [128; 128; 255; 255]])
              (Texture TEXTURE_FORMAT_R8 1 1 [Bytes [255]])
              (Texture TEXTURE_FORMAT_R8 1 1 [Bytes [255]]) []
              (Eagle.initial_statics sample_PI) (sample_allocations 5%nat))
    as (s2 & rest2 & E2 & Ht2 & Hf2 & Hm2 & _).
  split.
  - exists s. repeat split; assumption.
  - exists s2. repeat split; assumption.
Defined.

Lemma run_renders_the_whole_mesh_once_per_frame_witness :
  (exists s, Violin.run (A := F32.t) sample_environment sample_rasterizer sample_PI
               sample_normalize sample_rotate_y sample_look_at sample_perspective
             = Some (0, s)
             /\ length (drawn_triangles (trace (lib s))) = 270%nat)
  /\ (exists s, Eagle.after_load (A := F32.t) sample_environment sample_rasterizer
                  sample_normalize sample_rotate_y sample_look_at sample_perspective
                  eagle_loaded_model
                  (State (Eagle.initial_statics sample_PI) eagle_loaded_world)
                = Some (0, s)
                /\ length (drawn_triangles (trace (lib s))) = 270%nat).
Proof.
  pose proof (run_renders_the_whole_mesh_once_per_frame
                sample_environment sample_rasterizer sample_PI sample_normalize
                sample_rotate_y sample_look_at sample_perspective) as (Hv & He).
  destruct (Hv sample_violin_assets_available)
    as (ms & s & u & image & l & Hms & E & _ & _ & _ & Hl & _).
  destruct (He sample_mesh sample_image
              (Texture TEXTURE_FORMAT_RGBA8 1 1 [Bytes [128; 128; 255; 255]])
              (Texture TEXTURE_FORMAT_R8 1 1 [Bytes [255]])
              (Texture TEXTURE_FORMAT_R8 1 1 [Bytes [255]]) []
              (Eagle.initial_statics sample_PI) (sample_allocations 5%nat))
    as (s2 & u2 & image2 & calls & E2 & Htr & _ & _ & Hl2 & _).
  injection Hms as <-.
  split.
  - exists s. split; [exact E|exact Hl].
  - exists s2. split; [exact E2|]. rewrite Htr, app_nil_r. exact Hl2.
Defined.
